(** * R6-Unpacker: a shallow embedding of the binary decoding pipeline

    The Python sources ([binstream.py], [r6s/forge.py], [r6s/tex.py],
    [r6s/mesh/__init__.py], [r6s/mesh/unpack.py], [r6s/common.py],
    [r6s/collector.py]) are transcribed function by function.

    - Python integers are [Z]; a [bytes] object is a [list byte].
    - A Python exception is a value of [py.exn]; code that may raise
      returns [py.result].
    - A binary stream (an open file or an [io.BytesIO]) is a buffer with a
      cursor; code reading from a stream is a state-passing function
      [pyio.io].
    - Floating point arithmetic is kept symbolic ([py.float]): the decoders
      build the term that Python would evaluate.

    The first part of the file holds the embedding, the second part the
    properties proved about it. *)

From Stdlib Require Import ZArith List Lia Bool.
From Stdlib.Strings Require Import Byte.
From stdpp Require Import gmap strings list sorting.

Local Open Scope Z_scope.

(* ================================================================== *)
(** * Part I: the embedding                                             *)
(* ================================================================== *)

(** ** The fragment of Python the sources rely on *)

Module py.

(** Exceptions raised by the sources or by the built-ins they call. *)
Inductive exn : Type :=
| StructError        (* struct.unpack on a buffer of the wrong size *)
| AssertionError
| ValueError
| AttributeError
| KeyError
| IndexError
| ZeroDivisionError
| OSError
| FileNotFoundError
| ZstdError
| Exception.         (* a bare [raise Exception(...)] *)

Definition result (A : Type) : Type := (exn + A)%type.

Definition ok {A} (a : A) : result A := inr a.
Definition raise {A} (e : exn) : result A := inl e.

Definition bind {A B} (m : result A) (k : A → result B) : result B :=
  match m with
  | inl e => inl e
  | inr a => k a
  end.

Definition assert (b : bool) : result unit :=
  if b then ok tt else raise AssertionError.

Definition bytes : Type := list byte.

#[global] Instance byte_eq_dec : EqDecision byte := Byte.byte_eq_dec.

Definition byte_val (b : byte) : Z := Z.of_N (Byte.to_N b).

(** Normalisation of one slice bound against a sequence of length [len]:
    negative bounds count from the end, everything is clamped. *)
Definition slice_bound (len i : Z) : Z :=
  if i <? 0 then Z.max (i + len) 0 else Z.min i len.

(** [l[start:stop]] *)
Definition slice {A} (l : list A) (start stop : Z) : list A :=
  let len := Z.of_nat (length l) in
  let a := slice_bound len start in
  let b := slice_bound len stop in
  take (Z.to_nat (b - a)) (drop (Z.to_nat a) l).

(** [l[:stop]] *)
Definition slice_to {A} (l : list A) (stop : Z) : list A := slice l 0 stop.

(** [l[i]], with negative indices and [IndexError]. *)
Definition index {A} (l : list A) (i : Z) : result A :=
  let len := Z.of_nat (length l) in
  let j := if i <? 0 then i + len else i in
  if (j <? 0) || (len <=? j) then raise IndexError
  else match l !! Z.to_nat j with
       | Some x => ok x
       | None => raise IndexError
       end.

(** [s.find(c)] for a one-byte needle: first position, or [-1]. *)
Fixpoint find_from (s : bytes) (c : byte) (i : Z) : Z :=
  match s with
  | [] => -1
  | b :: t => if Byte.eqb b c then i else find_from t c (i + 1)
  end.

Definition find (s : bytes) (c : byte) : Z := find_from s c 0.

(** Python floats are not interpreted: a decoder returns the term whose
    value Python would compute. *)
Inductive float : Type :=
| f32 (bits : Z)                  (* struct 'f' applied to 4 bytes *)
| f16 (bits : Z)                  (* struct 'e' applied to 2 bytes *)
| fint (n : Z)                    (* an int used in float arithmetic *)
| fmul (a b : float)
| fdiv (a b : float)
| fsub (a b : float).

End py.

Notation "'let?' x ':=' e 'in' k" := (py.bind e (fun x => k))
  (at level 10, x pattern, e at level 100, k at level 200, only parsing).

(** ** Binary streams: open files and [io.BytesIO] *)

Module pyio.

(** [in_memory] tells an [io.BytesIO] from a file object: the two differ
    when a relative seek would land before the start of the stream. *)
Record stream : Type := Stream {
  buf : py.bytes;
  pos : Z;
  in_memory : bool
}.

Definition BytesIO (b : py.bytes) : stream := Stream b 0 true.
Definition open (b : py.bytes) : stream := Stream b 0 false.

Definition size (r : stream) : Z := Z.of_nat (length (buf r)).

(** Code running against a stream. *)
Definition io (A : Type) : Type := stream → py.result (A * stream).

Definition ret {A} (a : A) : io A := fun r => py.ok (a, r).
Definition fail {A} (e : py.exn) : io A := fun _ => py.raise e.
Definition bind {A B} (m : io A) (k : A → io B) : io B :=
  fun r => match m r with
           | inl e => inl e
           | inr (a, r') => k a r'
           end.
Definition lift {A} (m : py.result A) : io A :=
  fun r => match m with
           | inl e => inl e
           | inr a => inr (a, r)
           end.
Definition assert (b : bool) : io unit := lift (py.assert b).

(** [r.tell()] *)
Definition tell : io Z := fun r => py.ok (pos r, r).

(** [r.read(n)]: at most [n] bytes, fewer at the end of the stream; a
    negative [n] reads everything that is left. *)
Definition read (n : Z) : io py.bytes :=
  fun r =>
    let rest := drop (Z.to_nat (pos r)) (buf r) in
    let got := if n <? 0 then rest else take (Z.to_nat n) rest in
    py.ok (got, Stream (buf r) (pos r + Z.of_nat (length got)) (in_memory r)).

(** [r.read()] *)
Definition read_all : io py.bytes := read (-1).

(** [r.seek(off)] / [r.seek(off, io.SEEK_SET)] *)
Definition seek (off : Z) : io unit :=
  fun r =>
    if off <? 0 then py.raise (if in_memory r then py.ValueError else py.OSError)
    else py.ok (tt, Stream (buf r) off (in_memory r)).

(** A relative seek to [target]: a file refuses a negative position, a
    [BytesIO] clamps it to zero. *)
Definition seek_rel (target : Z) : io unit :=
  fun r =>
    if target <? 0 then
      if in_memory r then py.ok (tt, Stream (buf r) 0 true)
      else py.raise py.OSError
    else py.ok (tt, Stream (buf r) target (in_memory r)).

(** [r.seek(off, io.SEEK_CUR)] *)
Definition seek_cur (off : Z) : io unit := fun r => seek_rel (pos r + off) r.

(** [r.seek(off, io.SEEK_END)] *)
Definition seek_end (off : Z) : io unit := fun r => seek_rel (size r + off) r.

(** [w.write(b)] on a fresh [BytesIO] that is only ever appended to. *)
Definition write (b : py.bytes) : io unit :=
  fun w => py.ok (tt, Stream (buf w ++ b) (pos w + Z.of_nat (length b)) (in_memory w)).

(** [[f(r) for _ in range(n)]] *)
Fixpoint repeat_n {A} (n : nat) (f : io A) : io (list A) :=
  match n with
  | O => ret []
  | S n' => bind f (fun x => bind (repeat_n n' f) (fun xs => ret (x :: xs)))
  end.

(** [range(n)] runs [max(n, 0)] times. *)
Definition times {A} (n : Z) (f : io A) : io (list A) := repeat_n (Z.to_nat n) f.

(** [w.write(b)] at any cursor of a writable stream: the bytes replace
    what is stored from the cursor on; when the cursor stands beyond the
    end, a non-empty write first pads the gap with NUL bytes. *)
Definition write_at (b : py.bytes) : io unit :=
  fun w =>
    let p := Z.to_nat (pos w) in
    let n := length b in
    let buf' :=
      match b with
      | [] => buf w
      | _ => take p (buf w) ++ replicate (p - length (buf w)) x00 ++ b
             ++ drop (p + n) (buf w)
      end in
    py.ok (tt, Stream buf' (pos w + Z.of_nat n) (in_memory w)).

End pyio.

Notation "'let*' x ':=' e 'in' k" := (pyio.bind e (fun x => k))
  (at level 10, x pattern, e at level 100, k at level 200, only parsing).
Notation "e1 ';;' k" := (pyio.bind e1 (fun _ => k))
  (at level 100, k at level 200, right associativity, only parsing).

(** ** binstream.py *)

Module binstream.
Import pyio.

(** Little-endian value of a byte string (struct 'B', 'H', 'I', 'Q'). *)
Fixpoint le_uint (bs : py.bytes) : Z :=
  match bs with
  | [] => 0
  | b :: t => py.byte_val b + 256 * le_uint t
  end.

(** Two's complement reading of a [w]-byte value (struct 'b', 'h', 'i', 'q'). *)
Definition to_signed (w : Z) (v : Z) : Z :=
  if v <? 2 ^ (8 * w - 1) then v else v - 2 ^ (8 * w).

(** [struct.unpack] of one [w]-byte unsigned field. *)
Definition upk_uint (w : Z) (bs : py.bytes) : py.result Z :=
  if Z.of_nat (length bs) =? w then py.ok (le_uint bs) else py.raise py.StructError.

Definition upk_int (w : Z) (bs : py.bytes) : py.result Z :=
  let? v := upk_uint w bs in py.ok (to_signed w v).

(** [streamend] *)
Definition streamend : io Z :=
  let* cursor := tell in
  seek_end 0 ;;
  let* e := tell in
  seek cursor ;;
  ret e.

(** [termstr] *)
Definition termstr (s : py.bytes) : py.bytes :=
  py.slice_to s (py.find s x00).

Definition rint8 : io Z := let* b := read 1 in lift (upk_int 1 b).
Definition ruint8 : io Z := let* b := read 1 in lift (upk_uint 1 b).
Definition rint16 : io Z := let* b := read 2 in lift (upk_int 2 b).
Definition ruint16 : io Z := let* b := read 2 in lift (upk_uint 2 b).
Definition rint32 : io Z := let* b := read 4 in lift (upk_int 4 b).
Definition ruint32 : io Z := let* b := read 4 in lift (upk_uint 4 b).
Definition rint64 : io Z := let* b := read 8 in lift (upk_int 8 b).
Definition ruint64 : io Z := let* b := read 8 in lift (upk_uint 8 b).

(** [rfloat]: the four bytes are kept as the bit pattern of the float. *)
Definition rfloat : io py.float :=
  let* b := read 4 in let* v := lift (upk_uint 4 b) in ret (py.f32 v).

(** Splitting a buffer into [w]-byte fields, for the fixed-size [struct]
    formats ("4h", "4B", "2e", "3f", "8f", "11f", "f" * 20). *)
Fixpoint fields (n : nat) (w : nat) (bs : py.bytes) : list py.bytes :=
  match n with
  | O => []
  | S n' => take w bs :: fields n' w (drop w bs)
  end.

(** [struct.unpack] of [n] fields of [w] bytes each; the buffer must hold
    exactly [n * w] bytes. *)
Definition upk_fields (n w : nat) (bs : py.bytes) : py.result (list Z) :=
  if Nat.eqb (length bs) (n * w) then py.ok (map le_uint (fields n w bs))
  else py.raise py.StructError.

(** [ras(r, "f" * n)] *)
Definition ras_floats (n : nat) : io (list py.float) :=
  let* b := read (Z.of_nat (n * 4)) in
  let* vs := lift (upk_fields n 4 b) in
  ret (map py.f32 vs).

(** The byte whose value is [v mod 256]. *)
Definition byte_of (v : Z) : byte :=
  default x00 (Byte.of_N (Z.to_N (v mod 256))).

(** The [w] low bytes of [v], least significant first. *)
Fixpoint le_encode (w : nat) (v : Z) : py.bytes :=
  match w with
  | O => []
  | S w' => byte_of v :: le_encode w' (v / 256)
  end.

(** [struct.pack] of one unsigned [w]-byte field ('B', 'H', 'I', 'Q'):
    [struct.error] when the value does not fit. *)
Definition pk_uint (w : nat) (d : Z) : py.result py.bytes :=
  if (0 <=? d) && (d <? 2 ^ (8 * Z.of_nat w)) then py.ok (le_encode w d)
  else py.raise py.StructError.

(** [struct.pack] of one signed [w]-byte field ('b', 'h', 'i', 'q'). *)
Definition pk_int (w : nat) (d : Z) : py.result py.bytes :=
  if (- 2 ^ (8 * Z.of_nat w - 1) <=? d) && (d <? 2 ^ (8 * Z.of_nat w - 1))
  then py.ok (le_encode w (d mod 2 ^ (8 * Z.of_nat w)))
  else py.raise py.StructError.

Definition wint8 (d : Z) : io unit := let* b := lift (pk_int 1 d) in write_at b.
Definition wuint8 (d : Z) : io unit := let* b := lift (pk_uint 1 d) in write_at b.
Definition wint16 (d : Z) : io unit := let* b := lift (pk_int 2 d) in write_at b.
Definition wuint16 (d : Z) : io unit := let* b := lift (pk_uint 2 d) in write_at b.
Definition wint32 (d : Z) : io unit := let* b := lift (pk_int 4 d) in write_at b.
Definition wuint32 (d : Z) : io unit := let* b := lift (pk_uint 4 d) in write_at b.
Definition wint64 (d : Z) : io unit := let* b := lift (pk_int 8 d) in write_at b.
Definition wuint64 (d : Z) : io unit := let* b := lift (pk_uint 8 d) in write_at b.

(** The conversions of a byte string: [sint8] ... [suint64]. *)
Definition sint8 (s : py.bytes) : py.result Z := upk_int 1 s.
Definition suint8 (s : py.bytes) : py.result Z := upk_uint 1 s.
Definition sint16 (s : py.bytes) : py.result Z := upk_int 2 s.
Definition suint16 (s : py.bytes) : py.result Z := upk_uint 2 s.
Definition sint32 (s : py.bytes) : py.result Z := upk_int 4 s.
Definition suint32 (s : py.bytes) : py.result Z := upk_uint 4 s.
Definition sint64 (s : py.bytes) : py.result Z := upk_int 8 s.
Definition suint64 (s : py.bytes) : py.result Z := upk_uint 8 s.

(** [uint32s] *)
Definition uint32s (v : Z) : py.result py.bytes := pk_uint 4 v.

(** The four widths of the integer readers and writers, to state
    properties of the whole family at once. *)
Inductive width : Type := W8 | W16 | W32 | W64.

Definition width_bytes (k : width) : nat :=
  match k with W8 => 1 | W16 => 2 | W32 => 4 | W64 => 8 end%nat.

Definition ruint (k : width) : io Z :=
  match k with W8 => ruint8 | W16 => ruint16 | W32 => ruint32 | W64 => ruint64 end.
Definition rint (k : width) : io Z :=
  match k with W8 => rint8 | W16 => rint16 | W32 => rint32 | W64 => rint64 end.
Definition wuint (k : width) (d : Z) : io unit :=
  match k with
  | W8 => wuint8 d | W16 => wuint16 d | W32 => wuint32 d | W64 => wuint64 d
  end.
Definition wint (k : width) (d : Z) : io unit :=
  match k with
  | W8 => wint8 d | W16 => wint16 d | W32 => wint32 d | W64 => wint64 d
  end.

End binstream.

(** ** r6s/common.py *)

Module common.
Import pyio binstream.

Module FileMeta.

Record t : Type := Build {
  encoded_meta : py.bytes;
  var1 : Z;
  magic : Z;
  uid : Z;
  var2 : Z;
  var3 : Z
}.

(** [FileMeta.parse].  When the two magics differ Python evaluates the
    assertion message, an f-string with the format code [h], which is not
    a format code of [int]: the exception that leaves is a [ValueError]. *)
Definition parse : io t :=
  let* meta_len := ruint32 in
  let* encoded_meta := read meta_len in
  let* var1 := ruint32 in
  let* magic := ruint32 in
  let* uid := ruint64 in
  let* magic2 := ruint32 in
  (if magic =? magic2 then ret tt else fail py.ValueError) ;;
  let* var2 := ruint32 in
  let* var3 := ruint32 in
  ret (Build encoded_meta var1 magic uid var2 var3).

End FileMeta.

(** [read_file_piece]: the magic and two fresh [BytesIO] streams over the
    meta and the data of the piece. *)
Definition read_file_piece : io (Z * stream * stream) :=
  let* meta_size := ruint32 in
  let* meta := read meta_size in
  let* data_size := ruint32 in
  let* magic := ruint32 in
  let* data := read data_size in
  ret (magic, BytesIO meta, BytesIO data).

End common.

(** ** r6s/asset.py *)

Module asset.
Import pyio binstream.

Definition piece : Type := (Z * stream * stream)%type.

(** The [while len(r.read(1))] loop of [split_asset], unrolled [n]
    times. *)
Fixpoint split_loop (n : nat) : io (list piece) :=
  match n with
  | O => ret []
  | S n' =>
      let* probe := read 1 in
      if (length probe =? 0)%nat then ret []
      else
        seek_cur (-1) ;;
        let* a := common.read_file_piece in
        let* rest := split_loop n' in
        ret (a :: rest)
  end.

(** Every piece takes at least 12 bytes, and one more turn finds the end
    of the stream ([split_loop_enough]). *)
Definition turns_left (r : stream) : nat :=
  S (Z.to_nat ((size r - pos r + 11) / 12)).

(** [split_asset] *)
Definition split_asset : io (list piece) :=
  fun r => split_loop (turns_left r) r.

(** [filter_by_magic] *)
Definition filter_by_magic (assets : list piece) (magic : Z) : list piece :=
  filter (fun a => a.1.1 = magic) assets.

(** Vocabulary for stating what [split_asset] reads: the bytes of a piece
    with the given magic, meta and data. *)
Definition piece_bytes (magic : Z) (meta data : py.bytes) : py.bytes :=
  le_encode 4 (Z.of_nat (length meta)) ++ meta
  ++ le_encode 4 (Z.of_nat (length data)) ++ le_encode 4 magic ++ data.

(** The same for a sequence of pieces given as (magic, meta, data); what
    [read_file_piece] returns for one of them; and a piece whose magic and
    lengths fit their 32-bit fields. *)
Definition pieces_bytes (ps : list (Z * py.bytes * py.bytes)) : py.bytes :=
  concat (map (fun p => piece_bytes p.1.1 p.1.2 p.2) ps).

Definition as_piece (p : Z * py.bytes * py.bytes) : piece :=
  (p.1.1, BytesIO p.1.2, BytesIO p.2).

Definition piece_ok (p : Z * py.bytes * py.bytes) : Prop :=
  0 <= p.1.1 < 2 ^ 32
  /\ Z.of_nat (length p.1.2) < 2 ^ 32 /\ Z.of_nat (length p.2) < 2 ^ 32.

End asset.

(** ** The zstandard binding *)

(** [zstd.ZstdDecompressor().decompressobj(write_size=n).decompress(data)]:
    the content of the frame held in [data], or [ZstdError].  [write_size]
    only sizes the output buffer of the binding and does not bound what is
    returned. *)
Class ZstdDecompressor : Type :=
  zstd_decompress : py.bytes → py.result py.bytes.

(** ** r6s/forge.py *)

Module forge.
Import pyio binstream.

Module Entry.

Record t : Type := Build {
  offset : Z;
  uid : Z;
  size : Z;
  end_ : Z
}.

Definition init : io t :=
  let* offset := ruint64 in
  let* uid := ruint64 in
  let* size := ruint32 in
  ret (Build offset uid size (offset + size)).

End Entry.

Module NameEntry.

(** [timestamp] is kept as the POSIX seconds handed to
    [datetime.fromtimestamp]. *)
Record t : Type := Build {
  x00 : Z;
  x04 : Z;
  x08 : Z;
  x10 : Z;
  meta : py.bytes;
  x113 : Z;
  timestamp : Z;
  x118 : Z;
  prev_entry_idx : Z;
  next_entry_idx : Z;
  x124 : Z;
  file_type : Z;
  x130 : Z;
  x134 : py.bytes
}.

Definition init : io t :=
  let* x00 := ruint32 in
  let* x04 := ruint32 in
  let* x08 := ruint64 in
  let* x10 := ruint32 in
  let* meta := read 0xFF in
  let* x113 := ruint8 in
  let* timestamp := ruint32 in
  let* x118 := ruint32 in
  let* prev_entry_idx := rint32 in
  let* next_entry_idx := rint32 in
  let* x124 := ruint64 in
  let* file_type := ruint32 in
  let* x130 := ruint32 in
  let* x134 := read 12 in
  ret (Build x00 x04 x08 x10 meta x113 timestamp x118 prev_entry_idx
         next_entry_idx x124 file_type x130 x134).

End NameEntry.

(** [Container.File.Datablock.Chunk] *)
Module Chunk.

Record t : Type := Build {
  unpacked : Z;
  packed : Z;
  hash : Z;
  offset : Z;
  ispacked : bool
}.

Definition init : io t :=
  let* unpacked := ruint32 in
  let* packed := ruint32 in
  ret (Build unpacked packed 0 0 (packed <? unpacked)).

Definition finalize (self : t) : io t :=
  let* hash := ruint32 in
  let* offset := tell in
  ret (Build (unpacked self) (packed self) hash offset (ispacked self)).

End Chunk.

(** [Container.File.Datablock].  The Python object keeps a reference to the
    stream it was read from ([self.reader]); here the functions that use
    it take that stream as their state. *)
Module Datablock.

Record t : Type := Build {
  xD : Z;
  chunks : list Chunk.t;
  packed : Z;
  unpacked : Z;
  ispacked : bool
}.

(** First loop of [__init__]: the size table. *)
Fixpoint read_table (n : nat) (self : t) : io t :=
  match n with
  | O => ret self
  | S n' =>
      let* chunk := Chunk.init in
      read_table n'
        (Build (xD self) (chunks self ++ [chunk])
           (packed self + Chunk.packed chunk)
           (unpacked self + Chunk.unpacked chunk)
           (if Chunk.ispacked chunk then true else ispacked self))
  end.

(** Second loop of [__init__]: hash and position of each chunk; the
    chunks are updated in place. *)
Fixpoint finalize_all (cs : list Chunk.t) : io (list Chunk.t) :=
  match cs with
  | [] => ret []
  | chunk :: rest =>
      let* chunk' := Chunk.finalize chunk in
      seek_cur (Chunk.packed chunk') ;;
      let* rest' := finalize_all rest in
      ret (chunk' :: rest')
  end.

Definition init : io t :=
  ruint16 ;;
  ruint16 ;;
  ruint8 ;;
  let* xD_ := ruint16 in
  let* num_chunks := ruint32 in
  let* self := read_table (Z.to_nat num_chunks) (Build xD_ [] 0 0 false) in
  let* chunks' := finalize_all (chunks self) in
  ret (Build (xD self) chunks' (packed self) (unpacked self) (ispacked self)).

(** [__getitem__] *)
Definition getitem (self : t) (key : Z) : py.result Chunk.t :=
  py.index (chunks self) key.

End Datablock.

(** [sum(...)] over integers. *)
Definition sum (l : list Z) : Z := foldr Z.add 0 l.

(** Vocabulary for the layout [Datablock.__init__] walks after the size
    table, starting at position [p]: each chunk is a 4-byte hash followed
    by its [packed] bytes. *)
Fixpoint chunk_offsets_from (p : Z) (cs : list Chunk.t) : Prop :=
  match cs with
  | [] => True
  | c :: rest =>
      Chunk.offset c = p + 4
      /\ chunk_offsets_from (p + 4 + Chunk.packed c) rest
  end.

Fixpoint chunks_end (p : Z) (cs : list Chunk.t) : Z :=
  match cs with
  | [] => p
  | c :: rest => chunks_end (p + 4 + Chunk.packed c) rest
  end.

(** The three kinds of argument [getdatastream] accepts. *)
Inductive getdatastream_input : Type :=
| of_datablock (d : Datablock.t)
| of_chunks (cs : list Chunk.t)
| of_chunk (c : Chunk.t).

Section decompress.
Context {zstd : ZstdDecompressor}.

(** Body of the [for chunk in chunks] loop of [getdatastream]; [result] is
    the [BytesIO] being filled, the state is the archive stream [r]. *)
Fixpoint write_chunks (chunks : list Chunk.t) (result : stream) : io stream :=
  match chunks with
  | [] => ret result
  | chunk :: rest =>
      seek (Chunk.offset chunk) ;;
      let* data := read (Chunk.packed chunk) in
      let* out := if negb (Chunk.ispacked chunk) then ret data
                  else lift (zstd_decompress data) in
      let* w := lift (write out result) in
      write_chunks rest (snd w)
  end.

Definition getdatastream (input : getdatastream_input) : io stream :=
  let chunks := match input with
                | of_datablock d => Datablock.chunks d
                | of_chunks cs => cs
                | of_chunk c => [c]
                end in
  let* result := write_chunks chunks (BytesIO []) in
  let* z := lift (seek 0 result) in
  ret (snd z).

(** [Datablock.getstream] *)
Definition getstream (self : Datablock.t) : io stream :=
  getdatastream (of_datablock self).

(** Vocabulary for stating what [getdatastream] returns over an archive
    with content [archive]: the stored bytes of a chunk, what they decode
    to, and a chunk that lies inside the archive and decodes to exactly
    its [unpacked] size. *)
Definition chunk_payload (archive : py.bytes) (c : Chunk.t) : py.bytes :=
  take (Z.to_nat (Chunk.packed c)) (drop (Z.to_nat (Chunk.offset c)) archive).

Definition chunk_output (archive : py.bytes) (c : Chunk.t) : py.result py.bytes :=
  if Chunk.ispacked c then zstd_decompress (chunk_payload archive c)
  else py.ok (chunk_payload archive c).

Definition chunk_valid (archive : py.bytes) (c : Chunk.t) : Prop :=
  0 <= Chunk.offset c
  /\ 0 <= Chunk.packed c
  /\ Chunk.offset c + Chunk.packed c <= Z.of_nat (length archive)
  /\ exists out, chunk_output archive c = py.ok out
                 /\ Z.of_nat (length out) = Chunk.unpacked c.

(** [getdata] *)
Definition getdata (datablock : Datablock.t) : io py.bytes :=
  let* handle := getdatastream (of_datablock datablock) in
  ret (buf handle).

End decompress.

(** [Container.File] *)
Module File.

Record t : Type := Build {
  meta : option Datablock.t;
  file : option Datablock.t
}.

Definition init (entry : Entry.t) : io t :=
  let* m := ruint32 in
  assert (m =? 0x1014FA99) ;;
  let end_ := Entry.end_ entry in
  let* block := Datablock.init in
  let* here := tell in
  if here <? end_ then
    let* container_magic := ruint64 in
    if negb (container_magic =? 0x1014FA9957FBAA34) then
      seek end_ ;;
      ret (Build (Some block) None)
    else
      let* payload := Datablock.init in
      ret (Build (Some block) (Some payload))
  else
    ret (Build None (Some block)).

Definition hasmeta (self : t) : bool :=
  match meta self with Some _ => true | None => false end.

End File.

(** [Container.Hash] *)
Module Hash.

Record t : Type := Build {
  hash1 : Z;
  extra : Z;
  hash2 : Z;
  extra2 : Z;
  name : py.bytes;
  x58 : Z;
  x60 : Z;
  extra3 : Z;
  x6C : Z;
  x74 : Z;
  extra4 : Z;
  x80 : Z
}.

Definition init (entry : Entry.t) : io t :=
  let* hash1 := ruint64 in
  let* extra := ruint32 in
  if extra =? 0 then ret (Build hash1 extra 0 0 [] 0 0 0 0 0 0 0) else
  let* hash2 := ruint64 in
  let* extra2 := ruint32 in
  if extra2 =? 0 then ret (Build hash1 extra hash2 extra2 [] 0 0 0 0 0 0 0) else
  let* raw := read 0x40 in
  let name := termstr raw in
  let* x58 := ruint64 in
  let* x60 := ruint64 in
  let* extra3 := ruint32 in
  if extra3 =? 0 then
    ret (Build hash1 extra hash2 extra2 name x58 x60 extra3 0 0 0 0) else
  let* x6C := ruint64 in
  let* x74 := ruint64 in
  let* extra4 := ruint32 in
  if extra4 =? 0 then
    ret (Build hash1 extra hash2 extra2 name x58 x60 extra3 x6C x74 extra4 0) else
  let* x80 := ruint64 in
  ret (Build hash1 extra hash2 extra2 name x58 x60 extra3 x6C x74 extra4 x80).

End Hash.

(** [Container.Descriptor]: a [dict] from data id to value; a value is an
    integer or a byte string. *)
Module Descriptor.

Inductive value : Type :=
| v_int (n : Z)
| v_bytes (b : py.bytes).

Definition t : Type := gmap Z value.

(** Body of the [while r.tell() < end] loop: one item. *)
Definition read_item (self : t) : io t :=
  let* did := ruint32 in
  let* dtype := ruint32 in
  if dtype =? 0 then
    let* v := ruint32 in
    ret (<[did := v_int v]> self)
  else if dtype =? 1 then
    let* strlen := ruint32 in
    let* s := read strlen in
    read 1 ;;
    ret (<[did := v_bytes s]> self)
  else if dtype =? 5 then
    let* v := ruint64 in
    ret (<[did := v_int v]> self)
  else fail py.Exception.

(** Number of turns of the loop that can still succeed: every item
    takes at least 12 bytes. *)
Definition turns_left (end_ here : Z) : nat := Z.to_nat ((end_ - here + 11) / 12).

(** The loop, unrolled [n] times; [read_items_enough] shows that
    [turns_left] turns are all it ever takes. *)
Fixpoint read_items (n : nat) (end_ : Z) (self : t) : io t :=
  match n with
  | O => ret self
  | S n' =>
      let* here := tell in
      if here <? end_ then
        let* self' := read_item self in
        read_items n' end_ self'
      else ret self
  end.

Definition init (entry : Entry.t) : io t :=
  let end_ := Entry.end_ entry in
  let* here := tell in
  read_items (turns_left end_ here) end_ ∅.

End Descriptor.

(** [Forge]: the header, the entry table and the name table;
    [get_container] follows the module. *)
Module Forge.

Record t : Type := Build {
  entries : list Entry.t;
  names : list NameEntry.t;
  x11 : Z; x15 : Z; x19 : Z; x1d : Z;
  num_entries : Z;
  x22 : Z; x26 : Z; x2a : Z; x2e : Z; x32 : Z; x36 : Z;
  num_plus2 : Z;
  x3e : Z; x4a : Z; x46 : Z;
  num2 : Z;
  x4e : Z; x52 : Z; x56 : Z; x5a : Z; x5e : Z; x62 : Z;
  num_plus1 : Z;
  names_offset : Z;
  lostfound : Z
}.

(** [b"scimitar\x00"] *)
Definition FORMATID : py.bytes := [x73; x63; x69; x6d; x69; x74; x61; x72; x00].

Definition parse : io t :=
  let* formatid := read 9 in
  assert (bool_decide (formatid = FORMATID)) ;;
  let* version := ruint32 in
  let* header_offset := ruint32 in
  let* x11 := ruint32 in
  let* x15 := ruint32 in
  let* x19 := ruint32 in
  let* x1d := ruint8 in
  let* num_entries := ruint32 in
  let* x22 := ruint32 in
  let* x26 := ruint32 in
  let* x2a := ruint32 in
  let* x2e := ruint32 in
  let* x32 := rint32 in
  let* x36 := rint32 in
  let* num_plus2 := ruint32 in
  let* x3e := ruint32 in
  let* x4a := ruint32 in
  let* x46 := ruint32 in
  let* num2 := ruint32 in
  let* x4e := ruint32 in
  let* x52 := ruint32 in
  let* x56 := ruint32 in
  let* x5a := rint32 in
  let* x5e := rint32 in
  let* x62 := ruint32 in
  let* num_plus1 := ruint32 in
  let* names_offset := ruint64 in
  let* lostfound := ruint64 in
  let* entries := times num_entries Entry.init in
  seek names_offset ;;
  let* names := times num_entries NameEntry.init in
  ret (Build entries names x11 x15 x19 x1d num_entries x22 x26 x2a x2e x32
         x36 num_plus2 x3e x4a x46 num2 x4e x52 x56 x5a x5e x62 num_plus1
         names_offset lostfound).

End Forge.

(** What [Container.identify] maps a magic to, applied to the stream and
    the entry. *)
Inductive container : Type :=
| c_descriptor (d : Descriptor.t)
| c_hash (h : Hash.t)
| c_file (f : File.t).

Definition identify (magic : Z) : option (Entry.t -> io container) :=
  if magic =? 1 then
    Some (fun entry => let* d := Descriptor.init entry in ret (c_descriptor d))
  else if magic =? 6 then
    Some (fun entry => let* h := Hash.init entry in ret (c_hash h))
  else if magic =? 0x57FBAA34 then
    Some (fun entry => let* f := File.init entry in ret (c_file f))
  else None.

(** [Forge.get_container]; [None] is the container of an unknown style. *)
Definition get_container (self : Forge.t) (index : Z) : io (option container) :=
  let* entry := lift (py.index (Forge.entries self) index) in
  seek (Entry.offset entry) ;;
  let* contmagick := ruint32 in
  match identify contmagick with
  | None => ret None
  | Some constructor =>
      let* c := constructor entry in
      ret (Some c)
  end.

(** Module-level [parse(fpath)]: the file is opened and handed to [Forge]. *)
Definition parse (content : py.bytes) : py.result Forge.t :=
  let? res := Forge.parse (open content) in py.ok (fst res).

(** [Link] *)
Module Link.

Record t : Type := Build {
  src : Z;
  dst : Z;
  x10 : Z;
  x14 : Z;
  x16 : Z;
  x17 : Z
}.



(** [__hash__] hashes this tuple. *)
Definition hash_key (self : t) : Z * Z * Z * Z * Z * Z :=
  (src self, dst self, x10 self, x14 self, x16 self, x17 self).

Definition of_vars (v : Z * Z * Z * Z * Z * Z) : t :=
  let '(a, b, c, d, e, f) := v in Build a b c d e f.

#[global] Instance eq_dec : EqDecision t.
Proof. solve_decision. Defined.

#[global] Instance countable : Countable t.
Proof.
  apply (inj_countable' hash_key of_vars).
  intros []; reflexivity.
Defined.

Definition parse : io t :=
  let* src := ruint64 in
  let* dst := ruint64 in
  let* x10 := rint32 in
  let* x14 := ruint16 in
  let* x16 := ruint8 in
  let* x17 := ruint8 in
  ret (Build src dst x10 x14 x16 x17).

(** Vocabulary for stating what [parse] reads: the link that a 24-byte
    record holds, field by field. *)
Definition of_record (b : py.bytes) : t :=
  Build (le_uint (take 8 b))
        (le_uint (take 8 (drop 8 b)))
        (to_signed 4 (le_uint (take 4 (drop 16 b))))
        (le_uint (take 2 (drop 20 b)))
        (le_uint (take 1 (drop 22 b)))
        (le_uint (take 1 (drop 23 b))).

(** The first [n] 24-byte records of [data]. *)
Definition records (data : py.bytes) (n : nat) : list t :=
  map (fun i => of_record (take 24 (drop (24 * i) data))) (seq 0 n).

End Link.

(** [list(set(l))]: a Python set of links identifies links by [__hash__]
    and [__eq__]; the order in which it is listed is the order of
    [elements], which no property below depends on. *)
Definition list_set (l : list Link.t) : list Link.t :=
  elements (list_to_set l : gset Link.t).

(** [DepGraph] *)
Module DepGraph.

Record t : Type := Build { links : list Link.t }.

Definition init : t := Build [].

Definition children_uids (self : t) (uid : Z) : list Z :=
  map Link.dst (filter (fun link => Link.src link = uid) (links self)).

Definition parents_uids (self : t) (uid : Z) : list Z :=
  map Link.src (filter (fun link => Link.dst link = uid) (links self)).

Definition child_in_links (self : t) (uid : Z) : list Link.t :=
  filter (fun link => Link.dst link = uid) (links self).

Definition parent_in_links (self : t) (uid : Z) : list Link.t :=
  filter (fun link => Link.src link = uid) (links self).

Definition are_linked (self : t) (src dst : Z) : bool :=
  existsb (fun link => (Link.src link =? src) && (Link.dst link =? dst))
          (links self).

(** Number of turns of the [while unpacked.tell() < end] loop that can
    still succeed: each turn consumes the 24 bytes of one link. *)
Definition turns_left (end_ here : Z) : nat := Z.to_nat ((end_ - here + 23) / 24).

(** The loop of [parse_stream], unrolled [n] times; [parse_links_enough]
    shows that [turns_left] turns are all the loop ever takes. *)
Fixpoint parse_links (n : nat) (end_ : Z) : io (list Link.t) :=
  match n with
  | O => ret []
  | S n' =>
      let* here := tell in
      if here <? end_ then
        let* link := Link.parse in
        let* rest := parse_links n' end_ in
        ret (link :: rest)
      else ret []
  end.

Definition parse_stream : io (list Link.t) :=
  let* version := ruint8 in
  assert (version =? 0x02) ;;
  let* end_ := streamend in
  let* here := tell in
  parse_links (turns_left end_ here) end_.

Section decompress.
Context {zstd : ZstdDecompressor}.

(** [get_data_from_io] *)
Definition get_data_from_io : io stream :=
  let* magic := ruint64 in
  assert (magic =? 0x1014FA9957FBAA34) ;;
  let* block := Datablock.init in
  getstream block.

(** The links held by one [.depgraphbin] file: the first two statements of
    [parse] after the file has been opened. *)
Definition read_links (content : py.bytes) : py.result (list Link.t) :=
  let? unpacked := get_data_from_io (open content) in
  let? links := parse_stream (fst unpacked) in
  py.ok (fst links).

(** [DepGraph.parse(path)]: called on the class. *)
Definition parse_class (input : py.bytes) : py.result t :=
  let? links := read_links input in
  py.ok (Build links).

(** [graph.parse(path)]: called on an instance. *)
Definition parse (instance : t) (input : py.bytes) : py.result t :=
  let? new_links := read_links input in
  py.ok (Build (list_set (links instance ++ new_links))).

End decompress.

End DepGraph.

Section gather.
Context {zstd : ZstdDecompressor}.

(** The [for fpath in fpaths] loop shared by [gather_links] and by the
    resolver: every file is merged into the same graph. *)
Fixpoint parse_all (result : DepGraph.t) (fpaths : list py.bytes)
  : py.result DepGraph.t :=
  match fpaths with
  | [] => py.ok result
  | fpath :: rest =>
      let? result' := DepGraph.parse result fpath in
      parse_all result' rest
  end.



End gather.

End forge.

(** ** r6s/tex.py *)

Module tex.
Import pyio binstream.

(** [textypes] *)
Definition textypes : gmap Z Z :=
  list_to_map
    [(0x0, 87); (0x2, 71); (0x3, 71); (0x4, 74); (0x5, 77); (0x6, 83);
     (0x7, 61); (0x8, 61); (0x9, 56); (0xB, 42); (0xC, 3); (0xE, 80);
     (0xF, 95); (0x10, 98); (0x11, 87)].

Module Tex.

Record t : Type := Build {
  header : common.FileMeta.t;
  data_start : Z;
  textype : Z;
  x04 : Z;
  x08 : Z;
  tex_type : Z;
  x10 : Z;
  x14 : Z;
  x18 : Z;
  x1C : Z;
  x20 : Z;
  x24 : Z;
  container_id : Z;
  x2C : Z;
  num_blocks : Z;
  x2F : Z;
  x30 : Z;
  start : Z;
  end_ : Z;
  texsize : Z;
  w : Z;
  h : Z;
  e8 : Z;
  eC : Z;
  chan : Z;
  e14 : Z;
  mips : Z;
  e1C : Z;
  e20 : Z;
  e24 : Z;
  e28 : Z
}.

Definition init : io t :=
  let* header := common.FileMeta.parse in
  let* m := ruint32 in
  assert (m =? 0x13237FE9) ;;
  let* data_start := tell in
  let* textype := ruint32 in
  let* x04 := ruint32 in
  let* x08 := ruint32 in
  let* tex_type := ruint32 in
  let* x10 := ruint32 in
  let* x14 := ruint32 in
  let* x18 := ruint32 in
  let* x1C := ruint32 in
  let* x20 := ruint32 in
  let* x24 := ruint32 in
  let* container_id := ruint32 in
  let* x2C := ruint8 in
  let* num_blocks := ruint16 in
  let* x2F := ruint8 in
  let* x30 := ruint32 in
  let* start := tell in
  seek_end (-0x29) ;;
  let* end_ := tell in
  let texsize := end_ - start in
  let* w := ruint32 in
  let* h := ruint32 in
  let* e8 := ruint32 in
  let* eC := ruint32 in
  let* chan := ruint32 in
  let* e14 := ruint32 in
  let* mips := ruint32 in
  let* e1C := ruint32 in
  let* e20 := ruint32 in
  let* e24 := ruint32 in
  let* e28 := ruint8 in
  seek start ;;
  ret (Build header data_start textype x04 x08 tex_type x10 x14 x18 x1C x20
         x24 container_id x2C num_blocks x2F x30 start end_ texsize w h e8 eC
         chan e14 mips e1C e20 e24 e28).

(** [get_dimensions]: [2 ** self.chan] is an integer power because [chan]
    was read as an unsigned field; [//] is floor division. *)
Definition get_dimensions (self : t) : list Z :=
  let chan' := 2 ^ chan self in
  let w' := w self / chan' in
  let h' := h self / chan' in
  [w'; h'].

Definition get_width (self : t) : Z := w self / (2 ^ chan self).

End Tex.

(** The lookup [buildDds] performs before it calls the converter. *)
Definition dds_format (t : Tex.t) : py.result Z :=
  match textypes !! Tex.textype t with
  | Some tp => py.ok tp
  | None => py.raise py.ValueError
  end.

(** [parse] *)
Definition parse (content : py.bytes) : py.result Tex.t :=
  let? res := Tex.init (open content) in py.ok (fst res).

End tex.

(** ** r6s/mesh/unpack.py *)

Module unpack.
Import pyio binstream.

Definition vec3 : Type := py.float * py.float * py.float.
Definition vec2 : Type := py.float * py.float.
Definition rgba : Type := py.float * py.float * py.float * py.float.

(** [uint64_to_pos]: struct "4h", then [x * s / 0x7FFF] and so on. *)
Definition uint64_to_pos : io vec3 :=
  let* b := read 8 in
  let* v := lift (upk_fields 4 2 b) in
  match map (to_signed 2) v with
  | [x; y; z; s] =>
      ret (py.fdiv (py.fint (x * s)) (py.fint 0x7FFF),
           py.fdiv (py.fint (y * s)) (py.fint 0x7FFF),
           py.fdiv (py.fint (z * s)) (py.fint 0x7FFF))
  | _ => fail py.StructError
  end.

(** [uint32_to_vec]: struct "4B", then [nx / 0x7F - 1] and so on. *)
Definition uint32_to_vec : io vec3 :=
  let* b := read 4 in
  let* v := lift (upk_fields 4 1 b) in
  match v with
  | [nx; ny; nz; ln] =>
      ret (py.fsub (py.fdiv (py.fint nx) (py.fint 0x7F)) (py.fint 1),
           py.fsub (py.fdiv (py.fint ny) (py.fint 0x7F)) (py.fint 1),
           py.fsub (py.fdiv (py.fint nz) (py.fint 0x7F)) (py.fint 1))
  | _ => fail py.StructError
  end.

(** [uint32_to_color] *)
Definition uint32_to_color : io rgba :=
  let* b := read 4 in
  let* v := lift (upk_fields 4 1 b) in
  match v with
  | [r; g; b; a] =>
      ret (py.fdiv (py.fint r) (py.fint 0xFF), py.fdiv (py.fint g) (py.fint 0xFF),
           py.fdiv (py.fint b) (py.fint 0xFF), py.fdiv (py.fint a) (py.fint 0xFF))
  | _ => fail py.StructError
  end.

(** [uint32_to_uv]: struct "2e". *)
Definition uint32_to_uv : io vec2 :=
  let* b := read 4 in
  let* v := lift (upk_fields 2 2 b) in
  match v with
  | [u; v] => ret (py.f16 u, py.f16 v)
  | _ => fail py.StructError
  end.

(** [read3floats]: struct "3f". *)
Definition read3floats : io vec3 :=
  let* b := read 12 in
  let* v := lift (upk_fields 3 4 b) in
  match v with
  | [x; y; z] => ret (py.f32 x, py.f32 y, py.f32 z)
  | _ => fail py.StructError
  end.

End unpack.

(** ** r6s/mesh/__init__.py *)

Module mesh.
Import pyio binstream unpack.

Definition TRIS_CHUNK_SIZE : Z := 0x180.
Definition TRIS_IN_CHUNK : Z := 64.

Definition is_mesh (magic : Z) : bool := magic =? 0xABEB2DFB.

Module IslandDescriptor.

Record t : Type := Build {
  x00 : Z;
  offset_verts : Z;
  num_verts : Z;
  offset_tris_chunks : Z;
  num_tris_chunks : Z;
  mat_id : Z;
  x18 : Z;
  x1C : Z;
  x20 : Z
}.

Definition parse : io t :=
  let* x00 := ruint32 in
  let* offset_verts := ruint32 in
  let* num_verts := ruint32 in
  let* offset_tris_chunks := ruint32 in
  let* num_tris_chunks := ruint32 in
  let* mat_id := ruint32 in
  let* x18 := ruint32 in
  let* x1C := ruint32 in
  let* x20 := ruint32 in
  ret (Build x00 offset_verts num_verts offset_tris_chunks num_tris_chunks
         mat_id x18 x1C x20).

End IslandDescriptor.

Module IslandSkinMapping.

Definition SIZE : Z := 0x10C.

Record t : Type := Build {
  x00 : Z;
  bones_used : Z;
  mat_id : Z;
  x04 : Z;
  vert_buf_len : Z;
  indices : list Z;
  x108 : Z
}.

Definition parse : io t :=
  let* x00 := ruint16 in
  let* bones_used := ruint8 in
  let* mat_id := ruint8 in
  let* x04 := ruint16 in
  let* vert_buf_len := ruint16 in
  let* len_indices := ruint8 in
  let* raw := read len_indices in
  seek_cur (SIZE - 2 - 4 - 2 - 1 - len_indices - 4) ;;
  let* x108 := ruint32 in
  ret (Build x00 bones_used mat_id x04 vert_buf_len (map py.byte_val raw) x108).

End IslandSkinMapping.

Definition triangle : Type := Z * Z * Z.

(** [list(zip(i, i, i))] over one iterator [i]: consecutive triplets, an
    incomplete tail is dropped. *)
Fixpoint triplets (l : list Z) : list triangle :=
  match l with
  | a :: b :: c :: rest => (a, b, c) :: triplets rest
  | _ => []
  end.

(** The [while] loop that walks back over the padding of an index buffer,
    unrolled [n] times; it returns [last_tri_index]. *)
Fixpoint trim_scan (n : nat) (tri_indices invalid_tri : list Z)
    (last_tri_index : Z) : Z :=
  match n with
  | O => last_tri_index
  | S n' =>
      if bool_decide
           (py.slice tri_indices last_tri_index (last_tri_index + 3) = invalid_tri)
      then trim_scan n' tri_indices invalid_tri (last_tri_index - 3)
      else last_tri_index
  end.

(** The loop can only go on while it sees a full triplet, and it sees none
    once [last_tri_index] is negative: one turn per triplet of the buffer
    and one more are all it takes ([trim_scan_enough]). *)
Definition trim_turns (tri_indices : list Z) : nat :=
  S (length tri_indices `div` 3)%nat.

(** Body of the [for island_meta in self.island_metas] loop, after the
    indices were read: what is appended to [self.islands]. *)
Definition trim_island (tri_indices : list Z) : list triangle :=
  match last tri_indices with
  | Some last_id =>
      let invalid_tri := [last_id; last_id; last_id] in
      let last_tri_index := Z.of_nat (length tri_indices) - 3 in
      let last_tri_index' :=
        trim_scan (trim_turns tri_indices) tri_indices invalid_tri last_tri_index in
      triplets (py.slice_to tri_indices (last_tri_index' + 3))
  | None => []
  end.

(** [_filter_by_indices_], with [enumerate] starting at [i]. *)
Fixpoint filter_from {A} (i : Z) (lst : list A) (indices : list Z) : list A :=
  match lst with
  | [] => []
  | v :: rest =>
      if bool_decide (i ∈ indices) then v :: filter_from (i + 1) rest indices
      else filter_from (i + 1) rest indices
  end.

Definition _filter_by_indices_ {A} (lst : list A) (indices : list Z) : list A :=
  filter_from 0 lst indices.

Module Mesh.

Definition HEADER_SIZE : Z := 0x4C.

(** The attributes [__init__] sets once and [readmesh] only reads. *)
Record info : Type := Info {
  header : common.FileMeta.t;
  size_till_footer : Z;
  x00 : Z;
  revision : Z;
  vert_len : Z;
  verts_data_len : Z;
  tris_data_len : Z;
  vertmaps_data_len : Z;
  un2 : Z;
  trisblock_stat_data_len : Z;
  triunknown_data_len : Z;
  x24 : Z;
  x28 : Z;
  x2C : Z;
  num_lods : Z;
  mesh_type : Z;
  num_islands : Z;
  x3C : Z;
  x40 : py.float;
  x44 : py.float;
  rng3_len : Z;
  num_verts : Z;
  vertblock_start : Z;
  trisblock_start : Z;
  extra_data_start : Z;
  tail_start : Z;
  island_metas : list IslandDescriptor.t;
  island_bboxes : list (list py.float);
  island_skin_mapping : list IslandSkinMapping.t
}.

(** The buffers [readmesh] fills; [None] is Python's [None], and [binorms]
    is [None] while the attribute does not exist. *)
Record t : Type := Build {
  inf : info;
  verts : list vec3;
  islands : list (list triangle);
  vertmaps : list (list Z);
  trisblock_stats : list (list py.float);
  triunknown : list (list Z);
  normals : option (list vec3);
  tangs : option (list vec3);
  binorms : option (list vec3);
  colors : option (list (list rgba));
  unar1 : option (list (list py.float));
  uvs : option (list vec2)
}.

Definition set_verts (v : list vec3) (m : t) : t :=
  Build (inf m) v (islands m) (vertmaps m) (trisblock_stats m) (triunknown m)
    (normals m) (tangs m) (binorms m) (colors m) (unar1 m) (uvs m).
Definition set_islands (v : list (list triangle)) (m : t) : t :=
  Build (inf m) (verts m) v (vertmaps m) (trisblock_stats m) (triunknown m)
    (normals m) (tangs m) (binorms m) (colors m) (unar1 m) (uvs m).
Definition set_vertmaps (v : list (list Z)) (m : t) : t :=
  Build (inf m) (verts m) (islands m) v (trisblock_stats m) (triunknown m)
    (normals m) (tangs m) (binorms m) (colors m) (unar1 m) (uvs m).
Definition set_trisblock_stats (v : list (list py.float)) (m : t) : t :=
  Build (inf m) (verts m) (islands m) (vertmaps m) v (triunknown m)
    (normals m) (tangs m) (binorms m) (colors m) (unar1 m) (uvs m).
Definition set_triunknown (v : list (list Z)) (m : t) : t :=
  Build (inf m) (verts m) (islands m) (vertmaps m) (trisblock_stats m) v
    (normals m) (tangs m) (binorms m) (colors m) (unar1 m) (uvs m).
Definition set_normals (v : option (list vec3)) (m : t) : t :=
  Build (inf m) (verts m) (islands m) (vertmaps m) (trisblock_stats m)
    (triunknown m) v (tangs m) (binorms m) (colors m) (unar1 m) (uvs m).
Definition set_tangs (v : option (list vec3)) (m : t) : t :=
  Build (inf m) (verts m) (islands m) (vertmaps m) (trisblock_stats m)
    (triunknown m) (normals m) v (binorms m) (colors m) (unar1 m) (uvs m).
Definition set_binorms (v : option (list vec3)) (m : t) : t :=
  Build (inf m) (verts m) (islands m) (vertmaps m) (trisblock_stats m)
    (triunknown m) (normals m) (tangs m) v (colors m) (unar1 m) (uvs m).
Definition set_colors (v : option (list (list rgba))) (m : t) : t :=
  Build (inf m) (verts m) (islands m) (vertmaps m) (trisblock_stats m)
    (triunknown m) (normals m) (tangs m) (binorms m) v (unar1 m) (uvs m).
Definition set_unar1 (v : option (list (list py.float))) (m : t) : t :=
  Build (inf m) (verts m) (islands m) (vertmaps m) (trisblock_stats m)
    (triunknown m) (normals m) (tangs m) (binorms m) (colors m) v (uvs m).
Definition set_uvs (v : option (list vec2)) (m : t) : t :=
  Build (inf m) (verts m) (islands m) (vertmaps m) (trisblock_stats m)
    (triunknown m) (normals m) (tangs m) (binorms m) (colors m) (unar1 m) v.

(** [_parse_tris_blocks_] *)
Fixpoint read_islands (metas : list IslandDescriptor.t) : io (list (list triangle)) :=
  match metas with
  | [] => ret []
  | island_meta :: rest =>
      let* tri_indices :=
        times (IslandDescriptor.num_tris_chunks island_meta * TRIS_IN_CHUNK * 3)
              ruint16 in
      let* more := read_islands rest in
      ret (trim_island tri_indices :: more)
  end.

(** The index buffers as [_parse_tris_blocks_] reads them, before they are
    trimmed; used to state what trimming does ([read_islands_buffers]). *)
Fixpoint read_index_buffers (metas : list IslandDescriptor.t) : io (list (list Z)) :=
  match metas with
  | [] => ret []
  | island_meta :: rest =>
      let* tri_indices :=
        times (IslandDescriptor.num_tris_chunks island_meta * TRIS_IN_CHUNK * 3)
              ruint16 in
      let* more := read_index_buffers rest in
      ret (tri_indices :: more)
  end.

Definition _parse_tris_blocks_ (self : t) : io t :=
  seek (trisblock_start (inf self)) ;;
  let* new_islands := read_islands (island_metas (inf self)) in
  ret (set_islands (islands self ++ new_islands) self).

(** [_parse_vertmaps_] *)
Definition _parse_vertmaps_ (self : t) : io t :=
  seek (extra_data_start (inf self)) ;;
  let* maps := times (num_lods (inf self))
                     (times (num_verts (inf self)) ruint16) in
  ret (set_vertmaps (vertmaps self ++ maps) self).

(** [_parse_trisblock_stat_] *)
Definition _parse_trisblock_stat_ (self : t) : io t :=
  seek (extra_data_start (inf self) + vertmaps_data_len (inf self) + un2 (inf self)) ;;
  let* stats := times (tris_data_len (inf self) / TRIS_CHUNK_SIZE)
                      (ras_floats 11) in
  ret (set_trisblock_stats (trisblock_stats self ++ stats) self).

(** [_parse_triunknown_] *)
Definition _parse_triunknown_ (self : t) : io t :=
  let* raw := times (triunknown_data_len (inf self) / 4) (read 4) in
  ret (set_triunknown (map (map py.byte_val) raw) self).

(** The vertex part of [readmesh]; the boolean is [known_format]. *)
Definition read_verts (self : t) : io (bool * t) :=
  let i := inf self in
  let n := num_verts i in
  let vl := vert_len i in
  if revision i =? 0 then
    if (vl =? 0x18) || (vl =? 0x1C) then
      let skip_bytes := vl - 12 in
      let* vs := times n (let* p := uint64_to_pos in
                          read skip_bytes ;;
                          let* uv := uint32_to_uv in
                          ret (p, uv)) in
      ret (true, set_uvs (Some (map snd vs))
                   (set_verts (verts self ++ map fst vs) self))
    else ret (false, self)
  else if (revision i =? 1) || (revision i =? 2) then
    if (vl =? 0x18) || (vl =? 0x1C) then
      let* vs := times n uint64_to_pos in
      let* ns := times n uint32_to_vec in
      let* ts := times n uint32_to_vec in
      let* bs := times n uint32_to_vec in
      let self := set_binorms (Some bs) (set_tangs (Some ts)
                    (set_normals (Some ns) (set_verts vs self))) in
      let* self :=
        if vl =? 0x1C then
          let* cs := times n uint32_to_color in
          ret (set_colors (Some [cs]) self)
        else ret self in
      let* uv := times n uint32_to_uv in
      ret (true, set_uvs (Some uv) self)
    else if (vl =? 0x24) || (vl =? 0x28) || (vl =? 0x2C) then
      let* vs := times n read3floats in
      let* ns := times n uint32_to_vec in
      let* tan := times n uint32_to_vec in
      let* bi := times n uint32_to_vec in
      let* uv := times n uint32_to_uv in
      let remaining := vl - 12 - 4 - 4 - 4 - 4 in
      let self := set_uvs (Some uv) (set_normals (Some ns) (set_verts vs self)) in
      (* [while remaining != 0: remaining -= 4]: [remaining] is 8, 12 or 16 *)
      let* cols := times (remaining / 4) (times n uint32_to_color) in
      if remaining =? 0 then ret (true, self)
      else ret (true, set_colors (Some cols) self)
    else if vl =? 0x5C then
      let* vs := times n (let* p := read3floats in
                          match unar1 self with
                          | None => fail py.AttributeError
                          | Some _ =>
                              let* f := ras_floats 20 in ret (p, f)
                          end) in
      ret (false,
           set_unar1 (option_map (fun u => u ++ map snd vs) (unar1 self))
             (set_verts (verts self ++ map fst vs) self))
    else ret (false, self)
  else ret (false, self).

(** [readmesh] *)
Definition readmesh (self : t) : io t :=
  seek (vertblock_start (inf self)) ;;
  let* kv := read_verts self in
  let '(known_format, self) := kv in
  (if negb known_format then fail py.ValueError else ret tt) ;;
  let* self := _parse_tris_blocks_ self in
  let* self := if negb (vertmaps_data_len (inf self) =? 0)
               then _parse_vertmaps_ self else ret self in
  let* self := if negb (trisblock_stat_data_len (inf self) =? 0)
               then _parse_trisblock_stat_ self else ret self in
  let* self := if negb (triunknown_data_len (inf self) =? 0)
               then _parse_triunknown_ self else ret self in
  ret self.

(** [__init__] *)
Definition init (do_readmesh : bool) : io t :=
  let* header := common.FileMeta.parse in
  let* m := ruint32 in
  assert (m =? 0xFC9E1595) ;;
  let* size_till_footer := ruint32 in
  let* x00 := ruint32 in
  let* revision := ruint32 in
  let* vert_len := ruint32 in
  let* verts_data_len := ruint32 in
  let* tris_data_len := ruint32 in
  let* vertmaps_data_len := ruint32 in
  let* un2 := ruint32 in
  let* trisblock_stat_data_len := ruint32 in
  let* triunknown_data_len := ruint32 in
  let* x24 := ruint32 in
  let* x28 := ruint32 in
  let* x2C := ruint32 in
  let* num_lods := ruint32 in
  let* mesh_type := rint32 in
  let* num_islands := ruint32 in
  let* x3C := ruint32 in
  let* x40 := rfloat in
  let* x44 := rfloat in
  let* rng3_len := ruint32 in
  (if vert_len =? 0 then fail py.ZeroDivisionError else ret tt) ;;
  let num_verts := verts_data_len / vert_len in
  let* vertblock_start := tell in
  let trisblock_start := vertblock_start + verts_data_len in
  let extra_data_start := trisblock_start + tris_data_len in
  let tail_start := extra_data_start + vertmaps_data_len + un2
                    + trisblock_stat_data_len + triunknown_data_len in
  seek tail_start ;;
  let* island_metas := times (num_islands * num_lods) IslandDescriptor.parse in
  let* island_bboxes := times num_islands (ras_floats 8) in
  let* island_skin_mapping := times num_islands IslandSkinMapping.parse in
  let self :=
    Build (Info header size_till_footer x00 revision vert_len verts_data_len
             tris_data_len vertmaps_data_len un2 trisblock_stat_data_len
             triunknown_data_len x24 x28 x2C num_lods mesh_type num_islands
             x3C x40 x44 rng3_len num_verts vertblock_start trisblock_start
             extra_data_start tail_start island_metas island_bboxes
             island_skin_mapping)
          [] [] [] [] [] None None None None None None in
  if do_readmesh then readmesh self else ret self.

End Mesh.

(** A Python [dict] with integer keys: unique keys, in insertion order. *)
Definition dict (V : Type) : Type := list (Z * V).

Definition dict_keys {V} (d : dict V) : list Z := map fst d.
Definition dict_values {V} (d : dict V) : list V := map snd d.

Fixpoint dict_get {V} (k : Z) (d : dict V) : py.result V :=
  match d with
  | [] => py.raise py.KeyError
  | (k', v) :: rest => if bool_decide (k = k') then py.ok v else dict_get k rest
  end.

Fixpoint dict_set {V} (k : Z) (v : V) (d : dict V) : dict V :=
  match d with
  | [] => [(k, v)]
  | (k', v') :: rest =>
      if bool_decide (k = k') then (k, v) :: rest else (k', v') :: dict_set k v rest
  end.

(** The [meshdata] dictionary: ["islands"] and ["verts"] are always there,
    the other keys may be missing. *)
Record meshdata : Type := Meshdata {
  md_islands : dict (list triangle);
  md_verts : list vec3;
  md_uvs : option (list vec2);
  md_normals : option (list vec3);
  md_colors : option (list (list rgba))
}.

(** [v for island in ... for tri in island for v in tri] *)
Definition tri_verts (tri : triangle) : list Z :=
  let '(a, b, c) := tri in [a; b; c].

Definition island_indices (d : dict (list triangle)) : list Z :=
  concat (map (fun island => concat (map tri_verts island)) (dict_values d)).

(** [sorted(set(...))] *)
Definition sorted_set (l : list Z) : list Z :=
  merge_sort Z.le (elements (list_to_set l : gset Z)).

(** [{old: new for new, old in enumerate(used_verts)}]: a later entry
    replaces an earlier one with the same key. *)
Definition vert_mapping (used_verts : list Z) : gmap Z Z :=
  list_to_map (reverse (imap (fun new old => (old, Z.of_nat new)) used_verts)).

(** [vert_mapping[x]] *)
Definition mapping_get (vm : gmap Z Z) (x : Z) : py.result Z :=
  match vm !! x with
  | Some new => py.ok new
  | None => py.raise py.KeyError
  end.

(** [tuple(vert_mapping[x] for x in tri)] *)
Definition remap_tri (vm : gmap Z Z) (tri : triangle) : py.result triangle :=
  let '(a, b, c) := tri in
  let? a' := mapping_get vm a in
  let? b' := mapping_get vm b in
  let? c' := mapping_get vm c in
  py.ok (a', b', c').

Fixpoint remap_tris (vm : gmap Z Z) (tris : list triangle)
  : py.result (list triangle) :=
  match tris with
  | [] => py.ok []
  | tri :: rest =>
      let? tri' := remap_tri vm tri in
      let? rest' := remap_tris vm rest in
      py.ok (tri' :: rest')
  end.

(** [for mat_id in meshdata["islands"]: meshdata["islands"][mat_id] = ...] *)
Fixpoint remap_islands (vm : gmap Z Z) (keys : list Z)
    (islands : dict (list triangle)) : py.result (dict (list triangle)) :=
  match keys with
  | [] => py.ok islands
  | mat_id :: rest =>
      let? tris := dict_get mat_id islands in
      let? tris' := remap_tris vm tris in
      remap_islands vm rest (dict_set mat_id tris' islands)
  end.

(** [Mesh.remove_isolated_verts] *)
Definition remove_isolated_verts (md : meshdata) : py.result meshdata :=
  let used_verts := sorted_set (island_indices (md_islands md)) in
  let vm := vert_mapping used_verts in
  let verts := _filter_by_indices_ (md_verts md) used_verts in
  let normals := option_map (fun l => _filter_by_indices_ l used_verts) (md_normals md) in
  let uvs := option_map (fun l => _filter_by_indices_ l used_verts) (md_uvs md) in
  let colors :=
    option_map (map (fun color => _filter_by_indices_ color used_verts))
               (md_colors md) in
  let? islands := remap_islands vm (dict_keys (md_islands md)) (md_islands md) in
  py.ok (Meshdata islands verts uvs normals colors).

(** [Mesh.init_meshdata].  Unless [copy] is set the dictionary shares its
    lists with the mesh; the value returned is the same either way. *)
Definition init_meshdata (self : Mesh.t) (copy : bool) : py.result meshdata :=
  let? _ := py.assert (negb (length (Mesh.islands self) =? 0)%nat) in
  py.ok (Meshdata [] (Mesh.verts self) (Mesh.uvs self) (Mesh.normals self)
           (Mesh.colors self)).

(** [tuple(v + offset_verts for v in tri)] *)
Definition shift_tri (offset_verts : Z) (tri : triangle) : triangle :=
  let '(a, b, c) := tri in (a + offset_verts, b + offset_verts, c + offset_verts).

(** [Mesh.build_island] *)
Definition build_island (self : Mesh.t) (md : meshdata) (index : Z)
  : py.result meshdata :=
  let? _ := py.assert (negb (length (Mesh.islands self) =? 0)%nat) in
  let? island_tris := py.index (Mesh.islands self) index in
  let? island_meta := py.index (Mesh.island_metas (Mesh.inf self)) index in
  let offset_verts := IslandDescriptor.offset_verts island_meta in
  let tris := if negb (offset_verts =? 0)
              then map (shift_tri offset_verts) island_tris
              else island_tris in
  py.ok (Meshdata (dict_set (IslandDescriptor.mat_id island_meta) tris (md_islands md))
           (md_verts md) (md_uvs md) (md_normals md) (md_colors md)).

(** The [islands] argument of [build_meshdata]: [None], an integer or a
    list of integers. *)
Inductive islands_arg : Type :=
| islands_default
| islands_int (i : Z)
| islands_list (l : list Z).

(** [for isl_index in islands] *)
Fixpoint build_islands (self : Mesh.t) (lod : Z) (islands : list Z) (md : meshdata)
  : py.result meshdata :=
  match islands with
  | [] => py.ok md
  | isl_index :: rest =>
      let? final_index :=
        if negb (lod =? -1) then
          let? _ := py.assert (isl_index <? Mesh.num_islands (Mesh.inf self)) in
          py.ok (lod * Mesh.num_islands (Mesh.inf self) + isl_index)
        else py.ok isl_index in
      let? md' := build_island self md final_index in
      build_islands self lod rest md'
  end.

(** [Mesh.build_meshdata] *)
Definition build_meshdata (self : Mesh.t) (lod : Z) (copy clear : bool)
    (islands : islands_arg) : py.result meshdata :=
  let islands :=
    match islands with
    | islands_default =>
        map Z.of_nat (seq 0 (Z.to_nat (Mesh.num_islands (Mesh.inf self))))
    | islands_int i => [i]
    | islands_list l => l
    end in
  let? _ := py.assert (lod <? Mesh.num_lods (Mesh.inf self)) in
  let? md := init_meshdata self copy in
  let? md := build_islands self lod islands md in
  if clear then remove_isolated_verts md else py.ok md.

(** Vocabulary for stating what [remove_isolated_verts] does: the entries
    of [lst] at the positions [used], in the order of [used]; and an index
    [new] that stands for the original index [old]. *)
Definition kept {A} (used : list Z) (lst : list A) : list A :=
  omap (fun u => lst !! Z.to_nat u) used.

Definition index_remapped (used : list Z) (old new : Z) : Prop :=
  0 <= new < Z.of_nat (length used) /\ used !! Z.to_nat new = Some old.

Definition tri_remapped (used : list Z) (t t' : triangle) : Prop :=
  index_remapped used t.1.1 t'.1.1
  /\ index_remapped used t.1.2 t'.1.2
  /\ index_remapped used t.2 t'.2.

End mesh.

(** ** r6s/collector.py *)

Module collector.
Import forge.

Definition ASSET_MAGIC : Z := 0x22ECBE63.

(** The value stored under each uid: [{"forge": ..., "index": ..., "magic": ...}] *)
Record index_entry : Type := IndexEntry {
  ie_forge : string;
  ie_index : Z;
  ie_magic : Z
}.

(** The objects the resolver pickles.  [pickle.load] gives back an object
    equal to the one [pickle.dump] was given, so a cache file is modelled
    by the object it holds. *)
Inductive pyobj : Type :=
| obj_uids (uids : list Z)
| obj_index (index : gmap Z index_entry)
| obj_depgraph (graph : DepGraph.t).

(** The two directories the resolver works on: the game directory, as the
    list of its files in the order [glob] yields them, and the cache
    directory, absent or a map from file name to pickled object. *)
Record filesystem : Type := Filesystem {
  idir : list (string * py.bytes);
  cdir : option (gmap string pyobj)
}.

Module SiegeLinksData.

Definition _ASSET_UIDS_CACHE : string := "asset_uids.pckl".
Definition _ALL_LINKS_CACHE : string := "all_links.pckl".
Definition _ASSET_CHILDREN : string := "asset_children.pckl".
Definition _UIDS_INDEX : string := "uids_index.pckl".

(** The four attributes; [None] until [generate] or [load] sets them. *)
Record t : Type := Build {
  all_links : option pyobj;
  asset_children : option pyobj;
  asset_uids : option pyobj;
  uids_index : option pyobj
}.

(** [__init__(load=False)] *)
Definition init : t := Build None None None None.

(** [idir.glob("*" + ext)] *)
Definition has_suffix (ext name : string) : bool :=
  let n := String.length name in
  let k := String.length ext in
  (k <=? n)%nat && String.eqb (String.substring (n - k) k name) ext.

Definition glob (ext : string) (dir : list (string * py.bytes))
  : list (string * py.bytes) :=
  filter (fun f => has_suffix ext (fst f) = true) dir.

(** [with path.open("bw") as w: pckl.dump(obj, w)] *)
Definition dump (obj : pyobj) (name : string) (c : gmap string pyobj)
  : gmap string pyobj := <[name := obj]> c.

(** [with open(path, "rb") as r: pckl.load(r)] *)
Definition load_file (name : string) (c : option (gmap string pyobj))
  : py.result pyobj :=
  match c with
  | None => py.raise py.FileNotFoundError
  | Some files =>
      match files !! name with
      | Some obj => py.ok obj
      | None => py.raise py.FileNotFoundError
      end
  end.

(** [for i, (e, n) in enumerate(zip(f.entries, f.names))] *)
Fixpoint scan_entries (fname : string) (i : Z)
    (ens : list (Entry.t * NameEntry.t))
    (acc : list Z * gmap Z index_entry) : list Z * gmap Z index_entry :=
  match ens with
  | [] => acc
  | (e, n) :: rest =>
      let '(asset_uids, uids_index) := acc in
      let asset_uids :=
        if NameEntry.file_type n =? ASSET_MAGIC
        then asset_uids ++ [Entry.uid e] else asset_uids in
      let uids_index :=
        <[Entry.uid e := IndexEntry fname i (NameEntry.file_type n)]> uids_index in
      scan_entries fname (i + 1) rest (asset_uids, uids_index)
  end.

(** [for fpath in idir.glob("*.forge")] *)
Fixpoint scan_forges (files : list (string * py.bytes))
    (acc : list Z * gmap Z index_entry)
  : py.result (list Z * gmap Z index_entry) :=
  match files with
  | [] => py.ok acc
  | (fname, content) :: rest =>
      let? f := forge.parse content in
      scan_forges rest
        (scan_entries fname 0 (zip (Forge.entries f) (Forge.names f)) acc)
  end.

(** [for i, l in enumerate(all_links.links): if l.src in asset_uids: ...] *)
Definition filter_links (asset_uids : list Z) (links : list Link.t) : list Link.t :=
  filter (fun l => Link.src l ∈ asset_uids) links.

Section decompress.
Context {zstd : ZstdDecompressor}.

(** [generate].  The result is the object and the file system after the
    call; when an exception leaves, what had been written is not tracked. *)
Definition generate (self : t) (fs : filesystem) : py.result (t * filesystem) :=
  let cache := match cdir fs with
               | None => ∅          (* [cdir.mkdir()] *)
               | Some c => c
               end in
  (* gather all asset uids and entry addresses *)
  let? found := scan_forges (glob ".forge" (idir fs)) ([], ∅) in
  let '(asset_uids, uids_index) := found in
  let cache := dump (obj_uids asset_uids) _ASSET_UIDS_CACHE cache in
  let cache := dump (obj_index uids_index) _UIDS_INDEX cache in
  (* gather depgraph links *)
  let? all_links :=
    parse_all DepGraph.init (map snd (glob ".depgraphbin" (idir fs))) in
  let cache := dump (obj_depgraph all_links) _ALL_LINKS_CACHE cache in
  (* clear so it has only assets dependencies *)
  let filtered_links := filter_links asset_uids (DepGraph.links all_links) in
  let asset_children := DepGraph.Build filtered_links in
  let cache := dump (obj_depgraph all_links) _ASSET_CHILDREN cache in
  py.ok (Build (Some (obj_depgraph all_links))
               (Some (obj_depgraph asset_children))
               (Some (obj_uids asset_uids))
               (Some (obj_index uids_index)),
         Filesystem (idir fs) (Some cache)).

End decompress.

(** [load] *)
Definition load (self : t) (fs : filesystem) : py.result t :=
  let? asset_uids := load_file _ASSET_UIDS_CACHE (cdir fs) in
  let? all_links := load_file _ALL_LINKS_CACHE (cdir fs) in
  let? asset_children := load_file _ASSET_CHILDREN (cdir fs) in
  let? uids_index := load_file _UIDS_INDEX (cdir fs) in
  py.ok (Build (Some all_links) (Some asset_children) (Some asset_uids)
               (Some uids_index)).

(** [reload]: without a cache directory it only prints; the call to
    [generate] is commented out. *)
Definition reload (self : t) (fs : filesystem) : py.result t :=
  match cdir fs with
  | None => py.ok self
  | Some _ => load self fs
  end.

(** [__init__] with its [load] flag. *)
Definition new (load_flag : bool) (fs : filesystem) : py.result t :=
  if load_flag then reload init fs else py.ok init.

End SiegeLinksData.

End collector.

(** ** Sample inputs

    Byte strings laid out as the formats prescribe, used to run the
    decoders on concrete data. *)

Module samples.
Import pyio.

Definition byte_of (v : Z) : byte :=
  default x00 (Byte.of_N (Z.to_N (v mod 256))).

(** The [w]-byte little-endian encoding of [v]. *)
Fixpoint le_bytes (w : nat) (v : Z) : py.bytes :=
  match w with
  | O => []
  | S w' => byte_of v :: le_bytes w' (v / 256)
  end.

Definition u8 := le_bytes 1.
Definition u16 := le_bytes 2.
Definition u32 := le_bytes 4.
Definition u64 := le_bytes 8.

Definition zeros (n : nat) : py.bytes := replicate n x00.

(** The preamble of a datablock announcing [n] chunks. *)
Definition datablock_preamble (n : Z) : py.bytes :=
  u16 3 ++ u16 3 ++ u8 0 ++ u16 0 ++ u32 n.

(** A file container whose first datablock (no chunks) is followed by an
    eight-byte value that is not the nested container magic.  The entry
    spans the 32 bytes; the cursor stands after the container magic, where
    [get_container] leaves it. *)
Definition file_unknown_variant : stream :=
  Stream (u32 0x57FBAA34 ++ u32 0x1014FA99 ++ datablock_preamble 0
            ++ u64 0x1122334455667788 ++ zeros 5) 4 false.

Definition entry_32 : forge.Entry.t := forge.Entry.Build 0 7 32 32.

(** The same container with the nested magic and a second datablock. *)
Definition file_with_meta : stream :=
  Stream (u32 0x57FBAA34 ++ u32 0x1014FA99 ++ datablock_preamble 0
            ++ u64 0x1014FA9957FBAA34 ++ datablock_preamble 0) 4 false.

Definition entry_38 : forge.Entry.t := forge.Entry.Build 0 7 38 38.

(** A texture stream: file meta, payload header, sixteen payload bytes and
    the 0x29-byte trailer with [w = 1024], [h = 2048], [chan = 1]. *)
Definition texture : stream :=
  BytesIO
    (u32 0 ++ u32 0 ++ u32 0xD7B5C478 ++ u64 42 ++ u32 0xD7B5C478 ++ u32 0 ++ u32 0
     ++ u32 0x13237FE9
     ++ u32 0xF ++ u32 1 ++ u32 0 ++ u32 0 ++ u32 0 ++ u32 0 ++ u32 0 ++ u32 0
     ++ u32 0 ++ u32 0 ++ u32 0
     ++ u8 0 ++ u16 1 ++ u8 0 ++ u32 7
     ++ zeros 16
     ++ u32 1024 ++ u32 2048 ++ u32 1 ++ u32 0 ++ u32 1 ++ u32 0 ++ u32 11
     ++ u32 0 ++ u32 7 ++ u32 7 ++ u8 1).

(** File meta and payload header of a texture with nothing after them. *)
Definition texture_header_only : stream :=
  BytesIO
    (u32 0 ++ u32 0 ++ u32 0xD7B5C478 ++ u64 42 ++ u32 0xD7B5C478 ++ u32 0 ++ u32 0
     ++ u32 0x13237FE9
     ++ u32 0xF ++ u32 1 ++ u32 0 ++ u32 0 ++ u32 0 ++ u32 0 ++ u32 0 ++ u32 0
     ++ u32 0 ++ u32 0 ++ u32 0
     ++ u8 0 ++ u16 1 ++ u8 0 ++ u32 7).

(** Index buffers of one triangle chunk (192 indices), as [u16] streams. *)
Definition indices_stream (l : list Z) : stream :=
  BytesIO (concat (map u16 l)).

(** Two triangles, then padding with the last index. *)
Definition indices_padded : list Z := [5; 6; 7; 8; 9; 10] ++ replicate 186 10.

(** One degenerate triangle on vertex 5, then padding with index 7. *)
Definition indices_degenerate : list Z := [5; 5; 5] ++ replicate 189 7.

(** Nothing but padding. *)
Definition indices_all_padding : list Z := replicate 192 9.

Definition island_one_chunk : mesh.IslandDescriptor.t :=
  mesh.IslandDescriptor.Build 0 0 0 0 1 0 0 0 0.

(** A mesh of revision 1 with the 0x5C vertex layout and [n] vertices
    (all bytes of the vertex block zero), no island: file meta, model
    header, the 0x4C-byte body header, the vertex block. *)
Definition mesh_5C_bytes (n : nat) : py.bytes :=
  u32 0 ++ u32 0 ++ u32 0xABEB2DFB ++ u64 42 ++ u32 0xABEB2DFB ++ u32 0 ++ u32 0
  ++ u32 0xFC9E1595 ++ u32 0
  ++ u32 0x14 ++ u32 1 ++ u32 0x5C ++ u32 (0x5C * Z.of_nat n) ++ u32 0
  ++ u32 0 ++ u32 0 ++ u32 0 ++ u32 0
  ++ u32 0 ++ u32 0 ++ u32 2 ++ u32 1 ++ u32 2 ++ u32 0
  ++ u32 0 ++ u32 0 ++ u32 0 ++ u32 0
  ++ zeros (0x5C * n).

(** A mesh of revision 1 with the 0x1C vertex layout: two vertices, one
    level of detail, one island of one triangle chunk (the triangle
    [(0, 1, 0)] and padding), one vertex map, then the tail tables. *)
Definition mesh_1C_bytes : py.bytes :=
  u32 0 ++ u32 0 ++ u32 0xABEB2DFB ++ u64 42 ++ u32 0xABEB2DFB ++ u32 0 ++ u32 0
  ++ u32 0xFC9E1595 ++ u32 0
  ++ u32 0x14 ++ u32 1 ++ u32 0x1C ++ u32 0x38 ++ u32 0x180
  ++ u32 4 ++ u32 0 ++ u32 0 ++ u32 0
  ++ u32 0 ++ u32 0 ++ u32 2 ++ u32 1 ++ u32 2 ++ u32 1
  ++ u32 0 ++ u32 0 ++ u32 0 ++ u32 0
  ++ zeros 0x38
  ++ concat (map u16 ([0; 1; 0] ++ replicate 189 1))
  ++ u16 0 ++ u16 1
  ++ u32 0 ++ u32 0 ++ u32 2 ++ u32 0 ++ u32 1 ++ u32 3 ++ u32 0 ++ u32 0 ++ u32 0
  ++ zeros 0x20
  ++ u16 0 ++ u8 0 ++ u8 3 ++ u16 0 ++ u16 0 ++ u8 0 ++ zeros 255 ++ u32 0.

(** A decoded mesh with four vertices and two islands of one level of
    detail: material 7 with the triangle [(0, 1, 2)], and material 9 with
    the triangle [(0, 1, 0)] on vertices counted from [offset_verts = 1].
    Vertex 3 belongs to no triangle. *)
Definition mesh_two_islands : mesh.Mesh.t :=
  mesh.Mesh.Build
    (mesh.Mesh.Info
       (common.FileMeta.Build [] 0 0xABEB2DFB 42 0 0)
       0 0x14 1 0x18 0x60 0x300 0 0 0 0 0 0 2 1 2 2 0
       (py.f32 0) (py.f32 0) 0 4 116 212 980 980
       [mesh.IslandDescriptor.Build 0 0 3 0 1 7 0 0 0;
        mesh.IslandDescriptor.Build 0 1 2 1 1 9 0 0 0]
       [] [])
    [(py.f32 0, py.f32 0, py.f32 0); (py.f32 1, py.f32 1, py.f32 1);
     (py.f32 2, py.f32 2, py.f32 2); (py.f32 3, py.f32 3, py.f32 3)]
    [[(0, 1, 2)]; [(0, 1, 0)]]
    [] [] [] None None None None None None.

(** The object [Mesh(r, readmesh=False)] builds from [mesh_5C_bytes n]. *)
Definition mesh_5C (n : nat) : mesh.Mesh.t :=
  mesh.Mesh.Build
    (mesh.Mesh.Info
       (common.FileMeta.Build [] 0 0xABEB2DFB 42 0 0)
       0 0x14 1 0x5C (0x5C * Z.of_nat n) 0 0 0 0 0 0 0 2 1 2 0 0
       (py.f32 0) (py.f32 0) 0 (Z.of_nat n) 116 (116 + 0x5C * Z.of_nat n)
       (116 + 0x5C * Z.of_nat n) (116 + 0x5C * Z.of_nat n) [] [] [])
    [] [] [] [] [] None None None None None None.

(** A meshdata with five vertices of which triangles use 1, 3 and 4. *)
Definition vertex (n : Z) : unpack.vec3 := (py.f32 n, py.f32 n, py.f32 n).

Definition meshdata_5 : mesh.meshdata :=
  mesh.Meshdata
    [(7, [(4, 1, 3); (3, 4, 1)]); (2, [(1, 1, 4)])]
    [vertex 10; vertex 11; vertex 12; vertex 13; vertex 14]
    None
    (Some [vertex 20; vertex 21; vertex 22; vertex 23; vertex 24])
    None.

(** A stand-in for the zstandard binding on sample data: a frame is a
    count and a byte, and decodes to that many copies of the byte. *)
Definition toy_zstd : ZstdDecompressor :=
  fun data =>
    match data with
    | n :: b :: _ => py.ok (replicate (Z.to_nat (py.byte_val n)) b)
    | _ => py.raise py.ZstdError
    end.

(** A datablock of two chunks: one compressed (16 bytes unpacked, 4
    packed), one raw (the eight bytes 0..7). *)
Definition datablock_two_chunks : stream :=
  open (datablock_preamble 2
        ++ u32 16 ++ u32 4 ++ u32 8 ++ u32 8
        ++ u32 0xAAAA ++ [x10; xab; x00; x00]
        ++ u32 0xBBBB ++ [x00; x01; x02; x03; x04; x05; x06; x07]).

(** A datablock with one raw chunk that claims one byte unpacked for two
    stored. *)
Definition datablock_raw_mismatch : stream :=
  open (datablock_preamble 1 ++ u32 1 ++ u32 2 ++ u32 0 ++ [x41; x42]).

(** What [Datablock(r)] builds from [datablock_two_chunks]. *)
Definition two_chunks : forge.Datablock.t :=
  forge.Datablock.Build 0
    [forge.Chunk.Build 16 4 0xAAAA 31 true; forge.Chunk.Build 8 8 0xBBBB 39 false]
    12 24 true.

(** Three links and two dependency-graph files, [{L1, L2}] and
    [{L2, L3}], each stored as one raw chunk. *)
Definition L1 : forge.Link.t := forge.Link.Build 1 10 0 0 0 0.
Definition L2 : forge.Link.t := forge.Link.Build 1 11 (-1) 2 3 4.
Definition L3 : forge.Link.t := forge.Link.Build 5 12 0 0 0 0.

Definition link_bytes (l : forge.Link.t) : py.bytes :=
  u64 (forge.Link.src l) ++ u64 (forge.Link.dst l) ++ u32 (forge.Link.x10 l)
  ++ u16 (forge.Link.x14 l) ++ u8 (forge.Link.x16 l) ++ u8 (forge.Link.x17 l).

Definition depgraph_file (links : list forge.Link.t) : py.bytes :=
  let data := u8 2 ++ concat (map link_bytes links) in
  let n := Z.of_nat (length data) in
  u64 0x1014FA9957FBAA34 ++ datablock_preamble 1 ++ u32 n ++ u32 n
  ++ u32 0 ++ data.

Definition depgraph_12 : py.bytes := depgraph_file [L1; L2].

(** A name-table record with the given payload magic. *)
Definition name_entry_bytes (file_type : Z) : py.bytes :=
  u32 0 ++ u32 4 ++ u64 0 ++ u32 4 ++ zeros 0xFF ++ u8 0 ++ u32 0 ++ u32 0
  ++ u32 0xFFFFFFFF ++ u32 0xFFFFFFFF ++ u64 0 ++ u32 file_type ++ u32 0
  ++ zeros 12.

(** An archive whose entries have the given uids and payload magics (no
    payload is stored: the resolver reads the two tables only). *)
Definition forge_bytes (entries : list (Z * Z)) : py.bytes :=
  let n := Z.of_nat (length entries) in
  forge.Forge.FORMATID ++ u32 30 ++ u32 0x1D
  ++ u32 0 ++ u32 0x10 ++ u32 0 ++ u8 0
  ++ u32 n ++ u32 2 ++ u32 0 ++ u32 0 ++ u32 0 ++ u32 0xFFFFFFFF ++ u32 0xFFFFFFFF
  ++ u32 (n + 2) ++ u32 1 ++ u32 0x4A ++ u32 0
  ++ u32 n ++ u32 2 ++ u32 0x7A ++ u32 0 ++ u32 0xFFFFFFFF ++ u32 0xFFFFFFFF ++ u32 0
  ++ u32 (n + 1) ++ u64 (0x7A + 20 * n) ++ u64 0
  ++ concat (map (fun e => u64 0 ++ u64 (fst e) ++ u32 0) entries)
  ++ concat (map (fun e => name_entry_bytes (snd e)) entries).

(** A game directory: one archive holding the asset 1 and the mesh 5, one
    dependency graph with two links from the asset and one from the mesh. *)
Definition game_dir : list (string * py.bytes) :=
  [("datapc64.forge"%string,
    forge_bytes [(1, collector.ASSET_MAGIC); (5, 0xABEB2DFB)]);
   ("datapc64.depgraphbin"%string, depgraph_file [L1; L2; L3])].

Definition game_fs : collector.filesystem := collector.Filesystem game_dir None.

End samples.

(* ================================================================== *)
(** * Part II: properties                                               *)
(* ================================================================== *)

Import pyio binstream.

(** ** Python slices *)

Lemma slice_to_take {A} (l : list A) (k : Z) :
  0 <= k -> py.slice_to l k = take (Z.to_nat k) l.
Proof.
  intros Hk. unfold py.slice_to, py.slice, py.slice_bound.
  replace (0 <? 0) with false by reflexivity.
  destruct (k <? 0) eqn:E; [lia|]. cbv zeta.
  rewrite (Z.min_l 0) by lia. simpl Z.to_nat. rewrite drop_0, Z.sub_0_r.
  destruct (Z.le_gt_cases k (Z.of_nat (length l))).
  - rewrite Z.min_l by lia. reflexivity.
  - rewrite Z.min_r by lia. rewrite Nat2Z.id.
    rewrite !take_ge by lia. reflexivity.
Qed.

Lemma slice_to_minus_one {A} (l : list A) :
  py.slice_to l (-1) = take (length l - 1) l.
Proof.
  unfold py.slice_to, py.slice, py.slice_bound.
  replace (0 <? 0) with false by reflexivity.
  replace (-1 <? 0) with true by reflexivity. cbv zeta.
  rewrite (Z.min_l 0) by lia. simpl Z.to_nat. rewrite drop_0, Z.sub_0_r.
  destruct l as [|a l]; [reflexivity|].
  rewrite Z.max_l by (simpl length; lia).
  f_equal. simpl length. lia.
Qed.

(** ** binstream: [termstr] *)

Lemma find_from_absent (s : py.bytes) (c : byte) (i : Z) :
  c ∉ s -> py.find_from s c i = -1.
Proof.
  revert i. induction s as [|b s IH]; intros i Hc; simpl; [reflexivity|].
  apply not_elem_of_cons in Hc as [Hb Hs].
  destruct (Byte.eqb b c) eqn:E.
  - apply Byte.byte_dec_bl in E. congruence.
  - apply IH, Hs.
Qed.

Lemma find_from_first (p q : py.bytes) (c : byte) (i : Z) :
  c ∉ p -> py.find_from (p ++ c :: q) c i = i + Z.of_nat (length p).
Proof.
  revert i. induction p as [|b p IH]; intros i Hc; simpl.
  - rewrite Byte.byte_dec_lb by reflexivity. lia.
  - apply not_elem_of_cons in Hc as [Hb Hp].
    destruct (Byte.eqb b c) eqn:E.
    + apply Byte.byte_dec_bl in E. congruence.
    + rewrite IH by assumption. lia.
Qed.

(** When the string holds a NUL, [termstr] returns what precedes the first
    one. *)
Lemma termstr_first_nul (p q : py.bytes) :
  x00 ∉ p -> termstr (p ++ x00 :: q) = p.
Proof.
  intros Hp. unfold termstr, py.find.
  rewrite find_from_first by assumption.
  rewrite slice_to_take by lia.
  rewrite Z.add_0_l, Nat2Z.id. apply take_app_length.
Qed.

Lemma termstr_no_nul (s : py.bytes) :
  x00 ∉ s -> termstr s = take (length s - 1) s.
Proof.
  intros Hs. unfold termstr, py.find.
  rewrite find_from_absent by assumption.
  apply slice_to_minus_one.
Qed.

(** C7 (the code departs from the claim): on a string without NUL,
    [bytes.find] answers [-1] and the slice [s[:-1]] drops the last byte
    instead of returning the string unchanged. *)
Theorem termstr_without_nul_drops_last_byte (s : py.bytes) (b : byte) :
  x00 ∉ s ++ [b] -> termstr (s ++ [b]) = s.
Proof.
  intros H. rewrite termstr_no_nul by assumption.
  rewrite length_app. simpl.
  replace (length s + 1 - 1)%nat with (length s) by lia.
  apply take_app_length.
Qed.

Lemma termstr_without_nul_drops_last_byte_witness :
  (x00 ∉ [x61; x62] ++ [x63]) /\ termstr ([x61; x62] ++ [x63]) = [x61; x62].
Proof.
  assert (H : x00 ∉ [x61; x62] ++ [x63]).
  { simpl. rewrite !not_elem_of_cons. repeat split; try discriminate.
    apply not_elem_of_nil. }
  split; [exact H|].
  exact (termstr_without_nul_drops_last_byte [x61; x62] x63 H).
Defined.

(** ** Running code against a stream *)

Lemma bind_ok {A B} (m : io A) (k : A -> io B) (r : stream) (x : B * stream) :
  pyio.bind m k r = py.ok x ->
  exists a r1, m r = py.ok (a, r1) /\ k a r1 = py.ok x.
Proof.
  unfold pyio.bind. destruct (m r) as [e|[a r1]]; [discriminate|].
  intros H. exists a, r1. split; [reflexivity|exact H].
Qed.

Lemma bind_step {A B} (m : io A) (k : A -> io B) (r r1 : stream) (a : A) :
  m r = py.ok (a, r1) -> pyio.bind m k r = k a r1.
Proof. intros H. unfold pyio.bind. rewrite H. reflexivity. Qed.

Lemma assert_ok (b : bool) (r : stream) (x : unit * stream) :
  pyio.assert b r = py.ok x -> b = true /\ x = (tt, r).
Proof.
  unfold pyio.assert, pyio.lift, py.assert. destruct b; [|discriminate].
  unfold py.ok. intros [= <-]. split; reflexivity.
Qed.

Lemma ret_ok {A} (a : A) (r : stream) (x : A * stream) :
  pyio.ret a r = py.ok x -> x = (a, r).
Proof. unfold pyio.ret, py.ok. intros [= <-]. reflexivity. Qed.

(** Peel the binds of a successful run, one hypothesis per statement. *)
Ltac io_inv H :=
  lazymatch type of H with
  | pyio.bind _ _ _ = py.ok _ =>
      let a := fresh "v" in
      let r := fresh "r" in
      let H1 := fresh "Hrun" in
      let H2 := fresh "Hrest" in
      apply bind_ok in H as (a & r & H1 & H2); io_inv H2
  | pyio.ret _ _ = py.ok _ => apply ret_ok in H
  | _ => idtac
  end.

Lemma le_uint_nonneg (bs : py.bytes) : 0 <= le_uint bs.
Proof.
  induction bs as [|b bs IH]; simpl; [lia|].
  unfold py.byte_val. lia.
Qed.

Lemma upk_uint_nonneg (w : Z) (bs : py.bytes) (v : Z) :
  upk_uint w bs = py.ok v -> 0 <= v.
Proof.
  unfold upk_uint. destruct (_ =? _); [|discriminate].
  unfold py.ok. intros [= <-]. apply le_uint_nonneg.
Qed.

Lemma read_then_upk_nonneg (n w : Z) (r r' : stream) (v : Z) :
  (let* b := read n in lift (upk_uint w b)) r = py.ok (v, r') -> 0 <= v.
Proof.
  intros H. apply bind_ok in H as (b & r1 & _ & H).
  unfold lift in H. destruct (upk_uint w b) eqn:E; [discriminate|].
  unfold py.ok in H. injection H as <- _. eapply upk_uint_nonneg, E.
Qed.

Lemma ruint32_nonneg (r r' : stream) (v : Z) : ruint32 r = py.ok (v, r') -> 0 <= v.
Proof. apply read_then_upk_nonneg. Qed.

Lemma ruint64_nonneg (r r' : stream) (v : Z) : ruint64 r = py.ok (v, r') -> 0 <= v.
Proof. apply read_then_upk_nonneg. Qed.

(** ** forge: the File container *)

Import forge.

Lemma Entry_end_nonneg (r r' : stream) (entry : Entry.t) :
  Entry.init r = py.ok (entry, r') -> 0 <= Entry.end_ entry.
Proof.
  intros H. unfold Entry.init in H. io_inv H.
  match goal with E : (entry, r') = _ |- _ => injection E as -> _ end. simpl.
  match goal with E : ruint64 r = _ |- _ => apply ruint64_nonneg in E end.
  match goal with E : ruint32 _ = _ |- _ => apply ruint32_nonneg in E end.
  lia.
Qed.

Definition NESTED_MAGIC : Z := 0x1014FA9957FBAA34.

(** C1 (as amended): once the first datablock is decoded and the cursor is
    still below [entry.end], a probe equal to the nested magic makes
    [File.__init__] decode a second datablock, which becomes [file] while
    the first one is [meta]; any other probe leaves the first datablock in
    [meta], leaves [file] unset, and moves the cursor to [entry.end]. *)
Theorem File_init_after_first_block
    (entry : Entry.t) (r r1 r2 r3 : stream) (block : Datablock.t) (probe : Z) :
  0 <= Entry.end_ entry ->
  ruint32 r = py.ok (0x1014FA99, r1) ->
  Datablock.init r1 = py.ok (block, r2) ->
  pos r2 < Entry.end_ entry ->
  ruint64 r2 = py.ok (probe, r3) ->
  (probe = NESTED_MAGIC ->
   forall payload r4,
     Datablock.init r3 = py.ok (payload, r4) ->
     File.init entry r = py.ok (File.Build (Some block) (Some payload), r4))
  /\
  (probe <> NESTED_MAGIC ->
   File.init entry r =
     py.ok (File.Build (Some block) None,
            Stream (buf r3) (Entry.end_ entry) (in_memory r3))).
Proof.
  intros Hend Hmagic Hblock Hbelow Hprobe.
  assert (Hcommon : File.init entry r =
    (if negb (probe =? NESTED_MAGIC)
     then (seek (Entry.end_ entry) ;; ret (File.Build (Some block) None))
     else (let* payload := Datablock.init in
           ret (File.Build (Some block) (Some payload)))) r3).
  { unfold File.init.
    rewrite (bind_step _ _ _ _ _ Hmagic).
    rewrite (bind_step (pyio.assert _) _ r1 r1 tt) by reflexivity.
    rewrite (bind_step _ _ _ _ _ Hblock).
    rewrite (bind_step tell _ r2 r2 (pos r2)) by reflexivity.
    apply Z.ltb_lt in Hbelow. rewrite Hbelow.
    rewrite (bind_step _ _ _ _ _ Hprobe). reflexivity. }
  split.
  - intros -> payload r4 Hpayload. rewrite Hcommon.
    rewrite Z.eqb_refl. cbn [negb].
    rewrite (bind_step _ _ _ _ _ Hpayload). reflexivity.
  - intros Hne. rewrite Hcommon.
    apply Z.eqb_neq in Hne. rewrite Hne. cbn [negb].
    unfold pyio.bind, seek.
    destruct (Entry.end_ entry <? 0) eqn:E; [lia|]. reflexivity.
Qed.

Lemma File_init_after_first_block_witness :
  exists block r',
    File.init samples.entry_32 samples.file_unknown_variant
      = py.ok (File.Build (Some block) None, r')
    /\ pos r' = Entry.end_ samples.entry_32.
Proof.
  eexists _, _. split.
  - refine (proj2 (File_init_after_first_block samples.entry_32
                     samples.file_unknown_variant _ _ _ _ 0x1122334455667788
                     _ _ _ _ _) _).
    + vm_compute. discriminate.
    + vm_compute. reflexivity.
    + vm_compute. reflexivity.
    + vm_compute. reflexivity.
    + vm_compute. reflexivity.
    + vm_compute. discriminate.
  - reflexivity.
Defined.

(** C1, the claim as worded fails: with a probe other than the nested
    magic the first datablock does not become the payload; [file] is left
    unset. *)
Lemma File_init_unknown_variant_has_no_payload :
  exists r1 block r2 probe r3 f r',
    ruint32 samples.file_unknown_variant = py.ok (0x1014FA99, r1)
    /\ Datablock.init r1 = py.ok (block, r2)
    /\ pos r2 < Entry.end_ samples.entry_32
    /\ ruint64 r2 = py.ok (probe, r3)
    /\ probe <> NESTED_MAGIC
    /\ File.init samples.entry_32 samples.file_unknown_variant = py.ok (f, r')
    /\ File.file f <> Some block
    /\ File.file f = None.
Proof.
  eexists _, _, _, _, _, _, _.
  split; [vm_compute; reflexivity|].
  split; [vm_compute; reflexivity|].
  split; [vm_compute; reflexivity|].
  split; [vm_compute; reflexivity|].
  split; [vm_compute; discriminate|].
  split; [vm_compute; reflexivity|].
  split; [vm_compute; discriminate | reflexivity].
Qed.

(** ** tex: real dimensions *)

Import tex.

(** C8: for every texture decoded from a stream, [get_dimensions] returns
    the stored [w] and [h] shifted right by the trailer field the code
    names [chan] (the mip shift), which is floor division by [2 ^ chan]. *)
Theorem Tex_get_dimensions_shift (r r' : stream) (t : Tex.t) :
  Tex.init r = py.ok (t, r') ->
  Tex.get_dimensions t
    = [Z.shiftr (Tex.w t) (Tex.chan t); Z.shiftr (Tex.h t) (Tex.chan t)]
  /\ Tex.get_dimensions t
    = [Tex.w t / 2 ^ Tex.chan t; Tex.h t / 2 ^ Tex.chan t]
  /\ 0 <= Tex.w t /\ 0 <= Tex.h t /\ 0 <= Tex.chan t.
Proof.
  intros H. unfold Tex.init in H. io_inv H.
  match goal with E : (t, r') = _ |- _ => injection E as -> _ end.
  repeat match goal with
         | E : ruint32 _ = py.ok (_, _) |- _ => apply ruint32_nonneg in E
         end.
  unfold Tex.get_dimensions. cbn [Tex.w Tex.h Tex.chan].
  rewrite !Z.shiftr_div_pow2 by assumption.
  repeat split; assumption.
Qed.

Lemma Tex_get_dimensions_shift_witness :
  exists t r',
    Tex.init samples.texture = py.ok (t, r')
    /\ Tex.get_dimensions t = [512; 1024].
Proof.
  destruct (Tex.init samples.texture) as [e|[t r']] eqn:E;
    [vm_compute in E; discriminate|].
  exists t, r'. split; [reflexivity|].
  rewrite (proj1 (Tex_get_dimensions_shift _ _ _ E)).
  vm_compute in E. injection E as <- <-. reflexivity.
Defined.

Example texture_format_known :
  exists t r', Tex.init samples.texture = py.ok (t, r') /\ dds_format t = py.ok 95.
Proof. eexists _, _. split; vm_compute; reflexivity. Qed.

(** ** mesh: trimming the padding of an index buffer *)

Import mesh.

Lemma slice_bound_range (len i : Z) :
  0 <= len -> 0 <= py.slice_bound len i <= len.
Proof. intros H. unfold py.slice_bound. destruct (i <? 0) eqn:E; lia. Qed.

Lemma slice_triplet {A} (l : list A) (i : Z) :
  0 <= i -> i + 3 <= Z.of_nat (length l) ->
  py.slice l i (i + 3) = take 3 (drop (Z.to_nat i) l).
Proof.
  intros H0 H1. unfold py.slice, py.slice_bound. cbv zeta.
  destruct (i <? 0) eqn:E; [lia|].
  destruct (i + 3 <? 0) eqn:E'; [lia|].
  rewrite !Z.min_l by lia. f_equal. lia.
Qed.

Lemma slice_negative_short {A} (l : list A) (i : Z) :
  -3 <= i < 0 -> (length (py.slice l i (i + 3)) < 3)%nat.
Proof.
  intros Hi. unfold py.slice, py.slice_bound. cbv zeta.
  destruct (i <? 0) eqn:E; [|lia].
  destruct (i + 3 <? 0) eqn:E'; [lia|].
  rewrite length_take. lia.
Qed.

Lemma slice_at_minus_three {A} (l : list A) : py.slice l (-3) (-3 + 3) = [].
Proof.
  unfold py.slice, py.slice_bound. cbv zeta.
  replace (-3 <? 0) with true by reflexivity.
  replace (-3 + 3 <? 0) with false by reflexivity.
  replace (Z.to_nat _) with 0%nat by lia. reflexivity.
Qed.

(** The scan never continues from a negative index. *)
Lemma trim_scan_stops_below_zero (n : nat) (l inv : list Z) (i : Z) :
  length inv = 3%nat -> -3 <= i < 0 -> trim_scan n l inv i = i.
Proof.
  intros Hinv Hi. destruct n as [|n]; [reflexivity|]. simpl.
  rewrite bool_decide_eq_false_2; [reflexivity|].
  intros E. pose proof (slice_negative_short l i Hi) as Hs.
  rewrite E, Hinv in Hs. lia.
Qed.

(** What the scan returns when it is given enough turns: an index at a
    whole number of triplets below the start, not below [-3], at which the
    loop test fails. *)
Lemma trim_scan_spec (n : nat) (l inv : list Z) (i : Z) :
  length inv = 3%nat -> -3 <= i -> (i + 3) / 3 < Z.of_nat n ->
  -3 <= trim_scan n l inv i <= i
  /\ (i - trim_scan n l inv i) mod 3 = 0
  /\ py.slice l (trim_scan n l inv i) (trim_scan n l inv i + 3) <> inv.
Proof.
  intros Hinv. revert i. induction n as [|n IH]; intros i Hi Hn.
  - assert (0 <= (i + 3) / 3) by (apply Z.div_pos; lia). lia.
  - simpl. case_bool_decide as Htest.
    + assert (0 <= i).
      { destruct (Z.lt_ge_cases i 0) as [Hneg|]; [|assumption].
        pose proof (slice_negative_short l i (conj Hi Hneg)) as Hs.
        rewrite Htest, Hinv in Hs. lia. }
      assert (Hdiv : (i - 3 + 3) / 3 = (i + 3) / 3 - 1).
      { replace (i + 3) with (i - 3 + 3 + 1 * 3) by lia.
        rewrite Z.div_add by lia. lia. }
      destruct (IH (i - 3)) as (Hr & Hm & Hs); [lia|lia|].
      split; [lia|]. split; [|exact Hs].
      replace (i - trim_scan n l inv (i - 3))
        with (i - 3 - trim_scan n l inv (i - 3) + 1 * 3) by lia.
      rewrite Z.mod_add by lia. exact Hm.
    + split; [lia|]. split; [|exact Htest].
      rewrite Z.sub_diag. reflexivity.
Qed.

(** More turns than [trim_scan_spec] asks for change nothing: the unrolled
    loop is the loop. *)
Lemma trim_scan_stable (n m : nat) (l inv : list Z) (i : Z) :
  length inv = 3%nat -> -3 <= i -> (i + 3) / 3 < Z.of_nat n -> (n <= m)%nat ->
  trim_scan m l inv i = trim_scan n l inv i.
Proof.
  intros Hinv. revert m i. induction n as [|n IH]; intros m i Hi Hn Hm.
  - assert (0 <= (i + 3) / 3) by (apply Z.div_pos; lia). lia.
  - destruct m as [|m]; [lia|]. simpl. case_bool_decide as Htest; [|reflexivity].
    assert (0 <= i).
    { destruct (Z.lt_ge_cases i 0) as [Hneg|]; [|assumption].
      pose proof (slice_negative_short l i (conj Hi Hneg)) as Hs.
      rewrite Htest, Hinv in Hs. lia. }
    apply IH; [lia| |lia].
    replace (i + 3) with (i - 3 + 3 + 1 * 3) in Hn by lia.
    rewrite Z.div_add in Hn by lia. lia.
Qed.

Lemma trim_turns_enough (l : list Z) :
  (Z.of_nat (length l) - 3 + 3) / 3 < Z.of_nat (trim_turns l).
Proof.
  unfold trim_turns. rewrite Z.sub_add.
  rewrite Nat2Z.inj_succ, Nat2Z.inj_div. simpl Z.of_nat. lia.
Qed.

(** The number of turns [trim_island] unrolls is all the [while] loop
    takes on any non-empty buffer. *)
Lemma trim_scan_enough (l inv : list Z) (m : nat) :
  length inv = 3%nat -> l <> [] -> (trim_turns l <= m)%nat ->
  trim_scan m l inv (Z.of_nat (length l) - 3)
  = trim_scan (trim_turns l) l inv (Z.of_nat (length l) - 3).
Proof.
  intros Hinv Hl Hm. apply trim_scan_stable; [assumption| | |assumption].
  - destruct l; [congruence|]. simpl length. lia.
  - apply trim_turns_enough.
Qed.

Lemma triplets_last (j : nat) (l : list Z) :
  length l = (3 * S j)%nat ->
  exists a b c, drop (3 * j) l = [a; b; c] /\ last (triplets l) = Some (a, b, c).
Proof.
  revert l. induction j as [|j IH]; intros l Hl.
  - destruct l as [|a [|b [|c [|d l]]]]; simpl in Hl; try lia.
    exists a, b, c. split; reflexivity.
  - destruct l as [|a [|b [|c l]]]; simpl in Hl; try lia.
    destruct (IH l) as (a' & b' & c' & Hd & Hlast); [lia|].
    exists a', b', c'. split.
    + replace (3 * S j)%nat with (3 + 3 * j)%nat by lia. exact Hd.
    + change (triplets (a :: b :: c :: l)) with ((a, b, c) :: triplets l).
      destruct (triplets l) as [|t ts]; [discriminate|].
      rewrite last_cons_cons. exact Hlast.
Qed.

(** The heart of C5: on a buffer made of whole triplets, the triangle list
    that is left after trimming does not end with the padding triplet. *)
Lemma trim_island_tail (l : list Z) (m : nat) (k : Z) (t : triangle) :
  length l = (3 * m)%nat -> last l = Some k ->
  last (trim_island l) = Some t -> t <> (k, k, k).
Proof.
  intros Hlen Hk. unfold trim_island. rewrite Hk.
  pose proof (trim_scan_spec (trim_turns l) l [k; k; k]
                (Z.of_nat (length l) - 3) eq_refl) as Hspec.
  destruct Hspec as (Hrange & Hmod & Hstop); [lia|apply trim_turns_enough|].
  set (i' := trim_scan _ _ _ _) in *.
  apply Z.mod_divide in Hmod; [|lia]. destruct Hmod as [q Hq].
  assert (Hj : exists j : nat, i' + 3 = Z.of_nat (3 * j) /\ (j <= m)%nat).
  { exists (Z.to_nat (Z.of_nat m - q)). lia. }
  destruct Hj as (j & Hj & Hjm).
  rewrite slice_to_take by lia. rewrite Hj, Nat2Z.id.
  destruct j as [|j]; [discriminate|].
  intros Hlast.
  destruct (triplets_last j (take (3 * S j) l)) as (a & b & c & Hd & Hl').
  { rewrite length_take. lia. }
  rewrite Hl' in Hlast. injection Hlast as <-.
  intros [= -> -> ->]. apply Hstop.
  rewrite slice_triplet by lia.
  replace (Z.to_nat i') with (3 * j)%nat by lia.
  rewrite take_drop_commute.
  replace (3 * j + 3)%nat with (3 * S j)%nat by lia. exact Hd.
Qed.

Lemma repeat_n_length {A} (n : nat) (f : io A) (r r' : stream) (xs : list A) :
  repeat_n n f r = py.ok (xs, r') -> length xs = n.
Proof.
  revert r r' xs. induction n as [|n IH]; intros r r' xs H; simpl in H.
  - apply ret_ok in H. injection H as -> _. reflexivity.
  - io_inv H.
    match goal with E : (xs, r') = _ |- _ => injection E as -> -> end.
    simpl. f_equal. eapply IH. eassumption.
Qed.

(** [_parse_tris_blocks_] trims, island by island, the buffers that
    [read_index_buffers] returns, and each buffer is a whole number of
    triangle chunks. *)
Lemma read_islands_buffers (metas : list IslandDescriptor.t)
    (r r' : stream) (isls : list (list triangle)) :
  Mesh.read_islands metas r = py.ok (isls, r') ->
  exists bufs,
    Mesh.read_index_buffers metas r = py.ok (bufs, r')
    /\ isls = map trim_island bufs
    /\ Forall (fun buf => exists n : nat, length buf = (3 * n)%nat) bufs.
Proof.
  revert r r' isls.
  induction metas as [|meta metas IH]; intros r r' isls H; simpl in H.
  - apply ret_ok in H. injection H as -> ->. exists []. repeat split. constructor.
  - io_inv H.
    match goal with E : (isls, r') = _ |- _ => injection E as -> -> end.
    match goal with E : Mesh.read_islands _ _ = _ |- _ =>
      apply IH in E as (bufs & Hb & -> & Hall) end.
    match goal with E : times _ _ _ = py.ok (?b, _) |- _ =>
      exists (b :: bufs); simpl; rewrite (bind_step _ _ _ _ _ E);
      rewrite (bind_step _ _ _ _ _ Hb); apply repeat_n_length in E
    end.
    repeat split. constructor; [|assumption].
    match goal with E : length _ = _ |- _ => rewrite E end.
    unfold TRIS_IN_CHUNK.
    exists (Z.to_nat (IslandDescriptor.num_tris_chunks meta * 64)). lia.
Qed.

(** C5 (as amended): every island [_parse_tris_blocks_] decodes is the
    trimmed form of the index buffer read for it, and the last triangle of
    a trimmed island is never the padding triplet [(last, last, last)],
    where [last] is the final index of the untrimmed buffer. *)
Theorem islands_tail_not_padding (metas : list IslandDescriptor.t)
    (r r' : stream) (isls : list (list triangle)) :
  Mesh.read_islands metas r = py.ok (isls, r') ->
  exists bufs,
    Mesh.read_index_buffers metas r = py.ok (bufs, r')
    /\ isls = map trim_island bufs
    /\ Forall (fun buf => forall k t,
                 last buf = Some k -> last (trim_island buf) = Some t ->
                 t <> (k, k, k)) bufs.
Proof.
  intros H. apply read_islands_buffers in H as (bufs & Hb & -> & Hall).
  exists bufs. repeat split; [assumption|].
  eapply Forall_impl; [exact Hall|].
  intros buf [n Hn] k t. apply (trim_island_tail buf n k t Hn).
Qed.

Lemma islands_tail_not_padding_witness :
  exists bufs,
    Mesh.read_index_buffers [samples.island_one_chunk]
        (samples.indices_stream samples.indices_padded)
      = py.ok (bufs, Stream (buf (samples.indices_stream samples.indices_padded))
                            384 true)
    /\ [[(5, 6, 7); (8, 9, 10)]] = map trim_island bufs
    /\ Forall (fun buf => forall k t,
                 last buf = Some k -> last (trim_island buf) = Some t ->
                 t <> (k, k, k)) bufs.
Proof.
  apply (islands_tail_not_padding [samples.island_one_chunk]
           (samples.indices_stream samples.indices_padded)).
  vm_compute. reflexivity.
Defined.

(** C5, the claim as worded fails: a degenerate triplet on another index
    than the padding index survives trimming and ends the island. *)
Lemma island_tail_degenerate_triplet :
  Mesh.read_islands [samples.island_one_chunk]
      (samples.indices_stream samples.indices_degenerate)
    = py.ok ([[(5, 5, 5)]],
             Stream (buf (samples.indices_stream samples.indices_degenerate))
                    384 true)
  /\ last [(5, 5, 5)] = Some (5, 5, 5)
  /\ last samples.indices_degenerate = Some 7
  /\ trim_island samples.indices_degenerate = [(5, 5, 5)].
Proof.
  split; [vm_compute; reflexivity|].
  split; [reflexivity|].
  split; vm_compute; reflexivity.
Qed.

(** ** mesh: a buffer that is nothing but padding *)

Lemma padding_triplet_at (m j : nat) (k : Z) :
  (j < m)%nat ->
  py.slice (replicate (3 * m) k) (Z.of_nat (3 * j)) (Z.of_nat (3 * j) + 3)
  = [k; k; k].
Proof.
  intros Hj. rewrite slice_triplet by (rewrite ?length_replicate; lia).
  rewrite Nat2Z.id, drop_replicate, take_replicate.
  replace (3 `min` (3 * m - 3 * j))%nat with 3%nat by lia. reflexivity.
Qed.

Lemma trim_scan_all_padding (m j : nat) (k : Z) :
  (j < m)%nat ->
  trim_scan (S (S j)) (replicate (3 * m) k) [k; k; k] (Z.of_nat (3 * j)) = -3.
Proof.
  induction j as [|j IH]; intros Hj.
  - change (trim_scan 2 ?l ?inv ?i)
      with (if bool_decide (py.slice l i (i + 3) = inv)
            then trim_scan 1 l inv (i - 3) else i).
    rewrite bool_decide_eq_true_2 by (apply (padding_triplet_at m 0 k Hj)).
    apply trim_scan_stops_below_zero; [reflexivity|simpl; lia].
  - change (trim_scan (S (S (S j))) ?l ?inv ?i)
      with (if bool_decide (py.slice l i (i + 3) = inv)
            then trim_scan (S (S j)) l inv (i - 3) else i).
    rewrite bool_decide_eq_true_2 by (apply (padding_triplet_at m (S j) k Hj)).
    replace (Z.of_nat (3 * S j) - 3) with (Z.of_nat (3 * j)) by lia.
    apply IH. lia.
Qed.

(** C10: on a non-empty buffer of whole triplets that all equal
    [(k, k, k)], the backward scan stops, however many turns the loop is
    allowed, at index [-3]; every slice it takes has both bounds clamped
    inside the buffer, the last one being empty; and the island decodes to
    no triangle. *)
Theorem trim_island_all_padding (l : list Z) (k : Z) (n : nat) :
  l <> [] -> length l = (3 * n)%nat -> Forall (fun x => k = x) l ->
  last l = Some k
  /\ (forall m : nat, (trim_turns l <= m)%nat ->
        trim_scan m l [k; k; k] (Z.of_nat (length l) - 3) = -3)
  /\ (forall i : Z,
        0 <= py.slice_bound (Z.of_nat (length l)) i <= Z.of_nat (length l))
  /\ py.slice l (-3) (-3 + 3) = []
  /\ trim_island l = [].
Proof.
  intros Hne Hlen Hall.
  apply (replicate_as_Forall_2 k (3 * n) l Hlen) in Hall. subst l.
  destruct n as [|n]; [exfalso; apply Hne; reflexivity|].
  assert (Hlast : last (replicate (3 * S n) k) = Some k).
  { replace (3 * S n)%nat with (3 * n + 2 + 1)%nat by lia.
    rewrite replicate_add. apply last_snoc. }
  assert (Hturns : trim_turns (replicate (3 * S n) k) = S (S n)).
  { unfold trim_turns. rewrite length_replicate. f_equal.
    rewrite Nat.mul_comm. apply Nat.div_mul. lia. }
  assert (Hscan : forall m : nat,
             (trim_turns (replicate (3 * S n) k) <= m)%nat ->
             trim_scan m (replicate (3 * S n) k) [k; k; k]
               (Z.of_nat (length (replicate (3 * S n) k)) - 3) = -3).
  { intros m Hm. rewrite trim_scan_enough by (assumption || reflexivity).
    rewrite Hturns, length_replicate.
    replace (Z.of_nat (3 * S n) - 3) with (Z.of_nat (3 * n)) by lia.
    apply trim_scan_all_padding. lia. }
  split; [exact Hlast|]. split; [exact Hscan|].
  split; [intros i; apply slice_bound_range; lia|].
  split; [apply slice_at_minus_three|].
  unfold trim_island. rewrite Hlast. cbv zeta.
  rewrite Hscan by reflexivity. reflexivity.
Qed.

Lemma trim_island_all_padding_witness :
  trim_island samples.indices_all_padding = []
  /\ trim_scan (trim_turns samples.indices_all_padding)
       samples.indices_all_padding [9; 9; 9] 189 = -3.
Proof.
  assert (Hne : samples.indices_all_padding <> []) by discriminate.
  assert (Hlen : length samples.indices_all_padding = (3 * 64)%nat)
    by reflexivity.
  assert (Hall : Forall (fun x => 9 = x) samples.indices_all_padding)
    by (apply Forall_replicate; reflexivity).
  destruct (trim_island_all_padding samples.indices_all_padding 9 64
              Hne Hlen Hall) as (_ & Hscan & _ & _ & Hisl).
  split; [exact Hisl|]. apply (Hscan _ (le_n _)).
Defined.

(** ** mesh: the vertex layouts [readmesh] accepts *)

Example mesh_5C_init_one :
  Mesh.init false (BytesIO (samples.mesh_5C_bytes 1))
  = py.ok (samples.mesh_5C 1, Stream (samples.mesh_5C_bytes 1) 208 true).
Proof. vm_compute. reflexivity. Qed.

Example mesh_5C_init_none :
  Mesh.init false (BytesIO (samples.mesh_5C_bytes 0))
  = py.ok (samples.mesh_5C 0, Stream (samples.mesh_5C_bytes 0) 116 true).
Proof. vm_compute. reflexivity. Qed.

(** With a vertex to read, [self.unar1] is still [None] when [append] is
    looked up on it. *)
Example mesh_5C_attribute_error :
  Mesh.init true (BytesIO (samples.mesh_5C_bytes 1)) = py.raise py.AttributeError.
Proof. vm_compute. reflexivity. Qed.

(** With no vertex, [known_format] is still false after the branch. *)
Example mesh_5C_value_error :
  Mesh.init true (BytesIO (samples.mesh_5C_bytes 0)) = py.raise py.ValueError.
Proof. vm_compute. reflexivity. Qed.

Lemma seek_result (off : Z) (r : stream) :
  (exists e, seek off r = py.raise e)
  \/ seek off r = py.ok (tt, Stream (buf r) off (in_memory r)).
Proof.
  unfold seek. destruct (off <? 0); [left; eexists; reflexivity|right; reflexivity].
Qed.

Lemma bind_raise {A B} (m : io A) (k : A -> io B) (r : stream) (e : py.exn) :
  m r = py.raise e -> pyio.bind m k r = py.raise e.
Proof. intros H. unfold pyio.bind. rewrite H. reflexivity. Qed.

(** The 0x5C branch of the vertex reader leaves [known_format] false. *)
Lemma read_verts_stride_5C (self : Mesh.t) (r : stream) :
  Mesh.revision (Mesh.inf self) = 1 \/ Mesh.revision (Mesh.inf self) = 2 ->
  Mesh.vert_len (Mesh.inf self) = 0x5C ->
  (exists e, Mesh.read_verts self r = py.raise e)
  \/ (exists self' r', Mesh.read_verts self r = py.ok ((false, self'), r')).
Proof.
  intros Hrev Hlen. unfold Mesh.read_verts.
  assert (Hr0 : (Mesh.revision (Mesh.inf self) =? 0) = false)
    by (apply Z.eqb_neq; lia).
  assert (Hr12 : ((Mesh.revision (Mesh.inf self) =? 1)
                  || (Mesh.revision (Mesh.inf self) =? 2)) = true).
  { destruct Hrev as [-> | ->]; reflexivity. }
  rewrite Hr0, Hr12, Hlen. cbn [Z.eqb Pos.eqb orb].
  match goal with
  | |- context [pyio.bind ?m ?k r] => destruct (m r) as [e|[vs r2]] eqn:E
  end.
  - left. exists e. apply bind_raise, E.
  - right. eexists _, _. rewrite (bind_step _ _ _ _ _ E). reflexivity.
Qed.

(** C3 (the code departs from the claim): for revision 1 or 2 and vertex
    stride 0x5C, [readmesh] never returns: the branch that reads this
    layout does not set [known_format], so a run that gets through the
    vertices ends in the [ValueError] of unknown formats. *)
Theorem readmesh_stride_5C_raises (self : Mesh.t) (r : stream) :
  Mesh.revision (Mesh.inf self) = 1 \/ Mesh.revision (Mesh.inf self) = 2 ->
  Mesh.vert_len (Mesh.inf self) = 0x5C ->
  exists e, Mesh.readmesh self r = py.raise e.
Proof.
  intros Hrev Hlen. unfold Mesh.readmesh.
  destruct (seek_result (Mesh.vertblock_start (Mesh.inf self)) r)
    as [[e Hseek]|Hseek].
  { exists e. apply bind_raise, Hseek. }
  rewrite (bind_step _ _ _ _ _ Hseek).
  destruct (read_verts_stride_5C self
              (Stream (buf r) (Mesh.vertblock_start (Mesh.inf self)) (in_memory r))
              Hrev Hlen) as [[e Hv]|(self' & r' & Hv)].
  { exists e. apply bind_raise, Hv. }
  rewrite (bind_step _ _ _ _ _ Hv).
  exists py.ValueError. reflexivity.
Qed.

Lemma readmesh_stride_5C_raises_witness :
  exists e,
    Mesh.readmesh (samples.mesh_5C 1) (Stream (samples.mesh_5C_bytes 1) 208 true)
    = py.raise e.
Proof.
  apply readmesh_stride_5C_raises; [left; reflexivity|reflexivity].
Defined.

(** ** mesh: removing the vertices no triangle uses *)

Lemma sorted_set_elem_of (l : list Z) (x : Z) : x ∈ sorted_set l <-> x ∈ l.
Proof.
  unfold sorted_set. rewrite merge_sort_Permutation.
  rewrite elem_of_elements. apply elem_of_list_to_set.
Qed.

Lemma sorted_set_NoDup (l : list Z) : NoDup (sorted_set l).
Proof.
  unfold sorted_set. rewrite merge_sort_Permutation. apply NoDup_elements.
Qed.

Lemma StronglySorted_le_NoDup_lt (l : list Z) :
  StronglySorted Z.le l -> NoDup l -> StronglySorted Z.lt l.
Proof.
  induction 1 as [|x l Hs IH Hall]; intros Hnd; constructor.
  - apply IH. apply NoDup_cons in Hnd. tauto.
  - apply NoDup_cons in Hnd as [Hx _].
    rewrite Forall_forall in *. intros y Hy.
    specialize (Hall y Hy). assert (x <> y) by (intros ->; tauto). lia.
Qed.

Lemma sorted_set_increasing (l : list Z) : StronglySorted Z.lt (sorted_set l).
Proof.
  apply StronglySorted_le_NoDup_lt; [|apply sorted_set_NoDup].
  unfold sorted_set. apply (StronglySorted_merge_sort Z.le).
Qed.

Lemma filter_ext_Forall (P Q : Z -> Prop)
    `{!forall x, Decision (P x), !forall x, Decision (Q x)} (l : list Z) :
  Forall (fun x => P x <-> Q x) l -> filter P l = filter Q l.
Proof.
  induction 1 as [|x l Hx Hl IH]; [reflexivity|].
  destruct (decide (P x)).
  - rewrite !filter_cons_True by tauto. f_equal. exact IH.
  - rewrite !filter_cons_False by tauto. exact IH.
Qed.

(** On an increasing list, the entries from [i] on are [i] itself, when it
    is there, followed by the entries from [i + 1] on. *)
Lemma filter_from_bound_step (used : list Z) (i : Z) :
  StronglySorted Z.lt used ->
  filter (fun u => i <= u) used
  = (if bool_decide (i ∈ used) then [i] else [])
      ++ filter (fun u => i + 1 <= u) used.
Proof.
  induction 1 as [|u us Hs IH Hall].
  - reflexivity.
  - destruct (Z.lt_trichotomy u i) as [Hlt|[->|Hgt]].
    + rewrite !filter_cons_False by lia. rewrite IH.
      rewrite (bool_decide_ext (i ∈ u :: us) (i ∈ us)); [reflexivity|].
      rewrite elem_of_cons. split; [|tauto]. intros [->|]; [lia|assumption].
    + rewrite filter_cons_True by lia. rewrite filter_cons_False by lia.
      rewrite bool_decide_eq_true_2 by (left). simpl. f_equal.
      apply filter_ext_Forall. eapply Forall_impl; [exact Hall|].
      intros y Hy. simpl in Hy. lia.
    + rewrite !filter_cons_True by lia.
      rewrite bool_decide_eq_false_2.
      * simpl. f_equal. apply filter_ext_Forall.
        eapply Forall_impl; [exact Hall|]. intros y Hy. simpl in Hy. lia.
      * rewrite elem_of_cons. intros [->|Hin]; [lia|].
        rewrite Forall_forall in Hall. specialize (Hall _ Hin). lia.
Qed.

Lemma omap_all_None {A B} (f : A -> option B) (l : list A) :
  Forall (fun x => f x = None) l -> omap f l = [].
Proof.
  induction 1 as [|x l Hx Hl IH]; [reflexivity|].
  csimpl. rewrite Hx. exact IH.
Qed.

Lemma filter_Forall_id (P : Z -> Prop) `{!forall x, Decision (P x)} (l : list Z) :
  Forall P l -> filter P l = l.
Proof.
  induction 1 as [|x l Hx Hl IH]; [reflexivity|].
  rewrite filter_cons_True by assumption. f_equal. exact IH.
Qed.

Lemma omap_ext_Forall {A B} (f g : A -> option B) (l : list A) :
  Forall (fun x => f x = g x) l -> omap f l = omap g l.
Proof.
  induction 1 as [|x l Hx Hl IH]; [reflexivity|].
  csimpl. rewrite Hx, IH. reflexivity.
Qed.

(** [_filter_by_indices_] over [enumerate] starting at [i]: the entries at
    the positions listed in [used], read in the order of [used]. *)
Lemma filter_from_kept {A} (lst : list A) (used : list Z) (i : Z) :
  StronglySorted Z.lt used ->
  filter_from i lst used
  = omap (fun u => lst !! Z.to_nat (u - i)) (filter (fun u => i <= u) used).
Proof.
  intros Hs. revert i. induction lst as [|v rest IH]; intros i.
  - simpl. symmetry. apply omap_all_None, Forall_forall. intros; reflexivity.
  - simpl. rewrite filter_from_bound_step by assumption.
    rewrite omap_app, IH.
    assert (Htail : omap (fun u => (v :: rest) !! Z.to_nat (u - i))
                      (filter (fun u => i + 1 <= u) used)
                  = omap (fun u => rest !! Z.to_nat (u - (i + 1)))
                      (filter (fun u => i + 1 <= u) used)).
    { apply omap_ext_Forall, Forall_forall. intros u Hu.
      apply list_elem_of_filter in Hu as [Hu _].
      replace (Z.to_nat (u - i)) with (S (Z.to_nat (u - (i + 1)))) by lia.
      reflexivity. }
    rewrite Htail. case_bool_decide; [|reflexivity].
    simpl. rewrite Z.sub_diag. reflexivity.
Qed.

Lemma filter_by_indices_kept {A} (lst : list A) (used : list Z) :
  StronglySorted Z.lt used -> Forall (fun u => 0 <= u) used ->
  _filter_by_indices_ lst used = kept used lst.
Proof.
  intros Hs Hpos. unfold _filter_by_indices_, kept.
  rewrite filter_from_kept by assumption.
  rewrite filter_Forall_id by assumption.
  apply omap_ext_Forall, Forall_forall.
  intros u _. rewrite Z.sub_0_r. reflexivity.
Qed.

(** When every position of [used] exists in [lst], nothing is skipped:
    the i-th kept entry is the entry at the i-th position of [used]. *)
Lemma kept_lookup {A} (lst : list A) (used : list Z) :
  Forall (fun u => 0 <= u < Z.of_nat (length lst)) used ->
  length (kept used lst) = length used
  /\ forall (i : nat) (u : Z),
       used !! i = Some u -> kept used lst !! i = lst !! Z.to_nat u.
Proof.
  induction 1 as [|u us Hu Hus [IHlen IH]]; [split; [reflexivity|intros i u; discriminate]|].
  destruct (lookup_lt_is_Some_2 lst (Z.to_nat u)) as [v Hv]; [lia|].
  unfold kept in *. csimpl. rewrite Hv. split.
  - simpl. f_equal. exact IHlen.
  - intros [|i] u' Hi; simpl in Hi.
    + injection Hi as <-. simpl. symmetry. exact Hv.
    + simpl. apply IH, Hi.
Qed.

Lemma imap_keys {B} (g : nat -> B) (l : list Z) :
  (imap (fun new old => (old, g new)) l).*1 = l.
Proof.
  revert g. induction l as [|x l IH]; intros g; [reflexivity|].
  rewrite imap_cons. csimpl. f_equal. apply (IH (g ∘ S)).
Qed.

Lemma vert_mapping_keys (used : list Z) :
  (reverse (imap (fun new old => (old, Z.of_nat new)) used)).*1 = reverse used.
Proof. rewrite fmap_reverse. f_equal. apply imap_keys. Qed.

Lemma vert_mapping_lookup (used : list Z) (p : nat) (x : Z) :
  NoDup used -> used !! p = Some x ->
  vert_mapping used !! x = Some (Z.of_nat p).
Proof.
  intros Hnd Hp. unfold vert_mapping. apply elem_of_list_to_map_1.
  - rewrite vert_mapping_keys, reverse_Permutation. exact Hnd.
  - apply elem_of_reverse.
    apply (elem_of_lookup_imap_2 (fun new old => (old, Z.of_nat new)) used x p Hp).
Qed.

Lemma mapping_get_remapped (used : list Z) (x : Z) :
  NoDup used -> x ∈ used ->
  exists new, mapping_get (vert_mapping used) x = py.ok new
              /\ index_remapped used x new.
Proof.
  intros Hnd Hx. apply list_elem_of_lookup in Hx as [p Hp].
  exists (Z.of_nat p). unfold mapping_get.
  rewrite (vert_mapping_lookup used p x Hnd Hp). split; [reflexivity|].
  unfold index_remapped. rewrite Nat2Z.id. split; [|exact Hp].
  apply lookup_lt_Some in Hp. lia.
Qed.

Lemma remap_tri_remapped (used : list Z) (tri : triangle) :
  NoDup used -> Forall (fun x => x ∈ used) (tri_verts tri) ->
  exists tri', remap_tri (vert_mapping used) tri = py.ok tri'
               /\ tri_remapped used tri tri'.
Proof.
  intros Hnd Hall. destruct tri as [[a b] c]. simpl in Hall.
  apply Forall_cons in Hall as [Ha Hall].
  apply Forall_cons in Hall as [Hb Hall].
  apply Forall_cons in Hall as [Hc _].
  destruct (mapping_get_remapped used a Hnd Ha) as (a' & Ea & Ra).
  destruct (mapping_get_remapped used b Hnd Hb) as (b' & Eb & Rb).
  destruct (mapping_get_remapped used c Hnd Hc) as (c' & Ec & Rc).
  exists (a', b', c'). unfold remap_tri. rewrite Ea, Eb, Ec.
  split; [reflexivity|]. unfold tri_remapped. simpl.
  split; [|split]; assumption.
Qed.

Lemma remap_tris_remapped (used : list Z) (tris : list triangle) :
  NoDup used -> Forall (fun x => x ∈ used) (concat (map tri_verts tris)) ->
  exists tris', remap_tris (vert_mapping used) tris = py.ok tris'
                /\ Forall2 (tri_remapped used) tris tris'.
Proof.
  intros Hnd. induction tris as [|tri tris IH]; intros Hall.
  - exists []. split; [reflexivity|constructor].
  - simpl in Hall. apply Forall_app in Hall as [Ht Hall].
    destruct (remap_tri_remapped used tri Hnd Ht) as (tri' & Et & Rt).
    destruct (IH Hall) as (tris' & Ets & Rts).
    exists (tri' :: tris'). simpl. rewrite Et. simpl. rewrite Ets.
    split; [reflexivity|]. constructor; assumption.
Qed.

Lemma dict_get_app {V} (pre rest : dict V) (k : Z) (v : V) :
  k ∉ dict_keys pre -> dict_get k (pre ++ (k, v) :: rest) = py.ok v.
Proof.
  induction pre as [|[k' v'] pre IH]; intros Hk; simpl.
  - rewrite bool_decide_eq_true_2 by reflexivity. reflexivity.
  - simpl in Hk. apply not_elem_of_cons in Hk as [Hne Hk].
    rewrite bool_decide_eq_false_2 by assumption. apply IH, Hk.
Qed.

Lemma dict_set_app {V} (pre rest : dict V) (k : Z) (v v' : V) :
  k ∉ dict_keys pre ->
  dict_set k v' (pre ++ (k, v) :: rest) = pre ++ (k, v') :: rest.
Proof.
  induction pre as [|[k0 v0] pre IH]; intros Hk; simpl.
  - rewrite bool_decide_eq_true_2 by reflexivity. reflexivity.
  - simpl in Hk. apply not_elem_of_cons in Hk as [Hne Hk].
    rewrite bool_decide_eq_false_2 by assumption. f_equal. apply IH, Hk.
Qed.

(** The loop over the keys of the island dictionary replaces every value
    by its remapped form and keeps keys and order. *)
Lemma remap_islands_rest (used : list Z) (suf pre : dict (list triangle)) :
  NoDup used ->
  NoDup (dict_keys (pre ++ suf)) ->
  Forall (fun kv => Forall (fun x => x ∈ used) (concat (map tri_verts kv.2))) suf ->
  exists suf',
    remap_islands (vert_mapping used) (dict_keys suf) (pre ++ suf)
      = py.ok (pre ++ suf')
    /\ Forall2 (fun kv kv' => kv.1 = kv'.1
                              /\ Forall2 (tri_remapped used) kv.2 kv'.2) suf suf'.
Proof.
  intros Hused. revert pre.
  induction suf as [|[k tris] rest IH]; intros pre Hnd Hall.
  - exists []. split; [reflexivity|constructor].
  - apply Forall_cons in Hall as [Htris Hall]. simpl in Htris.
    assert (Hk : k ∉ dict_keys pre).
    { unfold dict_keys in Hnd. rewrite List.map_app in Hnd.
      apply NoDup_app in Hnd as (_ & Hdis & _).
      intros Hin. apply (Hdis k Hin). simpl. left. }
    destruct (remap_tris_remapped used tris Hused Htris) as (tris' & Et & Rt).
    destruct (IH (pre ++ [(k, tris')])) as (rest' & Er & Rr).
    { unfold dict_keys in *. rewrite <- app_assoc. simpl.
      rewrite !List.map_app in *. exact Hnd. }
    { exact Hall. }
    exists ((k, tris') :: rest'). split.
    + simpl. rewrite dict_get_app by assumption. simpl. rewrite Et. simpl.
      rewrite dict_set_app by assumption.
      rewrite <- !app_assoc in Er. simpl in Er. exact Er.
    + constructor; [split; [reflexivity|exact Rt]|exact Rr].
Qed.

Lemma island_indices_Forall (P : Z -> Prop) (d : dict (list triangle)) :
  Forall P (island_indices d) ->
  Forall (fun kv => Forall P (concat (map tri_verts kv.2))) d.
Proof.
  induction d as [|[k v] d IH]; intros H; constructor.
  - unfold island_indices in H. simpl in H. apply Forall_app in H. tauto.
  - apply IH. unfold island_indices in H. simpl in H.
    apply Forall_app in H. tauto.
Qed.

(** C9: on a meshdata whose island dictionary has distinct keys and whose
    triangle indices all lie within [verts], [remove_isolated_verts]
    returns; the referenced indices [used] are listed in increasing
    order; verts, normals, uvs and every color layer keep the entries at
    the positions [used], in that order, so the i-th kept vertex is the
    vertex at the i-th smallest referenced index; and every triangle
    index [new] of the result lies in [0 .. n-1], [n] the number of kept
    vertices, and stands for the original index found at position [new]
    of [used]. *)
Theorem remove_isolated_verts_compacts (md : meshdata) :
  NoDup (dict_keys (md_islands md)) ->
  Forall (fun v => 0 <= v < Z.of_nat (length (md_verts md)))
         (island_indices (md_islands md)) ->
  let used := sorted_set (island_indices (md_islands md)) in
  exists md',
    remove_isolated_verts md = py.ok md'
    /\ StronglySorted Z.lt used
    /\ (forall v, v ∈ used <-> v ∈ island_indices (md_islands md))
    /\ md_verts md' = kept used (md_verts md)
    /\ md_normals md' = option_map (kept used) (md_normals md)
    /\ md_uvs md' = option_map (kept used) (md_uvs md)
    /\ md_colors md' = option_map (map (kept used)) (md_colors md)
    /\ length (md_verts md') = length used
    /\ (forall (i : nat) (u : Z),
          used !! i = Some u -> md_verts md' !! i = md_verts md !! Z.to_nat u)
    /\ Forall2 (fun kv kv' =>
                  kv.1 = kv'.1
                  /\ Forall2 (fun t t' =>
                       tri_remapped used t t'
                       /\ Forall (fun x => 0 <= x < Z.of_nat (length (md_verts md')))
                                 (tri_verts t')) kv.2 kv'.2)
               (md_islands md) (md_islands md').
Proof.
  intros Hkeys Hrange used.
  assert (Hsorted : StronglySorted Z.lt used) by apply sorted_set_increasing.
  assert (Hnd : NoDup used) by apply sorted_set_NoDup.
  assert (Hmem : forall v, v ∈ used <-> v ∈ island_indices (md_islands md))
    by (intros v; apply sorted_set_elem_of).
  assert (Hused : Forall (fun u => 0 <= u < Z.of_nat (length (md_verts md))) used).
  { apply Forall_forall. intros u Hu. apply Hmem in Hu.
    rewrite Forall_forall in Hrange. apply Hrange, Hu. }
  assert (Hpos : Forall (fun u => 0 <= u) used).
  { eapply Forall_impl; [exact Hused|]. intros u Hu. simpl in Hu. lia. }
  destruct (remap_islands_rest used (md_islands md) [] Hnd Hkeys)
    as (isl' & Hrun & Hrel).
  { apply island_indices_Forall, Forall_forall. intros x Hx. apply Hmem, Hx. }
  simpl in Hrun.
  destruct (kept_lookup (md_verts md) used Hused) as [Hlen Hlook].
  eexists. split.
  { unfold remove_isolated_verts. fold used. rewrite Hrun. reflexivity. }
  cbn [md_verts md_normals md_uvs md_colors md_islands].
  split; [exact Hsorted|]. split; [exact Hmem|].
  split; [apply filter_by_indices_kept; assumption|].
  split.
  { destruct (md_normals md); [|reflexivity]. simpl. f_equal.
    apply filter_by_indices_kept; assumption. }
  split.
  { destruct (md_uvs md); [|reflexivity]. simpl. f_equal.
    apply filter_by_indices_kept; assumption. }
  split.
  { destruct (md_colors md) as [cs|]; [|reflexivity]. simpl. f_equal.
    apply map_ext. intros c. apply filter_by_indices_kept; assumption. }
  rewrite (filter_by_indices_kept (md_verts md) used Hsorted Hpos).
  split; [exact Hlen|]. split; [exact Hlook|].
  eapply Forall2_impl; [exact Hrel|].
  intros kv kv' [Hk Htris]. split; [exact Hk|].
  eapply Forall2_impl; [exact Htris|].
  intros [[a b] c] [[a' b'] c'] Ht. split; [exact Ht|].
  destruct Ht as ((Ha & _) & (Hb & _) & (Hc & _)). simpl in *.
  rewrite Hlen. repeat constructor; lia.
Qed.

Lemma remove_isolated_verts_compacts_witness :
  exists md',
    remove_isolated_verts samples.meshdata_5 = py.ok md'
    /\ md_verts md' = [samples.vertex 11; samples.vertex 13; samples.vertex 14]
    /\ md_islands md' = [(7, [(2, 0, 1); (1, 2, 0)]); (2, [(0, 0, 2)])].
Proof.
  assert (Hkeys : NoDup (dict_keys (md_islands samples.meshdata_5))).
  { apply (bool_decide_unpack _). vm_compute. exact I. }
  assert (Hrange : Forall (fun v => 0 <= v
                     < Z.of_nat (length (md_verts samples.meshdata_5)))
                     (island_indices (md_islands samples.meshdata_5))).
  { apply (bool_decide_unpack _). vm_compute. exact I. }
  destruct (remove_isolated_verts_compacts samples.meshdata_5 Hkeys Hrange)
    as (md' & Hrun & _).
  exists md'. split; [exact Hrun|].
  vm_compute in Hrun. injection Hrun as <-. split; reflexivity.
Defined.

(** ** forge: decompressing a datablock *)

Section getstream_facts.
Context {zstd : ZstdDecompressor}.

Lemma seek_ok (r : stream) (off : Z) :
  0 <= off -> seek off r = py.ok (tt, Stream (buf r) off (in_memory r)).
Proof. intros H. unfold seek. destruct (off <? 0) eqn:E; [lia|reflexivity]. Qed.

Lemma read_in_bounds (r : stream) (n : Z) :
  0 <= pos r -> 0 <= n -> pos r + n <= Z.of_nat (length (buf r)) ->
  read n r
  = py.ok (take (Z.to_nat n) (drop (Z.to_nat (pos r)) (buf r)),
           Stream (buf r) (pos r + n) (in_memory r)).
Proof.
  intros Hoff Hn Hfit. unfold read.
  destruct (n <? 0) eqn:E'; [lia|]. unfold py.ok.
  do 3 f_equal. rewrite length_take, length_drop. lia.
Qed.

Lemma lift_ok {A} (m : py.result A) (a : A) (r : stream) :
  m = py.ok a -> lift m r = py.ok (a, r).
Proof. intros ->. reflexivity. Qed.

Lemma write_chunks_cons (c : Chunk.t) (rest : list Chunk.t) (result : stream) :
  write_chunks (c :: rest) result
  = (seek (Chunk.offset c) ;;
     let* data := read (Chunk.packed c) in
     let* out := if negb (Chunk.ispacked c) then ret data
                 else lift (zstd_decompress data) in
     let* w := lift (write out result) in
     write_chunks rest (snd w)).
Proof. reflexivity. Qed.

(** The loop of [getdatastream] appends, chunk after chunk, what each
    chunk decodes to, and leaves the archive content untouched. *)
Lemma write_chunks_valid (chunks : list Chunk.t) (result r : stream) :
  Forall (chunk_valid (buf r)) chunks ->
  exists outs r',
    write_chunks chunks result r
      = py.ok (Stream (buf result ++ concat outs)
                      (pos result + Z.of_nat (length (concat outs)))
                      (in_memory result), r')
    /\ buf r' = buf r
    /\ Forall2 (fun c out => chunk_output (buf r) c = py.ok out
                             /\ Z.of_nat (length out) = Chunk.unpacked c)
               chunks outs.
Proof.
  revert result r. induction chunks as [|c chunks IH]; intros result r Hall.
  - exists [], r. simpl. rewrite app_nil_r, Z.add_0_r.
    destruct result. repeat split. constructor.
  - apply Forall_cons in Hall as [(Hoff & Hpk & Hfit & out & Hout & Hlen) Hall].
    set (r0 := Stream (buf r) (Chunk.offset c) (in_memory r)).
    set (r1 := Stream (buf r) (Chunk.offset c + Chunk.packed c) (in_memory r)).
    set (result1 := Stream (buf result ++ out)
                      (pos result + Z.of_nat (length out)) (in_memory result)).
    destruct (IH result1 r1 Hall) as (outs & r' & Hrun & Hbuf & Hrel).
    exists (out :: outs), r'. split; [|split; [exact Hbuf|]].
    + rewrite write_chunks_cons.
      rewrite (bind_step _ _ _ _ _ (seek_ok r _ Hoff)). fold r0.
      rewrite (bind_step _ _ _ _ _ (read_in_bounds r0 _ Hoff Hpk Hfit)).
      cbn [buf pos in_memory r0]. fold r1.
      assert (Hdec : (if negb (Chunk.ispacked c)
                      then ret (chunk_payload (buf r) c)
                      else lift (zstd_decompress (chunk_payload (buf r) c))) r1
                     = py.ok (out, r1)).
      { unfold chunk_output in Hout. destruct (Chunk.ispacked c); cbn [negb].
        - apply lift_ok, Hout.
        - injection Hout as <-. reflexivity. }
      unfold chunk_payload in Hdec.
      rewrite (bind_step _ _ _ _ _ Hdec).
      rewrite (bind_step (lift (write out result)) _ r1 r1 (tt, result1))
        by reflexivity.
      cbn [snd]. rewrite Hrun. unfold result1. cbn [buf pos in_memory concat].
      rewrite <- app_assoc, length_app. do 3 f_equal. lia.
    + constructor; [split; assumption|exact Hrel].
Qed.

Lemma sum_unpacked (chunks : list Chunk.t) (outs : list py.bytes) :
  Forall2 (fun c out => Z.of_nat (length out) = Chunk.unpacked c) chunks outs ->
  Z.of_nat (length (concat outs)) = sum (map Chunk.unpacked chunks).
Proof.
  induction 1 as [|c out chunks outs Hc Hrest IH]; [reflexivity|].
  simpl. rewrite length_app, Nat2Z.inj_add, Hc, IH. reflexivity.
Qed.

(** C4: over an archive in which every chunk of the datablock lies inside
    the archive and decodes to exactly its [unpacked] size, [getstream]
    returns a stream positioned at zero whose content is the decoded
    chunks concatenated in chunk order (a compressed chunk through zstd, a
    raw chunk verbatim), and whose length is the sum of the [unpacked]
    sizes. *)
Theorem getstream_length (D : Datablock.t) (r : stream) :
  Forall (chunk_valid (buf r)) (Datablock.chunks D) ->
  exists outs out r',
    getstream D r = py.ok (out, r')
    /\ pos out = 0
    /\ buf out = concat outs
    /\ Forall2 (fun c o => chunk_output (buf r) c = py.ok o)
               (Datablock.chunks D) outs
    /\ Z.of_nat (length (buf out))
       = sum (map Chunk.unpacked (Datablock.chunks D)).
Proof.
  intros Hall.
  destruct (write_chunks_valid (Datablock.chunks D) (BytesIO []) r Hall)
    as (outs & r' & Hrun & _ & Hrel).
  exists outs, (Stream (concat outs) 0 true), r'.
  split.
  { unfold getstream, getdatastream.
    rewrite (bind_step _ _ _ _ _ Hrun). reflexivity. }
  split; [reflexivity|]. split; [reflexivity|].
  split.
  { eapply Forall2_impl; [exact Hrel|]. intros c o [Ho _]. exact Ho. }
  cbn [buf]. apply sum_unpacked.
  eapply Forall2_impl; [exact Hrel|]. intros c o [_ Ho]. exact Ho.
Qed.

End getstream_facts.

Example datablock_two_chunks_init :
  Datablock.init samples.datablock_two_chunks
  = py.ok (samples.two_chunks, Stream (buf samples.datablock_two_chunks) 47 false).
Proof. vm_compute. reflexivity. Qed.

(** Scenario of the specification: the compressed chunk decodes through
    zstd, the raw chunk is copied, 24 bytes in all. *)
Example datablock_two_chunks_stream :
  getstream (zstd := samples.toy_zstd) samples.two_chunks
            (Stream (buf samples.datablock_two_chunks) 47 false)
  = py.ok (BytesIO (replicate 16 xab ++ [x00; x01; x02; x03; x04; x05; x06; x07]),
           Stream (buf samples.datablock_two_chunks) 47 false).
Proof. vm_compute. reflexivity. Qed.

(** A raw chunk is copied as stored, whatever its [unpacked] field says:
    such a chunk is not one of a valid archive. *)
Example datablock_raw_mismatch_stream :
  exists D r1 out r2,
    Datablock.init samples.datablock_raw_mismatch = py.ok (D, r1)
    /\ getstream (zstd := samples.toy_zstd) D r1 = py.ok (out, r2)
    /\ buf out = [x41; x42]
    /\ sum (map Chunk.unpacked (Datablock.chunks D)) = 1.
Proof.
  eexists _, _, _, _.
  split; [vm_compute; reflexivity|].
  split; [vm_compute; reflexivity|].
  split; reflexivity.
Qed.

Lemma getstream_length_witness :
  exists outs out r',
    getstream (zstd := samples.toy_zstd) samples.two_chunks
              (Stream (buf samples.datablock_two_chunks) 47 false)
      = py.ok (out, r')
    /\ pos out = 0
    /\ buf out = concat outs
    /\ Forall2 (fun c o =>
                  chunk_output (zstd := samples.toy_zstd)
                    (buf samples.datablock_two_chunks) c = py.ok o)
               (Datablock.chunks samples.two_chunks) outs
    /\ Z.of_nat (length (buf out)) = 24.
Proof.
  assert (Hvalid : Forall (chunk_valid (zstd := samples.toy_zstd)
                             (buf samples.datablock_two_chunks))
                          (Datablock.chunks samples.two_chunks)).
  { constructor; [|constructor; [|constructor]].
    - split; [vm_compute; discriminate|].
      split; [vm_compute; discriminate|].
      split; [vm_compute; discriminate|].
      exists (replicate 16 xab). split; vm_compute; reflexivity.
    - split; [vm_compute; discriminate|].
      split; [vm_compute; discriminate|].
      split; [vm_compute; discriminate|].
      exists [x00; x01; x02; x03; x04; x05; x06; x07].
      split; vm_compute; reflexivity. }
  destruct (getstream_length (zstd := samples.toy_zstd) samples.two_chunks
              (Stream (buf samples.datablock_two_chunks) 47 false) Hvalid)
    as (outs & out & r' & Hrun & Hpos & Hbuf & Hrel & Hlen).
  exists outs, out, r'.
  split; [exact Hrun|]. split; [exact Hpos|]. split; [exact Hbuf|].
  split; [exact Hrel|]. rewrite Hlen. reflexivity.
Defined.

(** ** forge: the dependency graph *)

Lemma read_upk_pos (n w : Z) (r r' : stream) (v : Z) :
  0 <= n -> n = w ->
  (let* b := read n in lift (upk_uint w b)) r = py.ok (v, r') ->
  pos r' = pos r + w.
Proof.
  intros Hn -> H. apply bind_ok in H as (b & r1 & Hread & H).
  unfold read in Hread. destruct (w <? 0) eqn:E; [lia|].
  unfold py.ok in Hread. injection Hread as <- <-.
  unfold lift, upk_uint in H.
  destruct (Z.of_nat (length _) =? w) eqn:El; [|discriminate].
  unfold py.ok in H. injection H as _ <-. cbn [pos].
  apply Z.eqb_eq in El. lia.
Qed.

Lemma read_upk_int_pos (n w : Z) (r r' : stream) (v : Z) :
  0 <= n -> n = w ->
  (let* b := read n in lift (upk_int w b)) r = py.ok (v, r') ->
  pos r' = pos r + w.
Proof.
  intros Hn -> H. apply bind_ok in H as (b & r1 & Hread & H).
  unfold lift in H.
  destruct (upk_int w b) as [e|s] eqn:E; [discriminate|].
  unfold py.ok in H. injection H as _ <-.
  unfold upk_int, py.bind in E.
  destruct (upk_uint w b) as [e|u] eqn:Eu; [discriminate|].
  apply (read_upk_pos w w r r1 u Hn eq_refl).
  rewrite (bind_step _ _ _ _ _ Hread). apply lift_ok, Eu.
Qed.

Lemma Link_parse_pos (r r' : stream) (l : Link.t) :
  Link.parse r = py.ok (l, r') -> pos r' = pos r + 24.
Proof.
  intros H. unfold Link.parse in H. io_inv H.
  match goal with E : (l, r') = _ |- _ => injection E as _ -> end.
  repeat match goal with
         | E : ruint64 _ = py.ok _ |- _ =>
             apply (read_upk_pos 8 8) in E; [|lia|reflexivity]
         | E : rint32 _ = py.ok _ |- _ =>
             apply (read_upk_int_pos 4 4) in E; [|lia|reflexivity]
         | E : ruint16 _ = py.ok _ |- _ =>
             apply (read_upk_pos 2 2) in E; [|lia|reflexivity]
         | E : ruint8 _ = py.ok _ |- _ =>
             apply (read_upk_pos 1 1) in E; [|lia|reflexivity]
         end.
  lia.
Qed.

(** The number of turns [parse_stream] unrolls is all the
    [while unpacked.tell() < end] loop takes. *)
Lemma parse_links_enough (n m : nat) (end_ : Z) (r : stream) :
  (DepGraph.turns_left end_ (pos r) <= n)%nat -> (n <= m)%nat ->
  DepGraph.parse_links m end_ r = DepGraph.parse_links n end_ r.
Proof.
  revert m r. induction n as [|n IH]; intros m r Hn Hm.
  - assert (Hdone : (pos r <? end_) = false).
    { apply Z.ltb_ge. unfold DepGraph.turns_left in Hn.
      destruct (Z.le_gt_cases end_ (pos r)) as [|Hlt]; [assumption|].
      assert (1 <= (end_ - pos r + 23) / 24)
        by (apply Z.div_le_lower_bound; lia).
      lia. }
    destruct m as [|m]; [reflexivity|]. simpl.
    rewrite (bind_step tell _ r r (pos r)) by reflexivity.
    rewrite Hdone. reflexivity.
  - destruct m as [|m]; [lia|]. simpl.
    rewrite !(bind_step tell _ r r (pos r)) by reflexivity.
    destruct (pos r <? end_) eqn:Hlt; [|reflexivity].
    destruct (Link.parse r) as [e|[l r1]] eqn:El.
    + rewrite !(bind_raise _ _ _ _ El). reflexivity.
    + rewrite !(bind_step _ _ _ _ _ El). unfold pyio.bind.
      rewrite (IH m r1); [reflexivity| |lia].
      apply Link_parse_pos in El. unfold DepGraph.turns_left in *.
      rewrite El. apply Z.ltb_lt in Hlt.
      replace (end_ - pos r + 23) with (end_ - (pos r + 24) + 23 + 1 * 24) in Hn by lia.
      rewrite Z.div_add in Hn by lia.
      assert (0 <= (end_ - (pos r + 24) + 23) / 24 \/ end_ - (pos r + 24) + 23 < 0)
        by (destruct (Z.le_gt_cases 0 (end_ - (pos r + 24) + 23));
            [left; apply Z.div_pos; lia|right; lia]).
      destruct H as [H|H]; [lia|].
      rewrite Z2Nat.nonpos; [lia|].
      apply Z.lt_succ_r. apply Z.div_lt_upper_bound; lia.
Qed.




Section depgraph_facts.
Context {zstd : ZstdDecompressor}.






End depgraph_facts.


(** ** collector: what [generate] leaves in the cache *)

Import collector.

Lemma cache_names_distinct :
  SiegeLinksData._ASSET_UIDS_CACHE <> SiegeLinksData._UIDS_INDEX
  /\ SiegeLinksData._ASSET_UIDS_CACHE <> SiegeLinksData._ALL_LINKS_CACHE
  /\ SiegeLinksData._ASSET_UIDS_CACHE <> SiegeLinksData._ASSET_CHILDREN
  /\ SiegeLinksData._UIDS_INDEX <> SiegeLinksData._ALL_LINKS_CACHE
  /\ SiegeLinksData._UIDS_INDEX <> SiegeLinksData._ASSET_CHILDREN
  /\ SiegeLinksData._ALL_LINKS_CACHE <> SiegeLinksData._ASSET_CHILDREN.
Proof. repeat split; discriminate. Qed.

Section generate_facts.
Context {zstd : ZstdDecompressor}.

(** What a successful [generate] returns and writes: the four attributes,
    and a cache in which the file of the asset children holds the whole
    graph, the object that was dumped for [all_links]. *)
Lemma generate_ok (self self' : SiegeLinksData.t) (fs fs' : filesystem) :
  SiegeLinksData.generate self fs = py.ok (self', fs') ->
  exists (uids : list Z) (index : gmap Z index_entry) (all : DepGraph.t)
         (cache : gmap string pyobj),
    SiegeLinksData.scan_forges (SiegeLinksData.glob ".forge" (idir fs)) ([], ∅)
      = py.ok (uids, index)
    /\ parse_all DepGraph.init
         (map snd (SiegeLinksData.glob ".depgraphbin" (idir fs))) = py.ok all
    /\ self' = SiegeLinksData.Build
                 (Some (obj_depgraph all))
                 (Some (obj_depgraph
                          (DepGraph.Build
                             (SiegeLinksData.filter_links uids (DepGraph.links all)))))
                 (Some (obj_uids uids))
                 (Some (obj_index index))
    /\ fs' = Filesystem (idir fs) (Some cache)
    /\ cache !! SiegeLinksData._ASSET_UIDS_CACHE = Some (obj_uids uids)
    /\ cache !! SiegeLinksData._UIDS_INDEX = Some (obj_index index)
    /\ cache !! SiegeLinksData._ALL_LINKS_CACHE = Some (obj_depgraph all)
    /\ cache !! SiegeLinksData._ASSET_CHILDREN = Some (obj_depgraph all).
Proof.
  unfold SiegeLinksData.generate, py.bind.
  destruct (SiegeLinksData.scan_forges _ _) as [e|[uids index]]; [discriminate|].
  destruct (parse_all _ _) as [e|all]; [discriminate|].
  unfold py.ok. intros [= <- <-].
  destruct cache_names_distinct as (H1 & H2 & H3 & H4 & H5 & H6).
  eexists uids, index, all, _.
  split; [reflexivity|]. split; [reflexivity|]. split; [reflexivity|].
  split; [reflexivity|]. unfold SiegeLinksData.dump.
  split.
  { rewrite lookup_insert_ne by (symmetry; exact H3).
    rewrite lookup_insert_ne by (symmetry; exact H2).
    rewrite lookup_insert_ne by (symmetry; exact H1).
    apply lookup_insert_eq. }
  split.
  { rewrite lookup_insert_ne by (symmetry; exact H5).
    rewrite lookup_insert_ne by (symmetry; exact H4).
    apply lookup_insert_eq. }
  split.
  { rewrite lookup_insert_ne by (symmetry; exact H6).
    apply lookup_insert_eq. }
  apply lookup_insert_eq.
Qed.

(** C2 (the code departs from the claim): after [generate], the cache file
    of the asset children holds the same object as the file of all links,
    not the filtered graph [generate] keeps in memory; a subsequent [load]
    therefore yields [asset_children = all_links], while the three other
    artifacts come back as generated. *)
Theorem generate_then_load (self self' s0 : SiegeLinksData.t) (fs fs' : filesystem) :
  SiegeLinksData.generate self fs = py.ok (self', fs') ->
  exists s1 : SiegeLinksData.t,
    SiegeLinksData.load s0 fs' = py.ok s1
    /\ SiegeLinksData.asset_uids s1 = SiegeLinksData.asset_uids self'
    /\ SiegeLinksData.uids_index s1 = SiegeLinksData.uids_index self'
    /\ SiegeLinksData.all_links s1 = SiegeLinksData.all_links self'
    /\ SiegeLinksData.asset_children s1 = SiegeLinksData.all_links self'.
Proof.
  intros H.
  apply generate_ok in H
    as (uids & index & all & cache & _ & _ & -> & -> & Hu & Hi & Ha & Hc).
  eexists. split.
  - unfold SiegeLinksData.load, SiegeLinksData.load_file. cbn [cdir].
    rewrite Hu, Hi, Ha, Hc. reflexivity.
  - repeat split.
Qed.

End generate_facts.

Lemma game_dir_scan :
  exists index,
    SiegeLinksData.scan_forges
      (SiegeLinksData.glob ".forge" (idir samples.game_fs)) ([], ∅)
    = py.ok ([1], index).
Proof.
  eexists. unfold samples.game_fs, samples.game_dir. cbn [idir].
  set (f := samples.forge_bytes _).
  assert (Hf : forge.parse f
               = py.ok (match forge.parse f with
                        | inr x => x
                        | inl _ => Forge.Build [] [] 0 0 0 0 0 0 0 0 0 0 0 0 0 0
                                     0 0 0 0 0 0 0 0 0 0 0
                        end)).
  { assert (Hok : (match forge.parse f with inr _ => true | inl _ => false end)
                   = true)
      by (vm_compute; reflexivity).
    destruct (forge.parse f); [discriminate|reflexivity]. }
  assert (Hents : map (fun en => (Entry.uid (fst en), NameEntry.file_type (snd en)))
                    (match forge.parse f with
                     | inr x => zip (Forge.entries x) (Forge.names x)
                     | inl _ => []
                     end)
                  = [(1, ASSET_MAGIC); (5, 0xABEB2DFB)])
    by (vm_compute; reflexivity).
  change (SiegeLinksData.glob ".forge" _) with [("datapc64.forge"%string, f)].
  cbn [SiegeLinksData.scan_forges]. rewrite Hf. cbn [py.bind py.ok].
  destruct (forge.parse f) as [e|x]; [discriminate|].
  destruct (zip (Forge.entries x) (Forge.names x)) as [|[e1 n1] [|[e2 n2] [|]]];
    try discriminate.
  injection Hents as Hu1 Ht1 Hu2 Ht2.
  cbn [SiegeLinksData.scan_entries]. rewrite Ht1, Ht2, Hu1, Hu2.
  reflexivity.
Qed.

Lemma game_dir_links :
  parse_all (zstd := samples.toy_zstd) DepGraph.init
    (map snd (SiegeLinksData.glob ".depgraphbin" (idir samples.game_fs)))
  = py.ok (DepGraph.Build (list_set [samples.L1; samples.L2; samples.L3])).
Proof. vm_compute. reflexivity. Qed.

Lemma generate_then_load_witness :
  exists (self' s1 : SiegeLinksData.t) (fs' : filesystem) (all : DepGraph.t),
    SiegeLinksData.generate (zstd := samples.toy_zstd)
      SiegeLinksData.init samples.game_fs = py.ok (self', fs')
    /\ SiegeLinksData.load SiegeLinksData.init fs' = py.ok s1
    /\ SiegeLinksData.asset_uids self' = Some (obj_uids [1])
    /\ SiegeLinksData.asset_children s1 = Some (obj_depgraph all)
    /\ (samples.L3 ∈ DepGraph.links all)
    /\ (Link.src samples.L3 ∉ [1])
    /\ SiegeLinksData.asset_children self'
       = Some (obj_depgraph
                 (DepGraph.Build
                    (SiegeLinksData.filter_links [1] (DepGraph.links all))))
    /\ samples.L3 ∉ SiegeLinksData.filter_links [1] (DepGraph.links all).
Proof.
  destruct game_dir_scan as [index Hscan].
  pose proof game_dir_links as Hlinks.
  destruct (SiegeLinksData.generate (zstd := samples.toy_zstd)
              SiegeLinksData.init samples.game_fs) as [e|[self' fs']] eqn:E.
  { unfold SiegeLinksData.generate in E. rewrite Hscan in E.
    cbn [py.bind] in E. rewrite Hlinks in E. discriminate. }
  destruct (generate_then_load (zstd := samples.toy_zstd)
              _ _ SiegeLinksData.init _ _ E)
    as (s1 & Hload & _ & _ & _ & Hchildren).
  apply generate_ok in E
    as (uids & index' & all & cache & Hs & Hp & -> & -> & _).
  rewrite Hscan in Hs. injection Hs as <- <-.
  rewrite Hlinks in Hp. injection Hp as <-.
  eexists _, s1, _,
    (DepGraph.Build (list_set [samples.L1; samples.L2; samples.L3])).
  split; [reflexivity|]. split; [exact Hload|].
  split; [reflexivity|]. split; [exact Hchildren|].
  cbn [DepGraph.links].
  assert (H3 : samples.L3 ∈ list_set [samples.L1; samples.L2; samples.L3]).
  { unfold list_set. rewrite elem_of_elements, elem_of_list_to_set.
    do 2 right. left. }
  split; [exact H3|].
  assert (Hsrc : Link.src samples.L3 ∉ [1]).
  { simpl. rewrite not_elem_of_cons. split; [discriminate|apply not_elem_of_nil]. }
  split; [exact Hsrc|]. split; [reflexivity|].
  unfold SiegeLinksData.filter_links. rewrite list_elem_of_filter.
  intros [Hin _]. exact (Hsrc Hin).
Defined.

(* ================================================================== *)
(** * Part III: further properties of the code                          *)
(* ================================================================== *)

(** ** binstream: packing and unpacking *)

Lemma byte_val_byte_of (v : Z) : py.byte_val (byte_of v) = v mod 256.
Proof.
  unfold py.byte_val, byte_of.
  assert (Hr : 0 <= v mod 256 < 256) by (apply Z.mod_pos_bound; lia).
  destruct (Byte.of_N (Z.to_N (v mod 256))) as [b|] eqn:E.
  - apply Byte.to_of_N in E. simpl. rewrite E. lia.
  - apply Byte.of_N_None_iff in E. lia.
Qed.

Lemma le_encode_length (w : nat) (v : Z) : length (le_encode w v) = w.
Proof. revert v. induction w as [|w IH]; intros v; simpl; [|rewrite IH]; reflexivity. Qed.

Lemma le_uint_le_encode (w : nat) (v : Z) :
  le_uint (le_encode w v) = v mod 2 ^ (8 * Z.of_nat w).
Proof.
  revert v. induction w as [|w IH]; intros v.
  - simpl. rewrite Z.mod_1_r. reflexivity.
  - cbn [le_encode le_uint]. rewrite byte_val_byte_of, IH.
    replace (8 * Z.of_nat (S w)) with (8 + 8 * Z.of_nat w) by lia.
    rewrite Z.pow_add_r by lia. change (2 ^ 8) with 256.
    rewrite Z.rem_mul_r by lia. reflexivity.
Qed.

Lemma byte_val_range (b : byte) : 0 <= py.byte_val b < 256.
Proof.
  unfold py.byte_val. pose proof (Byte.to_N_bounded b). lia.
Qed.

Lemma byte_of_byte_val (b : byte) (z : Z) : byte_of (py.byte_val b + 256 * z) = b.
Proof.
  unfold byte_of. pose proof (byte_val_range b) as Hb.
  replace ((py.byte_val b + 256 * z) mod 256) with (py.byte_val b).
  - unfold py.byte_val. rewrite N2Z.id, Byte.of_to_N. reflexivity.
  - rewrite (Z.mul_comm 256), Z.mod_add by lia.
    symmetry. apply Z.mod_small, Hb.
Qed.

Lemma le_uint_range (bs : py.bytes) :
  0 <= le_uint bs < 2 ^ (8 * Z.of_nat (length bs)).
Proof.
  induction bs as [|b bs IH]; [simpl; lia|].
  cbn [le_uint length]. pose proof (byte_val_range b).
  replace (8 * Z.of_nat (S (length bs))) with (8 + 8 * Z.of_nat (length bs)) by lia.
  rewrite Z.pow_add_r by lia. change (2 ^ 8) with 256. nia.
Qed.


Lemma pk_uint_ok (w : nat) (d : Z) (b : py.bytes) :
  pk_uint w d = py.ok b ->
  0 <= d < 2 ^ (8 * Z.of_nat w) /\ b = le_encode w d.
Proof.
  unfold pk_uint. destruct (0 <=? d) eqn:E1; [|discriminate].
  destruct (d <? 2 ^ (8 * Z.of_nat w)) eqn:E2; [|discriminate].
  unfold py.ok. intros [= <-]. split; [lia|reflexivity].
Qed.

Lemma upk_uint_le_encode (w : nat) (d : Z) :
  0 <= d < 2 ^ (8 * Z.of_nat w) ->
  upk_uint (Z.of_nat w) (le_encode w d) = py.ok d.
Proof.
  intros Hd. unfold upk_uint. rewrite le_encode_length, Z.eqb_refl.
  rewrite le_uint_le_encode, Z.mod_small by assumption. reflexivity.
Qed.

(** X1: what [uint32s] packs, [suint32] unpacks to the same value; a
    value outside [0, 2^32) is refused by [uint32s]. *)
Theorem suint32_uint32s (v : Z) :
  (0 <= v < 2 ^ 32 ->
   exists b, uint32s v = py.ok b /\ length b = 4%nat /\ suint32 b = py.ok v)
  /\ (~ 0 <= v < 2 ^ 32 -> uint32s v = py.raise py.StructError).
Proof.
  unfold uint32s, suint32, pk_uint. change (2 ^ (8 * Z.of_nat 4)) with (2 ^ 32).
  split; intros Hv.
  - exists (le_encode 4 v).
    destruct (0 <=? v) eqn:E1; [|lia]. destruct (v <? 2 ^ 32) eqn:E2; [|lia].
    split; [reflexivity|]. split; [reflexivity|].
    apply (upk_uint_le_encode 4 v). exact Hv.
  - destruct (0 <=? v) eqn:E1; [|reflexivity].
    destruct (v <? 2 ^ 32) eqn:E2; [lia|reflexivity].
Qed.

Lemma suint32_uint32s_witness :
  exists b, uint32s 0xDEADBEEF = py.ok b /\ length b = 4%nat
            /\ suint32 b = py.ok 0xDEADBEEF.
Proof. apply (proj1 (suint32_uint32s 0xDEADBEEF)). lia. Defined.



(** Writing at the cursor and reading from the same place. *)
Lemma write_then_read (b : py.bytes) (w : stream) :
  0 <= pos w -> b <> [] ->
  exists w1,
    write_at b w = py.ok (tt, w1)
    /\ pos w1 = pos w + Z.of_nat (length b)
    /\ in_memory w1 = in_memory w
    /\ read (Z.of_nat (length b)) (Stream (buf w1) (pos w) (in_memory w1))
       = py.ok (b, w1).
Proof.
  intros Hpos Hb. eexists. split; [reflexivity|].
  destruct b as [|b0 b]; [congruence|]. remember (b0 :: b) as bs eqn:Hbs.
  clear Hbs Hb b0 b.
  cbn [pos buf in_memory]. split; [reflexivity|]. split; [reflexivity|].
  unfold read. cbn [pos buf in_memory].
  destruct (Z.of_nat (length bs) <? 0) eqn:E;
    [apply Z.ltb_lt in E; pose proof (Nat2Z.is_nonneg (length bs)); lia|].
  set (pre := take (Z.to_nat (pos w)) (buf w)
              ++ replicate (Z.to_nat (pos w) - length (buf w)) x00).
  assert (Hpre : length pre = Z.to_nat (pos w)).
  { unfold pre. rewrite length_app, length_take, length_replicate. lia. }
  assert (Hdrop : drop (Z.to_nat (pos w))
                    (take (Z.to_nat (pos w)) (buf w)
                     ++ replicate (Z.to_nat (pos w) - length (buf w)) x00
                     ++ bs ++ drop (Z.to_nat (pos w) + length bs) (buf w))
                  = bs ++ drop (Z.to_nat (pos w) + length bs) (buf w)).
  { rewrite (app_assoc (take _ _)). fold pre. rewrite <- Hpre at 1.
    apply drop_app_length. }
  rewrite Hdrop, Nat2Z.id, take_app_length. reflexivity.
Qed.

(** X3: an unsigned value that fits its field is written by [wuint8] ...
    [wuint64] at the cursor, which advances by the width; read back from
    where it was written, [ruint8] ... [ruint64] return it.  A value that
    does not fit raises [struct.error] and nothing is written. *)
Theorem wuint_ruint_round_trip (k : width) (w : stream) (d : Z) :
  0 <= pos w ->
  (0 <= d < 2 ^ (8 * Z.of_nat (width_bytes k)) ->
   exists w1,
     wuint k d w = py.ok (tt, w1)
     /\ pos w1 = pos w + Z.of_nat (width_bytes k)
     /\ (seek (pos w) ;; ruint k) w1 = py.ok (d, w1))
  /\ (~ 0 <= d < 2 ^ (8 * Z.of_nat (width_bytes k)) ->
      wuint k d w = py.raise py.StructError).
Proof.
  intros Hpos.
  assert (Hw : wuint k d = (let* b := lift (pk_uint (width_bytes k) d) in write_at b))
    by (destruct k; reflexivity).
  assert (Hr : ruint k = (let* b := read (Z.of_nat (width_bytes k)) in
                          lift (upk_uint (Z.of_nat (width_bytes k)) b)))
    by (destruct k; reflexivity).
  rewrite Hw, Hr. clear Hw Hr. set (n := width_bytes k).
  assert (Hn : n <> 0%nat) by (destruct k; discriminate).
  split; intros Hd.
  - assert (Hpk : pk_uint n d = py.ok (le_encode n d)).
    { unfold pk_uint. destruct (0 <=? d) eqn:E1; [|lia].
      destruct (d <? 2 ^ (8 * Z.of_nat n)) eqn:E2; [|lia]. reflexivity. }
    destruct (write_then_read (le_encode n d) w Hpos) as (w1 & Hwr & Hp & Hm & Hrd).
    { intros E. apply (f_equal length) in E. rewrite le_encode_length in E.
      simpl in E. contradiction. }
    rewrite le_encode_length in Hp, Hrd.
    exists w1. split; [|split; [exact Hp|]].
    + rewrite (bind_step _ _ _ _ _ (lift_ok _ _ w Hpk)). exact Hwr.
    + rewrite (bind_step _ _ _ _ _ (seek_ok w1 _ Hpos)).
      rewrite (bind_step _ _ _ _ _ Hrd).
      apply lift_ok, upk_uint_le_encode, Hd.
  - apply bind_raise. unfold lift, pk_uint.
    destruct (0 <=? d) eqn:E1; [|reflexivity].
    destruct (d <? 2 ^ (8 * Z.of_nat n)) eqn:E2; [lia|reflexivity].
Qed.

Lemma wuint_ruint_round_trip_witness :
  exists w1,
    wuint W16 0xBEEF (BytesIO [x01; x02; x03]) = py.ok (tt, w1)
    /\ pos w1 = 2
    /\ (seek 0 ;; ruint W16) w1 = py.ok (0xBEEF, w1).
Proof.
  apply (proj1 (wuint_ruint_round_trip W16 (BytesIO [x01; x02; x03]) 0xBEEF
                  (Z.le_refl 0))).
  simpl. lia.
Defined.

Lemma to_signed_mod (n : nat) (d : Z) :
  n <> 0%nat ->
  - 2 ^ (8 * Z.of_nat n - 1) <= d < 2 ^ (8 * Z.of_nat n - 1) ->
  to_signed (Z.of_nat n) (d mod 2 ^ (8 * Z.of_nat n)) = d.
Proof.
  intros Hn Hd. unfold to_signed.
  assert (Hpow : 2 ^ (8 * Z.of_nat n) = 2 * 2 ^ (8 * Z.of_nat n - 1)).
  { rewrite <- Z.pow_succ_r by lia. f_equal. lia. }
  set (h := 2 ^ (8 * Z.of_nat n - 1)) in *.
  assert (0 < h) by (apply Z.pow_pos_nonneg; lia).
  rewrite Hpow. destruct (Z.lt_ge_cases d 0) as [Hneg|Hpos].
  - replace (d mod (2 * h)) with (d + 2 * h).
    + destruct (d + 2 * h <? h) eqn:E; lia.
    + symmetry. rewrite <- (Z.mod_add d 1) by lia.
      rewrite Z.mul_1_l. apply Z.mod_small. lia.
  - rewrite Z.mod_small by lia. destruct (d <? h) eqn:E; lia.
Qed.

(** X4: a signed value that fits its field is written by [wint8] ...
    [wint64] in two's complement and read back unchanged by [rint8] ...
    [rint64]; a value that does not fit raises [struct.error]. *)
Theorem wint_rint_round_trip (k : width) (w : stream) (d : Z) :
  0 <= pos w ->
  (- 2 ^ (8 * Z.of_nat (width_bytes k) - 1) <= d
     < 2 ^ (8 * Z.of_nat (width_bytes k) - 1) ->
   exists w1,
     wint k d w = py.ok (tt, w1)
     /\ pos w1 = pos w + Z.of_nat (width_bytes k)
     /\ (seek (pos w) ;; rint k) w1 = py.ok (d, w1))
  /\ (~ - 2 ^ (8 * Z.of_nat (width_bytes k) - 1) <= d
        < 2 ^ (8 * Z.of_nat (width_bytes k) - 1) ->
      wint k d w = py.raise py.StructError).
Proof.
  intros Hpos.
  assert (Hw : wint k d = (let* b := lift (pk_int (width_bytes k) d) in write_at b))
    by (destruct k; reflexivity).
  assert (Hr : rint k = (let* b := read (Z.of_nat (width_bytes k)) in
                         lift (upk_int (Z.of_nat (width_bytes k)) b)))
    by (destruct k; reflexivity).
  rewrite Hw, Hr. clear Hw Hr. set (n := width_bytes k).
  assert (Hn : n <> 0%nat) by (destruct k; discriminate).
  split; intros Hd.
  - set (v := d mod 2 ^ (8 * Z.of_nat n)).
    assert (Hv : 0 <= v < 2 ^ (8 * Z.of_nat n))
      by (apply Z.mod_pos_bound, Z.pow_pos_nonneg; lia).
    assert (Hpk : pk_int n d = py.ok (le_encode n v)).
    { unfold pk_int.
      destruct (- 2 ^ (8 * Z.of_nat n - 1) <=? d) eqn:E1; [|lia].
      destruct (d <? 2 ^ (8 * Z.of_nat n - 1)) eqn:E2; [|lia]. reflexivity. }
    destruct (write_then_read (le_encode n v) w Hpos) as (w1 & Hwr & Hp & Hm & Hrd).
    { intros E. apply (f_equal length) in E. rewrite le_encode_length in E.
      simpl in E. contradiction. }
    rewrite le_encode_length in Hp, Hrd.
    exists w1. split; [|split; [exact Hp|]].
    + rewrite (bind_step _ _ _ _ _ (lift_ok _ _ w Hpk)). exact Hwr.
    + rewrite (bind_step _ _ _ _ _ (seek_ok w1 _ Hpos)).
      rewrite (bind_step _ _ _ _ _ Hrd).
      apply lift_ok. unfold upk_int.
      rewrite (upk_uint_le_encode n v Hv). cbn [py.bind py.ok].
      unfold v. rewrite (to_signed_mod n d Hn Hd). reflexivity.
  - apply bind_raise. unfold lift, pk_int.
    destruct (- 2 ^ (8 * Z.of_nat n - 1) <=? d) eqn:E1; [|reflexivity].
    destruct (d <? 2 ^ (8 * Z.of_nat n - 1)) eqn:E2; [lia|reflexivity].
Qed.

Lemma wint_rint_round_trip_witness :
  exists w1,
    wint W32 (-2) (BytesIO []) = py.ok (tt, w1)
    /\ pos w1 = 4
    /\ (seek 0 ;; rint W32) w1 = py.ok (-2, w1).
Proof.
  apply (proj1 (wint_rint_round_trip W32 (BytesIO []) (-2) (Z.le_refl 0))).
  simpl. lia.
Defined.

(** X5: whatever the string, [termstr] returns a prefix of it that holds
    no NUL byte; when the string holds a NUL, that prefix is everything
    before the first one. *)
Theorem termstr_prefix_without_nul (s : py.bytes) :
  termstr s `prefix_of` s
  /\ (x00 ∉ termstr s)
  /\ (forall p q, s = p ++ x00 :: q -> x00 ∉ p -> termstr s = p).
Proof.
  assert (Hcase : x00 ∈ s \/ x00 ∉ s) by (destruct (decide (x00 ∈ s)); tauto).
  split; [|split].
  - destruct Hcase as [Hin|Hout].
    + apply list_elem_of_split_l in Hin as (p & q & -> & Hp).
      rewrite termstr_first_nul by assumption. apply prefix_app_r. reflexivity.
    + rewrite termstr_no_nul by assumption. apply prefix_take.
  - destruct Hcase as [Hin|Hout].
    + apply list_elem_of_split_l in Hin as (p & q & -> & Hp).
      rewrite termstr_first_nul by assumption. exact Hp.
    + rewrite termstr_no_nul by assumption.
      intros Hin. apply Hout. apply elem_of_take in Hin as (i & Hi & _).
      eapply list_elem_of_lookup_2, Hi.
  - intros p q -> Hp. apply termstr_first_nul, Hp.
Qed.

Lemma termstr_prefix_without_nul_witness :
  termstr ([x61; x62] ++ x00 :: [x63]) = [x61; x62].
Proof.
  apply (proj2 (proj2 (termstr_prefix_without_nul ([x61; x62] ++ x00 :: [x63])))
           [x61; x62] [x63] eq_refl).
  rewrite !not_elem_of_cons. repeat split; try discriminate. apply not_elem_of_nil.
Defined.

(** ** Reading fields from a stream: where the cursor goes *)

(** The bytes a read of [w] bytes sees at the cursor. *)
Lemma read_field (w : Z) (r : stream) :
  0 <= w -> 0 <= pos r ->
  read w r
  = py.ok (take (Z.to_nat w) (drop (Z.to_nat (pos r)) (buf r)),
           Stream (buf r)
                  (pos r + Z.min w (Z.max 0 (size r - pos r)))
                  (in_memory r)).
Proof.
  intros Hw Hp. unfold read, size.
  destruct (w <? 0) eqn:E; [apply Z.ltb_lt in E; lia|].
  unfold py.ok. do 3 f_equal.
  rewrite length_take, length_drop. lia.
Qed.

Lemma ruint_in_bounds (w : Z) (r : stream) :
  0 <= w -> 0 <= pos r -> pos r + w <= size r ->
  (let* b := read w in lift (upk_uint w b)) r
  = py.ok (le_uint (take (Z.to_nat w) (drop (Z.to_nat (pos r)) (buf r))),
           Stream (buf r) (pos r + w) (in_memory r)).
Proof.
  intros Hw Hp Hfit. rewrite (bind_step _ _ _ _ _ (read_field w r Hw Hp)).
  unfold lift, upk_uint. rewrite length_take, length_drop.
  unfold size in *.
  match goal with
  | |- context [Z.of_nat ?n =? w] => destruct (Z.of_nat n =? w) eqn:E
  end; [|apply Z.eqb_neq in E; lia].
  unfold py.ok. do 3 f_equal. lia.
Qed.

Lemma ruint_short (w : Z) (r : stream) :
  0 < w -> 0 <= pos r -> size r < pos r + w ->
  (let* b := read w in lift (upk_uint w b)) r = py.raise py.StructError.
Proof.
  intros Hw Hp Hshort.
  rewrite (bind_step _ _ _ _ _ (read_field w r (Z.lt_le_incl _ _ Hw) Hp)).
  unfold lift, upk_uint. rewrite length_take, length_drop.
  unfold size in *.
  match goal with
  | |- context [Z.of_nat ?n =? w] => destruct (Z.of_nat n =? w) eqn:E
  end; [apply Z.eqb_eq in E; lia|reflexivity].
Qed.

Lemma rint_in_bounds (w : Z) (r : stream) :
  0 <= w -> 0 <= pos r -> pos r + w <= size r ->
  (let* b := read w in lift (upk_int w b)) r
  = py.ok (to_signed w (le_uint (take (Z.to_nat w) (drop (Z.to_nat (pos r)) (buf r)))),
           Stream (buf r) (pos r + w) (in_memory r)).
Proof.
  intros Hw Hp Hfit. pose proof (ruint_in_bounds w r Hw Hp Hfit) as H.
  apply bind_ok in H as (b & r1 & Hread & Hupk).
  rewrite (bind_step _ _ _ _ _ Hread). unfold lift, upk_int, py.bind in *.
  destruct (upk_uint w b) as [e|v]; [discriminate|].
  unfold py.ok in *. injection Hupk as -> ->. reflexivity.
Qed.

Lemma rint_short (w : Z) (r : stream) :
  0 < w -> 0 <= pos r -> size r < pos r + w ->
  (let* b := read w in lift (upk_int w b)) r = py.raise py.StructError.
Proof.
  intros Hw Hp Hshort. pose proof (ruint_short w r Hw Hp Hshort) as H.
  unfold pyio.bind in *. destruct (read w r) as [e|[b r1]]; [exact H|].
  unfold lift, upk_int, py.bind in *.
  destruct (upk_uint w b) as [e|v]; [exact H|discriminate].
Qed.

(** A successful unsigned read: the stream it leaves, the value it
    returns and the room there was. *)
Lemma ruint_inv (w : Z) (r r' : stream) (v : Z) :
  0 < w -> 0 <= pos r ->
  (let* b := read w in lift (upk_uint w b)) r = py.ok (v, r') ->
  r' = Stream (buf r) (pos r + w) (in_memory r)
  /\ pos r + w <= size r
  /\ v = le_uint (take (Z.to_nat w) (drop (Z.to_nat (pos r)) (buf r))).
Proof.
  intros Hw Hp H. destruct (Z.le_gt_cases (pos r + w) (size r)) as [Hfit|Hshort].
  - rewrite (ruint_in_bounds w r (Z.lt_le_incl _ _ Hw) Hp Hfit) in H.
    unfold py.ok in H. injection H as <- <-. repeat split. exact Hfit.
  - rewrite (ruint_short w r Hw Hp) in H by lia. discriminate.
Qed.

Lemma rint_inv (w : Z) (r r' : stream) (v : Z) :
  0 < w -> 0 <= pos r ->
  (let* b := read w in lift (upk_int w b)) r = py.ok (v, r') ->
  r' = Stream (buf r) (pos r + w) (in_memory r)
  /\ pos r + w <= size r.
Proof.
  intros Hw Hp H. destruct (Z.le_gt_cases (pos r + w) (size r)) as [Hfit|Hshort].
  - rewrite (rint_in_bounds w r (Z.lt_le_incl _ _ Hw) Hp Hfit) in H.
    unfold py.ok in H. injection H as <- <-. repeat split. exact Hfit.
  - rewrite (rint_short w r Hw Hp) in H by lia. discriminate.
Qed.

(** ** forge: what [Datablock.__init__] builds *)

Lemma sum_app (l1 l2 : list Z) : sum (l1 ++ l2) = sum l1 + sum l2.
Proof.
  unfold sum. induction l1 as [|x l1 IH]; simpl; [reflexivity|].
  rewrite IH. lia.
Qed.

Lemma Chunk_init_inv (r r' : stream) (c : Chunk.t) :
  0 <= pos r -> Chunk.init r = py.ok (c, r') ->
  r' = Stream (buf r) (pos r + 8) (in_memory r)
  /\ 0 <= Chunk.unpacked c /\ 0 <= Chunk.packed c
  /\ Chunk.ispacked c = (Chunk.packed c <? Chunk.unpacked c)
  /\ Chunk.hash c = 0 /\ Chunk.offset c = 0.
Proof.
  intros Hp H. unfold Chunk.init in H.
  apply bind_ok in H as (u & r1 & Hu & H).
  apply bind_ok in H as (k & r2 & Hk & H).
  apply ret_ok in H. injection H as -> ->.
  pose proof (ruint32_nonneg _ _ _ Hu). pose proof (ruint32_nonneg _ _ _ Hk).
  apply (ruint_inv 4) in Hu as (-> & _ & _); [|lia|assumption].
  apply (ruint_inv 4) in Hk as (-> & _ & _); [|lia|simpl; lia].
  cbn. repeat split; try assumption. f_equal. lia.
Qed.

Lemma read_table_inv (n : nat) (self self' : Datablock.t) (r r' : stream) :
  0 <= pos r -> Datablock.read_table n self r = py.ok (self', r') ->
  exists cs,
    Datablock.chunks self' = Datablock.chunks self ++ cs
    /\ length cs = n
    /\ Datablock.xD self' = Datablock.xD self
    /\ Datablock.packed self' = Datablock.packed self + sum (map Chunk.packed cs)
    /\ Datablock.unpacked self'
       = Datablock.unpacked self + sum (map Chunk.unpacked cs)
    /\ Datablock.ispacked self'
       = Datablock.ispacked self || existsb Chunk.ispacked cs
    /\ Forall (fun c => 0 <= Chunk.unpacked c /\ 0 <= Chunk.packed c
                        /\ Chunk.ispacked c = (Chunk.packed c <? Chunk.unpacked c)) cs
    /\ r' = Stream (buf r) (pos r + 8 * Z.of_nat n) (in_memory r).
Proof.
  revert self r. induction n as [|n IH]; intros self r Hp H.
  - simpl in H. apply ret_ok in H. injection H as -> ->.
    exists []. rewrite app_nil_r, orb_false_r. simpl.
    rewrite !Z.add_0_r. destruct r. repeat split. constructor.
  - cbn [Datablock.read_table] in H.
    apply bind_ok in H as (c & r1 & Hc & H).
    apply Chunk_init_inv in Hc as (-> & Hu & Hk & Hi & _ & _); [|assumption].
    apply IH in H as (cs & Hcs & Hlen & HxD & Hpk & Hun & Hip & Hall & ->);
      [|simpl; lia].
    cbn [Datablock.chunks Datablock.xD Datablock.packed Datablock.unpacked
         Datablock.ispacked buf pos in_memory] in *.
    exists (c :: cs). rewrite <- app_assoc in Hcs. simpl in Hcs.
    split; [exact Hcs|]. split; [simpl; lia|]. split; [exact HxD|].
    split; [rewrite Hpk; unfold sum; simpl; lia|].
    split; [rewrite Hun; unfold sum; simpl; lia|].
    split.
    { rewrite Hip. simpl. destruct (Chunk.ispacked c), (Datablock.ispacked self);
        reflexivity. }
    split; [constructor; [repeat split; assumption|exact Hall]|].
    f_equal. lia.
Qed.

Lemma finalize_all_inv (cs cs' : list Chunk.t) (r r' : stream) :
  0 <= pos r -> Forall (fun c => 0 <= Chunk.packed c) cs ->
  Datablock.finalize_all cs r = py.ok (cs', r') ->
  Forall2 (fun c c' => Chunk.unpacked c' = Chunk.unpacked c
                       /\ Chunk.packed c' = Chunk.packed c
                       /\ Chunk.ispacked c' = Chunk.ispacked c) cs cs'
  /\ chunk_offsets_from (pos r) cs'
  /\ 0 <= chunks_end (pos r) cs'
  /\ r' = Stream (buf r) (chunks_end (pos r) cs') (in_memory r).
Proof.
  revert cs' r. induction cs as [|c cs IH]; intros cs' r Hp Hpk H.
  - simpl in H. apply ret_ok in H. injection H as -> ->. simpl.
    destruct r. repeat split; try constructor; simpl in *; lia.
  - cbn [Datablock.finalize_all] in H.
    apply Forall_cons in Hpk as [Hc Hpk].
    apply bind_ok in H as (c' & r1 & Hfin & H).
    unfold Chunk.finalize in Hfin.
    apply bind_ok in Hfin as (h & r0 & Hh & Hfin).
    apply (ruint_inv 4) in Hh as (-> & _ & _); [|lia|assumption].
    apply bind_ok in Hfin as (o & r0' & Ho & Hfin).
    unfold tell in Ho. unfold py.ok in Ho. injection Ho as <- <-.
    apply ret_ok in Hfin. injection Hfin as -> ->.
    apply bind_ok in H as ([] & r2 & Hseek & H).
    unfold seek_cur, seek_rel in Hseek. cbn [pos buf in_memory Chunk.packed] in Hseek.
    destruct (pos r + 4 + Chunk.packed c <? 0) eqn:E;
      [apply Z.ltb_lt in E; lia|].
    unfold py.ok in Hseek. injection Hseek as <-.
    apply bind_ok in H as (rest' & r3 & Hrest & H).
    apply ret_ok in H. injection H as -> ->.
    apply IH in Hrest as (Hrel & Hoff & Hend & ->); [|simpl; lia|assumption].
    cbn [pos buf in_memory] in *.
    split; [constructor; [repeat split|exact Hrel]|].
    cbn [chunk_offsets_from chunks_end Chunk.offset Chunk.packed].
    split; [split; [reflexivity|exact Hoff]|].
    split; [exact Hend|reflexivity].
Qed.

Lemma Datablock_init_inv (r r' : stream) (D : Datablock.t) :
  0 <= pos r -> Datablock.init r = py.ok (D, r') ->
  exists cs,
    Forall2 (fun c c' => Chunk.unpacked c' = Chunk.unpacked c
                         /\ Chunk.packed c' = Chunk.packed c
                         /\ Chunk.ispacked c' = Chunk.ispacked c)
      cs (Datablock.chunks D)
    /\ Forall (fun c => 0 <= Chunk.unpacked c /\ 0 <= Chunk.packed c
                        /\ Chunk.ispacked c = (Chunk.packed c <? Chunk.unpacked c)) cs
    /\ Datablock.packed D = sum (map Chunk.packed cs)
    /\ Datablock.unpacked D = sum (map Chunk.unpacked cs)
    /\ Datablock.ispacked D = existsb Chunk.ispacked cs
    /\ length cs
       = Z.to_nat (le_uint (take 4 (drop (Z.to_nat (pos r + 7)) (buf r))))
    /\ Datablock.xD D = le_uint (take 2 (drop (Z.to_nat (pos r + 5)) (buf r)))
    /\ chunk_offsets_from (pos r + 11 + 8 * Z.of_nat (length cs)) (Datablock.chunks D)
    /\ r' = Stream (buf r)
              (chunks_end (pos r + 11 + 8 * Z.of_nat (length cs)) (Datablock.chunks D))
              (in_memory r)
    /\ 0 <= pos r'.
Proof.
  intros Hp H. unfold Datablock.init in H.
  apply bind_ok in H as (a & r1 & Ha & H).
  apply (ruint_inv 2) in Ha as (-> & _ & _); [|lia|assumption].
  apply bind_ok in H as (b & r2 & Hb & H).
  apply (ruint_inv 2) in Hb as (-> & _ & _); [|lia|simpl; lia].
  apply bind_ok in H as (c & r3 & Hc & H).
  apply (ruint_inv 1) in Hc as (-> & _ & _); [|lia|simpl; lia].
  apply bind_ok in H as (x & r4 & Hx & H).
  apply (ruint_inv 2) in Hx as (-> & _ & ->); [|lia|simpl; lia].
  apply bind_ok in H as (n & r5 & Hn & H).
  apply (ruint_inv 4) in Hn as (-> & _ & ->); [|lia|simpl; lia].
  cbn [pos buf in_memory] in H.
  apply bind_ok in H as (self & r6 & Ht & H).
  apply read_table_inv in Ht
    as (cs & Hcs & Hlen & HxD & Hpk & Hun & Hip & Hall & ->); [|simpl; lia].
  cbn [Datablock.chunks Datablock.xD Datablock.packed Datablock.unpacked
       Datablock.ispacked pos buf in_memory app] in *.
  apply bind_ok in H as (cs' & r7 & Hf & H).
  apply ret_ok in H. injection H as HD Hr'. subst D r'.
  rewrite Hcs in Hf.
  apply finalize_all_inv in Hf as (Hrel & Hoff & Hend & ->);
    [|simpl; lia|eapply Forall_impl; [exact Hall|intros ? (_ & ? & _); assumption]].
  cbn [Datablock.chunks Datablock.xD Datablock.packed Datablock.unpacked
       Datablock.ispacked pos buf in_memory] in *.
  exists cs.
  replace (pos r + 2 + 2 + 1 + 2 + 4 + 8 * Z.of_nat (Z.to_nat
            (le_uint (take (Z.to_nat 4)
               (drop (Z.to_nat (pos r + 2 + 2 + 1 + 2)) (buf r))))))
    with (pos r + 11 + 8 * Z.of_nat (length cs)) in * by (rewrite Hlen; lia).
  replace (pos r + 2 + 2 + 1 + 2) with (pos r + 7) in * by lia.
  replace (pos r + 2 + 2 + 1) with (pos r + 5) in * by lia.
  repeat split; try assumption; try lia.
Qed.

Lemma Forall2_chunk_maps (cs cs' : list Chunk.t) :
  Forall2 (fun c c' => Chunk.unpacked c' = Chunk.unpacked c
                       /\ Chunk.packed c' = Chunk.packed c
                       /\ Chunk.ispacked c' = Chunk.ispacked c) cs cs' ->
  map Chunk.unpacked cs' = map Chunk.unpacked cs
  /\ map Chunk.packed cs' = map Chunk.packed cs
  /\ map Chunk.ispacked cs' = map Chunk.ispacked cs
  /\ existsb Chunk.ispacked cs' = existsb Chunk.ispacked cs
  /\ length cs' = length cs.
Proof.
  induction 1 as [|c c' cs cs' (Hu & Hk & Hi) _ (IHu & IHk & IHi & IHe & IHl)];
    simpl; [repeat split|].
  rewrite Hu, Hk, Hi, IHu, IHk, IHi, IHe, IHl. repeat split.
Qed.

(** X6 ([Datablock.__init__]).  After a datablock has been read from a
    stream, its [packed] and [unpacked] totals are the sums of its chunks'
    sizes, every chunk is flagged packed exactly when its packed size is
    smaller than its unpacked size, and the datablock is flagged packed
    exactly when one of its chunks is. *)
Theorem Datablock_init_totals (r r' : stream) (D : Datablock.t) :
  0 <= pos r ->
  Datablock.init r = py.ok (D, r') ->
  Datablock.packed D = sum (map Chunk.packed (Datablock.chunks D))
  /\ Datablock.unpacked D = sum (map Chunk.unpacked (Datablock.chunks D))
  /\ Forall (fun c => Chunk.ispacked c = (Chunk.packed c <? Chunk.unpacked c))
       (Datablock.chunks D)
  /\ Datablock.ispacked D = existsb Chunk.ispacked (Datablock.chunks D).
Proof.
  intros Hp H.
  apply Datablock_init_inv in H
    as (cs & Hrel & Hall & Hpk & Hun & Hip & _); [|assumption].
  destruct (Forall2_chunk_maps _ _ Hrel) as (Hmu & Hmk & _ & Hme & _).
  rewrite Hmu, Hmk, Hme. repeat split; try assumption.
  clear -Hrel Hall. induction Hrel as [|c c' cs cs' (Hu & Hk & Hi) _ IH].
  - constructor.
  - apply Forall_cons in Hall as [(_ & _ & Hc) Hall].
    constructor; [rewrite Hu, Hk, Hi; exact Hc|apply IH; exact Hall].
Qed.

Lemma Datablock_init_totals_witness :
  let D := samples.two_chunks in
  Datablock.packed D = sum (map Chunk.packed (Datablock.chunks D))
  /\ Datablock.unpacked D = sum (map Chunk.unpacked (Datablock.chunks D))
  /\ Forall (fun c => Chunk.ispacked c = (Chunk.packed c <? Chunk.unpacked c))
       (Datablock.chunks D)
  /\ Datablock.ispacked D = existsb Chunk.ispacked (Datablock.chunks D).
Proof.
  apply (Datablock_init_totals samples.datablock_two_chunks
           (Stream (buf samples.datablock_two_chunks) 47 false)).
  - simpl. lia.
  - vm_compute. reflexivity.
Defined.

(** X7 ([Datablock.__init__], [Chunk.finalize]).  Reading a datablock
    at position [p] leaves the buffer as it was; with [n] chunks the chunk
    data starts after the 11-byte preamble and the [8 * n]-byte size table,
    every chunk's [offset] is four bytes (its hash) past the end of the
    chunk before it, and the cursor is left just past the last chunk's
    [packed] bytes. *)
Theorem Datablock_init_layout (r r' : stream) (D : Datablock.t) :
  0 <= pos r ->
  Datablock.init r = py.ok (D, r') ->
  let data := pos r + 11 + 8 * Z.of_nat (length (Datablock.chunks D)) in
  Z.of_nat (length (Datablock.chunks D))
  = le_uint (take 4 (drop (Z.to_nat (pos r + 7)) (buf r)))
  /\ chunk_offsets_from data (Datablock.chunks D)
  /\ r' = Stream (buf r) (chunks_end data (Datablock.chunks D)) (in_memory r).
Proof.
  intros Hp H.
  apply Datablock_init_inv in H
    as (cs & Hrel & _ & _ & _ & _ & Hlen & _ & Hoff & Hr' & _); [|assumption].
  destruct (Forall2_chunk_maps _ _ Hrel) as (_ & _ & _ & _ & Hl).
  cbv zeta. rewrite Hl. split; [|split; assumption].
  rewrite Hlen. apply Z2Nat.id. apply le_uint_nonneg.
Qed.

Lemma Datablock_init_layout_witness :
  let D := samples.two_chunks in
  let data := 0 + 11 + 8 * Z.of_nat (length (Datablock.chunks D)) in
  Z.of_nat (length (Datablock.chunks D))
  = le_uint (take 4 (drop (Z.to_nat (0 + 7)) (buf samples.datablock_two_chunks)))
  /\ chunk_offsets_from data (Datablock.chunks D)
  /\ Stream (buf samples.datablock_two_chunks) 47 false
     = Stream (buf samples.datablock_two_chunks)
         (chunks_end data (Datablock.chunks D)) false.
Proof.
  apply (Datablock_init_layout samples.datablock_two_chunks
           (Stream (buf samples.datablock_two_chunks) 47 false)).
  - simpl. lia.
  - vm_compute. reflexivity.
Defined.

(** ** forge: raw chunks, and the outcomes of [File.__init__] *)

Section raw_chunks.
Context {zstd : ZstdDecompressor}.

Lemma write_chunks_raw (chunks : list Chunk.t) (result r : stream) :
  Forall (fun c => Chunk.ispacked c = false
                   /\ 0 <= Chunk.offset c /\ 0 <= Chunk.packed c) chunks ->
  exists r',
    write_chunks chunks result r
    = py.ok (Stream (buf result ++ concat (map (chunk_payload (buf r)) chunks))
               (pos result
                + Z.of_nat (length (concat (map (chunk_payload (buf r)) chunks))))
               (in_memory result), r')
    /\ buf r' = buf r.
Proof.
  revert result r. induction chunks as [|c chunks IH]; intros result r Hall.
  - exists r. simpl. rewrite app_nil_r, Z.add_0_r. destruct result.
    split; reflexivity.
  - apply Forall_cons in Hall as [(Hraw & Hoff & Hpk) Hall].
    rewrite write_chunks_cons.
    rewrite (bind_step _ _ _ _ _ (seek_ok r _ Hoff)).
    unfold pyio.bind at 1. unfold read at 1. cbn [pos buf in_memory].
    destruct (Chunk.packed c <? 0) eqn:E; [apply Z.ltb_lt in E; lia|].
    cbn beta iota. rewrite Hraw. cbn [negb].
    unfold pyio.bind at 1. unfold ret at 1. cbn beta iota.
    unfold pyio.bind at 1. unfold lift at 1, write at 1. cbn [snd py.ok].
    cbn beta iota.
    match goal with |- context [write_chunks chunks ?res ?rr] =>
      destruct (IH res rr Hall) as (r' & Hrun & Hbuf) end.
    cbn [buf pos in_memory] in Hrun, Hbuf.
    exists r'. split; [|exact Hbuf].
    rewrite Hrun. unfold py.ok. cbn [map concat]. unfold chunk_payload at 3 5.
    rewrite <- app_assoc. do 3 f_equal.
    rewrite (length_app (take _ _)). lia.
Qed.

(** X8 ([getdatastream], [Datablock.getstream]).  Chunks that are not
    flagged packed never reach the decompressor: whatever it is, the
    stream returned is the concatenation of the stored bytes of the
    chunks, rewound to position 0.  Bytes missing at the end of the
    archive are not an error; the chunk is silently shorter. *)
Theorem getstream_raw_chunks (D : Datablock.t) (r : stream) :
  Forall (fun c => Chunk.ispacked c = false
                   /\ 0 <= Chunk.offset c /\ 0 <= Chunk.packed c)
    (Datablock.chunks D) ->
  exists r',
    getstream D r
    = py.ok (BytesIO (concat (map (chunk_payload (buf r)) (Datablock.chunks D))), r')
    /\ buf r' = buf r.
Proof.
  intros Hall.
  destruct (write_chunks_raw (Datablock.chunks D) (BytesIO []) r Hall)
    as (r' & Hrun & Hbuf).
  exists r'. split; [|exact Hbuf].
  unfold getstream, getdatastream.
  rewrite (bind_step _ _ _ _ _ Hrun). reflexivity.
Qed.

End raw_chunks.

Lemma getstream_raw_chunks_witness :
  exists r',
    getstream (zstd := samples.toy_zstd)
      (Datablock.Build 0 [Chunk.Build 8 8 0xBBBB 39 false] 8 8 false)
      samples.datablock_two_chunks
    = py.ok (BytesIO (concat (map (chunk_payload (buf samples.datablock_two_chunks))
                                [Chunk.Build 8 8 0xBBBB 39 false])), r')
    /\ buf r' = buf samples.datablock_two_chunks.
Proof.
  apply (getstream_raw_chunks
           (Datablock.Build 0 [Chunk.Build 8 8 0xBBBB 39 false] 8 8 false)).
  constructor; [|constructor]. simpl. repeat split; lia.
Defined.




(** X10 ([File.__init__]).  An entry that does not begin with the
    four bytes of 0x1014FA99 never yields a [File]: the assertion fails,
    or, when fewer than four bytes are left, [struct] refuses the short
    read. *)
Theorem File_init_not_a_file_container (entry : Entry.t) (r : stream) :
  0 <= pos r ->
  le_uint (take 4 (drop (Z.to_nat (pos r)) (buf r))) <> 0x1014FA99 ->
  File.init entry r
  = py.raise (if pos r + 4 <=? size r then py.AssertionError else py.StructError).
Proof.
  intros Hp Hne. unfold File.init.
  destruct (pos r + 4 <=? size r) eqn:E.
  - apply Z.leb_le in E.
    rewrite (bind_step _ _ _ _ _ (ruint_in_bounds 4 r ltac:(lia) Hp E)).
    apply Z.eqb_neq in Hne. change (Z.to_nat 4) with 4%nat. rewrite Hne.
    reflexivity.
  - apply Z.leb_gt in E.
    apply bind_raise. apply (ruint_short 4); [lia|assumption|lia].
Qed.

Lemma File_init_not_a_file_container_witness :
  File.init samples.entry_32 (pyio.open (samples.u32 6))
  = py.raise py.AssertionError.
Proof.
  apply (File_init_not_a_file_container samples.entry_32 (pyio.open (samples.u32 6))).
  - simpl. lia.
  - vm_compute. discriminate.
Defined.

(** ** forge: the tables of an archive *)

Lemma repeat_n_Forall {A} (P : A -> Prop) (n : nat) (f : io A)
    (r r' : stream) (xs : list A) :
  (forall r0 x r1, f r0 = py.ok (x, r1) -> P x) ->
  repeat_n n f r = py.ok (xs, r') -> Forall P xs.
Proof.
  intros Hf. revert r r' xs. induction n as [|n IH]; intros r r' xs H; simpl in H.
  - apply ret_ok in H. injection H as -> _. constructor.
  - apply bind_ok in H as (x & r1 & Hx & H).
    apply bind_ok in H as (rest & r2 & Hrest & H).
    apply ret_ok in H. injection H as -> _.
    constructor; [eapply Hf; exact Hx|eapply IH; exact Hrest].
Qed.

(** X11 ([Forge.parse], [Entry.__init__]).  A parsed archive has as
    many entries and as many name records as its header field
    [num_entries] says, and every entry's [end] is its [offset] plus its
    [size]. *)
Theorem Forge_parse_tables (r r' : stream) (F : Forge.t) :
  Forge.parse r = py.ok (F, r') ->
  length (Forge.entries F) = Z.to_nat (Forge.num_entries F)
  /\ length (Forge.names F) = Z.to_nat (Forge.num_entries F)
  /\ Forall (fun e => Entry.end_ e = Entry.offset e + Entry.size e)
       (Forge.entries F).
Proof.
  intros H. unfold Forge.parse in H. io_inv H.
  match goal with E : (F, r') = _ |- _ => injection E as -> _ end.
  cbn [Forge.entries Forge.names Forge.num_entries].
  repeat match goal with
         | E : times _ _ _ = py.ok _ |- _ => unfold times in E
         end.
  split; [|split].
  - match goal with E : repeat_n _ Entry.init _ = _ |- _ =>
      exact (repeat_n_length _ _ _ _ _ E) end.
  - match goal with E : repeat_n _ NameEntry.init _ = _ |- _ =>
      exact (repeat_n_length _ _ _ _ _ E) end.
  - match goal with E : repeat_n _ Entry.init _ = _ |- _ =>
      refine (repeat_n_Forall _ _ _ _ _ _ _ E) end.
    intros ra e rb He. unfold Entry.init in He. io_inv He.
    match goal with E : (e, rb) = _ |- _ => injection E as -> _ end. reflexivity.
Qed.

Lemma Forge_parse_tables_witness :
  exists F r',
    Forge.parse (pyio.open (samples.forge_bytes [(1, 7); (5, 9)])) = py.ok (F, r')
    /\ length (Forge.entries F) = Z.to_nat (Forge.num_entries F)
    /\ length (Forge.names F) = Z.to_nat (Forge.num_entries F)
    /\ Forall (fun e => Entry.end_ e = Entry.offset e + Entry.size e)
         (Forge.entries F).
Proof.
  eexists _, _.
  refine ((fun H => conj H (Forge_parse_tables _ _ _ H)) _).
  vm_compute. reflexivity.
Defined.

(** X12 ([Forge.parse]).  A stream whose next nine bytes are not
    [b"scimitar\x00"] is refused with an [AssertionError]; a stream with
    fewer than nine bytes left is refused the same way, since the short
    read differs from the format id. *)
Theorem Forge_parse_wrong_format (r : stream) :
  0 <= pos r ->
  take 9 (drop (Z.to_nat (pos r)) (buf r)) <> Forge.FORMATID ->
  Forge.parse r = py.raise py.AssertionError.
Proof.
  intros Hp Hne. unfold Forge.parse.
  rewrite (bind_step _ _ _ _ _ (read_field 9 r ltac:(lia) Hp)).
  change (Z.to_nat 9) with 9%nat.
  rewrite bool_decide_eq_false_2 by exact Hne. reflexivity.
Qed.

Lemma Forge_parse_wrong_format_witness :
  Forge.parse (pyio.open (samples.u32 6)) = py.raise py.AssertionError.
Proof.
  apply Forge_parse_wrong_format.
  - simpl. lia.
  - vm_compute. discriminate.
Defined.

(** ** forge: the records of a dependency graph *)

Lemma take_drop_take {A} (a b c : nat) (l : list A) :
  (a + b <= c)%nat -> take a (drop b (take c l)) = take a (drop b l).
Proof.
  intros H. rewrite skipn_firstn_comm, take_take. f_equal. lia.
Qed.

Lemma record_field (a b : nat) (p : Z) (l : py.bytes) :
  (a + b <= 24)%nat -> 0 <= p ->
  take a (drop (Z.to_nat (p + Z.of_nat b)) l)
  = take a (drop b (take 24 (drop (Z.to_nat p) l))).
Proof.
  intros H Hp. rewrite take_drop_take by exact H. rewrite drop_drop.
  do 2 f_equal. lia.
Qed.

(** One in-bounds field read at the head of a sequence of statements. *)
Ltac step_uint w :=
  erewrite bind_step;
  [|apply (ruint_in_bounds w); [lia|simpl; lia|unfold size; simpl; lia]].
Ltac step_int w :=
  erewrite bind_step;
  [|apply (rint_in_bounds w); [lia|simpl; lia|unfold size; simpl; lia]].

Lemma Link_parse_in_bounds (r : stream) :
  0 <= pos r -> pos r + 24 <= size r ->
  Link.parse r
  = py.ok (Link.of_record (take 24 (drop (Z.to_nat (pos r)) (buf r))),
           Stream (buf r) (pos r + 24) (in_memory r)).
Proof.
  intros Hp Hfit. unfold Link.parse. unfold size in Hfit.
  step_uint 8. step_uint 8. step_int 4. step_uint 2. step_uint 1. step_uint 1.
  cbn [buf pos in_memory]. unfold ret, py.ok, Link.of_record.
  change (Z.to_nat 8) with 8%nat. change (Z.to_nat 4) with 4%nat.
  change (Z.to_nat 2) with 2%nat. change (Z.to_nat 1) with 1%nat.
  set (p := pos r) in *. set (l := buf r).
  rewrite <- (record_field 8 8 p l), <- (record_field 4 16 p l),
    <- (record_field 2 20 p l), <- (record_field 1 22 p l),
    <- (record_field 1 23 p l) by lia.
  rewrite take_take. change (8 `min` 24)%nat with 8%nat.
  do 2 f_equal; [|f_equal; lia].
  f_equal; do 2 f_equal; f_equal; f_equal; lia.
Qed.

Lemma Link_parse_short (r : stream) :
  0 <= pos r -> size r < pos r + 24 ->
  Link.parse r = py.raise py.StructError.
Proof.
  intros Hp Hshort. unfold Link.parse. unfold size in Hshort.
  destruct (Z.le_gt_cases (pos r + 8) (size r)) as [H1|H1]; unfold size in H1;
    [step_uint 8|apply bind_raise, (ruint_short 8); unfold size; lia].
  destruct (Z.le_gt_cases (pos r + 16) (size r)) as [H2|H2]; unfold size in H2;
    [step_uint 8|apply bind_raise, (ruint_short 8); unfold size; simpl; lia].
  destruct (Z.le_gt_cases (pos r + 20) (size r)) as [H3|H3]; unfold size in H3;
    [step_int 4|apply bind_raise, (rint_short 4); unfold size; simpl; lia].
  destruct (Z.le_gt_cases (pos r + 22) (size r)) as [H4|H4]; unfold size in H4;
    [step_uint 2|apply bind_raise, (ruint_short 2); unfold size; simpl; lia].
  destruct (Z.le_gt_cases (pos r + 23) (size r)) as [H5|H5]; unfold size in H5;
    [step_uint 1|apply bind_raise, (ruint_short 1); unfold size; simpl; lia].
  apply bind_raise, (ruint_short 1); unfold size; simpl; lia.
Qed.

Lemma records_succ (l : py.bytes) (n : nat) :
  Link.records l (S n) = Link.of_record (take 24 l) :: Link.records (drop 24 l) n.
Proof.
  unfold Link.records. cbn [seq map]. rewrite drop_0. f_equal.
  rewrite <- seq_shift, List.map_map. apply map_ext. intros i.
  rewrite drop_drop. do 3 f_equal. lia.
Qed.

Lemma parse_links_records (n k : nat) (r : stream) :
  0 <= pos r -> pos r + 24 * Z.of_nat n = size r -> (n <= k)%nat ->
  DepGraph.parse_links k (size r) r
  = py.ok (Link.records (drop (Z.to_nat (pos r)) (buf r)) n,
           Stream (buf r) (size r) (in_memory r)).
Proof.
  revert k r. induction n as [|n IH]; intros k r Hp Hn Hk.
  - destruct r as [b p m]. unfold size in *. cbn [buf pos in_memory] in *.
    assert (p = Z.of_nat (length b)) by lia. subst p.
    destruct k as [|k]; simpl; [reflexivity|].
    rewrite (bind_step tell _ _ _ _) by reflexivity. cbn [pos].
    rewrite Z.ltb_irrefl. reflexivity.
  - destruct k as [|k]; [lia|]. cbn [DepGraph.parse_links].
    rewrite (bind_step tell _ r r (pos r)) by reflexivity.
    replace (pos r <? size r) with true by (symmetry; apply Z.ltb_lt; lia).
    erewrite bind_step; [|apply Link_parse_in_bounds; lia].
    specialize (IH k (Stream (buf r) (pos r + 24) (in_memory r))).
    unfold size in IH, Hn |- *. cbn [buf pos in_memory] in IH.
    erewrite bind_step; [|apply IH; lia].
    unfold ret, py.ok. rewrite records_succ, drop_drop.
    do 5 f_equal. lia.
Qed.

Lemma parse_links_partial (n k : nat) (r : stream) :
  0 <= pos r ->
  pos r + 24 * Z.of_nat n < size r < pos r + 24 * (Z.of_nat n + 1) ->
  (n < k)%nat ->
  DepGraph.parse_links k (size r) r = py.raise py.StructError.
Proof.
  revert k r. induction n as [|n IH]; intros k r Hp Hn Hk;
    (destruct k as [|k]; [lia|]); cbn [DepGraph.parse_links];
    rewrite (bind_step tell _ r r (pos r)) by reflexivity;
    (replace (pos r <? size r) with true by (symmetry; apply Z.ltb_lt; lia)).
  - apply bind_raise, Link_parse_short; lia.
  - erewrite bind_step; [|apply Link_parse_in_bounds; lia].
    apply bind_raise.
    specialize (IH k (Stream (buf r) (pos r + 24) (in_memory r))).
    unfold size in IH, Hn |- *. cbn [buf pos in_memory] in IH.
    apply IH; lia.
Qed.

Lemma streamend_ok (r : stream) :
  0 <= pos r -> streamend r = py.ok (size r, r).
Proof.
  intros Hp. unfold streamend.
  rewrite (bind_step tell _ r r (pos r)) by reflexivity.
  unfold pyio.bind at 1. unfold seek_end, seek_rel.
  destruct (size r + 0 <? 0) eqn:E;
    [apply Z.ltb_lt in E; unfold size in E; lia|].
  cbn beta iota.
  unfold pyio.bind at 1. unfold tell at 1. cbn [py.ok pos].
  unfold pyio.bind, seek. cbn [buf pos in_memory].
  destruct (pos r <? 0) eqn:E'; [apply Z.ltb_lt in E'; lia|].
  unfold ret, py.ok. rewrite Z.add_0_r. destruct r. reflexivity.
Qed.

(** X13 ([DepGraph.parse_stream], [Link.parse]).  What
    [parse_stream] does with the bytes from the cursor on: no byte at all
    is a [struct] error; a first byte other than 2 fails the assertion;
    after a 2, data that is a whole number of 24-byte records yields one
    link per record, in order, and leaves the cursor at the end; a
    trailing partial record is a [struct] error, never dropped. *)
Theorem parse_stream_records (r : stream) :
  0 <= pos r ->
  DepGraph.parse_stream r
  = match drop (Z.to_nat (pos r)) (buf r) with
    | [] => py.raise py.StructError
    | version :: data =>
        if bool_decide (version = x02) then
          if (length data mod 24 =? 0)%nat then
            py.ok (Link.records data (length data / 24),
                   Stream (buf r) (size r) (in_memory r))
          else py.raise py.StructError
        else py.raise py.AssertionError
    end.
Proof.
  intros Hp. unfold DepGraph.parse_stream.
  destruct (drop (Z.to_nat (pos r)) (buf r)) as [|version data] eqn:Ed.
  - apply bind_raise, (ruint_short 1); [lia|assumption|].
    apply (f_equal length) in Ed. rewrite length_drop in Ed. simpl in Ed.
    unfold size. lia.
  - assert (Hlen : Z.of_nat (length (buf r)) = pos r + 1 + Z.of_nat (length data)).
    { apply (f_equal length) in Ed. rewrite length_drop in Ed. simpl in Ed. lia. }
    erewrite bind_step;
      [|apply (ruint_in_bounds 1); [lia|assumption|unfold size; lia]].
    change (Z.to_nat 1) with 1%nat. rewrite Ed.
    change (take 1 (version :: data)) with [version]. cbn [le_uint].
    assert (Hd : drop (Z.to_nat (pos r + 1)) (buf r) = data).
    { replace (Z.to_nat (pos r + 1)) with (Z.to_nat (pos r) + 1)%nat by lia.
      rewrite <- drop_drop, Ed. reflexivity. }
    destruct (bool_decide (version = x02)) eqn:Ev.
    + apply bool_decide_eq_true in Ev. subst version.
      change (py.byte_val x02 + 256 * 0 =? 2) with true.
      rewrite (bind_step (pyio.assert true) _ _ _ tt) by reflexivity.
      erewrite bind_step; [|apply streamend_ok; simpl; lia].
      rewrite (bind_step tell _ _ _ _) by reflexivity.
      unfold size at 1 2. cbn [buf pos in_memory].
      pose proof (Nat.div_mod_eq (length data) 24) as Hdm.
      pose proof (Nat.mod_upper_bound (length data) 24 ltac:(lia)) as Hm.
      set (q := (length data / 24)%nat) in *.
      set (m := (length data mod 24)%nat) in *.
      assert (Hturns : DepGraph.turns_left (Z.of_nat (length (buf r))) (pos r + 1)
                       = if (m =? 0)%nat then q else S q).
      { unfold DepGraph.turns_left.
        replace (Z.of_nat (length (buf r)) - (pos r + 1) + 23)
          with (Z.of_nat m + 23 + Z.of_nat q * 24) by lia.
        rewrite Z.div_add by lia.
        destruct (m =? 0)%nat eqn:Em.
        - apply Nat.eqb_eq in Em. rewrite Em. change ((Z.of_nat 0 + 23) / 24) with 0.
          lia.
        - apply Nat.eqb_neq in Em.
          replace ((Z.of_nat m + 23) / 24) with 1; [lia|].
          apply Z.div_unique with (r := Z.of_nat m - 1); lia. }
      rewrite Hturns.
      destruct (m =? 0)%nat eqn:Em.
      * apply Nat.eqb_eq in Em.
        pose proof (parse_links_records q q
                      (Stream (buf r) (pos r + 1) (in_memory r))) as H.
        unfold size in H. cbn [buf pos in_memory] in H.
        rewrite Hd in H. apply H; lia.
      * apply Nat.eqb_neq in Em.
        pose proof (parse_links_partial q (S q)
                      (Stream (buf r) (pos r + 1) (in_memory r))) as H.
        unfold size in H. cbn [buf pos in_memory] in H.
        apply H; lia.
    + apply bool_decide_eq_false in Ev.
      assert (Hv : (py.byte_val version + 256 * 0 =? 2) = false).
      { apply Z.eqb_neq. intros Hv. apply Ev.
        rewrite <- (byte_of_byte_val version 0), Hv. reflexivity. }
      rewrite Hv. reflexivity.
Qed.

Lemma parse_stream_records_witness :
  DepGraph.parse_stream
    (BytesIO (samples.u8 2 ++ samples.link_bytes samples.L1
              ++ samples.link_bytes samples.L2))
  = py.ok ([samples.L1; samples.L2],
           Stream (samples.u8 2 ++ samples.link_bytes samples.L1
                   ++ samples.link_bytes samples.L2) 49 true).
Proof.
  apply (parse_stream_records
           (BytesIO (samples.u8 2 ++ samples.link_bytes samples.L1
                     ++ samples.link_bytes samples.L2))).
  simpl. lia.
Defined.

(** ** mesh: what trimming and filtering keep *)

Lemma trim_scan_removed (n : nat) (l inv : list Z) (i p : Z) :
  trim_scan n l inv i < p <= i -> (i - p) mod 3 = 0 ->
  py.slice l p (p + 3) = inv.
Proof.
  revert i. induction n as [|n IH]; intros i Hp Hmod; simpl in Hp; [lia|].
  destruct (bool_decide (py.slice l i (i + 3) = inv)) eqn:E; [|lia].
  apply bool_decide_eq_true in E.
  destruct (Z.eq_dec p i) as [->|Hne]; [exact E|].
  apply (IH (i - 3)).
  - split; [lia|]. apply Z.mod_divide in Hmod as [q Hq]; lia.
  - replace (i - 3 - p) with (i - p + (-1) * 3) by lia.
    rewrite Z.mod_add by lia. exact Hmod.
Qed.

Lemma triplets_app (q : nat) (l1 l2 : list Z) :
  length l1 = (3 * q)%nat -> triplets (l1 ++ l2) = triplets l1 ++ triplets l2.
Proof.
  revert l1. induction q as [|q IH]; intros l1 Hl.
  - destruct l1; [reflexivity|simpl in Hl; lia].
  - destruct l1 as [|a [|b [|c l1]]]; simpl in Hl; try lia.
    simpl. f_equal. apply IH. lia.
Qed.

Lemma triplets_padding (j : nat) (k : Z) (l : list Z) :
  length l = (3 * j)%nat ->
  (forall t, (t < j)%nat -> take 3 (drop (3 * t) l) = [k; k; k]) ->
  triplets l = replicate j (k, k, k).
Proof.
  revert l. induction j as [|j IH]; intros l Hl Hpad.
  - destruct l; [reflexivity|simpl in Hl; lia].
  - destruct l as [|a [|b [|c l]]]; simpl in Hl; try lia.
    pose proof (Hpad 0%nat ltac:(lia)) as H0. simpl in H0.
    injection H0 as -> -> ->. simpl. f_equal. apply IH; [lia|].
    intros t Ht. specialize (Hpad (S t) ltac:(lia)).
    replace (3 * S t)%nat with (S (S (S (3 * t)))) in Hpad by lia.
    exact Hpad.
Qed.

(** X14 ([Mesh._parse_tris_blocks_]).  Trimming an index buffer
    only ever removes padding: the triangles of the whole buffer are the
    triangles kept, followed by copies of the triplet made of the buffer's
    last index. *)
Theorem trim_island_drops_only_padding (l : list Z) (m : nat) (k : Z) :
  length l = (3 * m)%nat ->
  last l = Some k ->
  exists j, triplets l = trim_island l ++ replicate j (k, k, k).
Proof.
  intros Hl Hlast. unfold trim_island. rewrite Hlast. cbv zeta.
  set (i := Z.of_nat (length l) - 3).
  set (i' := trim_scan (trim_turns l) l [k; k; k] i).
  assert (Hm : (0 < m)%nat) by (destruct l; [discriminate|simpl in Hl; lia]).
  destruct (trim_scan_spec (trim_turns l) l [k; k; k] i eq_refl)
    as ((Hlo & Hhi) & Hmod & _).
  { unfold i. lia. }
  { unfold i. apply trim_turns_enough. }
  fold i' in Hlo, Hhi, Hmod.
  assert (Hq : exists q : nat, i' + 3 = Z.of_nat (3 * q) /\ (q <= m)%nat).
  { apply Z.mod_divide in Hmod as [d Hd]; [|lia].
    exists (Z.to_nat (Z.of_nat m - d)). unfold i in *. rewrite Hl in *. lia. }
  destruct Hq as (q & Hq & Hqm).
  rewrite slice_to_take by lia. rewrite Hq, Nat2Z.id.
  exists (m - q)%nat.
  rewrite <- (take_drop (3 * q) l) at 1.
  rewrite (triplets_app q) by (rewrite length_take; lia).
  f_equal. apply triplets_padding.
  - rewrite length_drop. lia.
  - intros t Ht. rewrite drop_drop.
    rewrite <- (Nat2Z.id (3 * q + 3 * t)).
    rewrite <- slice_triplet by lia.
    apply (trim_scan_removed (trim_turns l) l [k; k; k] i).
    + fold i'. unfold i. lia.
    + unfold i. rewrite Hl.
      replace (Z.of_nat (3 * m) - 3 - Z.of_nat (3 * q + 3 * t))
        with ((Z.of_nat m - 1 - Z.of_nat q - Z.of_nat t) * 3) by lia.
      apply Z.mod_mul. lia.
Qed.

Lemma trim_island_drops_only_padding_witness :
  exists j, triplets samples.indices_padded
            = trim_island samples.indices_padded ++ replicate j (10, 10, 10).
Proof.
  apply (trim_island_drops_only_padding samples.indices_padded 64 10).
  - vm_compute. reflexivity.
  - vm_compute. reflexivity.
Defined.

Lemma filter_from_sublist {A} (i : Z) (lst : list A) (indices : list Z) :
  sublist (filter_from i lst indices) lst.
Proof.
  revert i. induction lst as [|v lst IH]; intros i; simpl; [constructor|].
  destruct (bool_decide (i ∈ indices)).
  - apply sublist_skip, IH.
  - apply sublist_cons, IH.
Qed.

Lemma filter_from_all {A} (i : Z) (lst : list A) (indices : list Z) :
  (forall j, i <= j < i + Z.of_nat (length lst) -> j ∈ indices) ->
  filter_from i lst indices = lst.
Proof.
  revert i. induction lst as [|v lst IH]; intros i Hall; simpl; [reflexivity|].
  rewrite bool_decide_eq_true_2 by (apply Hall; simpl; lia).
  f_equal. apply IH. intros j Hj. apply Hall. simpl. lia.
Qed.

(** X15 ([_filter_by_indices_]).  Whatever the index list holds
    (unsorted, repeated, negative or out of range indices), the result is
    a sublist of the input: entries keep their order and none is
    repeated; and when every position of the list is among the indices
    the list comes back unchanged. *)
Theorem filter_by_indices_sublist {A} (lst : list A) (indices : list Z) :
  sublist (_filter_by_indices_ lst indices) lst
  /\ (length (_filter_by_indices_ lst indices) <= length lst)%nat
  /\ ((forall j, 0 <= j < Z.of_nat (length lst) -> j ∈ indices) ->
      _filter_by_indices_ lst indices = lst).
Proof.
  unfold _filter_by_indices_. split; [apply filter_from_sublist|]. split.
  - apply sublist_length, filter_from_sublist.
  - intros Hall. apply filter_from_all. intros j Hj. apply Hall. lia.
Qed.

(** ** mesh: formats [readmesh] does not know, and the header *)

(** X16 ([Mesh.readmesh]).  A mesh whose revision is not 0, 1 or 2,
    or whose vertex stride is none of those the revision's branch lists,
    is refused with a [ValueError] before any index buffer is read. *)
Theorem readmesh_unknown_format (self : Mesh.t) (r : stream) :
  0 <= Mesh.vertblock_start (Mesh.inf self) ->
  let rev := Mesh.revision (Mesh.inf self) in
  let vl := Mesh.vert_len (Mesh.inf self) in
  (rev = 0 -> vl <> 0x18 /\ vl <> 0x1C) ->
  (rev = 1 \/ rev = 2 ->
   vl <> 0x18 /\ vl <> 0x1C /\ vl <> 0x24 /\ vl <> 0x28 /\ vl <> 0x2C
   /\ vl <> 0x5C) ->
  Mesh.readmesh self r = py.raise py.ValueError.
Proof.
  intros Hstart rev vl H0 H12. unfold Mesh.readmesh.
  rewrite (bind_step _ _ _ _ _ (seek_ok r _ Hstart)).
  assert (Hv : forall r0, Mesh.read_verts self r0 = py.ok ((false, self), r0)).
  { intros r0. unfold Mesh.read_verts. fold rev vl. cbv zeta. fold rev vl.
    destruct (rev =? 0) eqn:E0.
    - apply Z.eqb_eq in E0. destruct (H0 E0) as (Ha & Hb).
      apply Z.eqb_neq in Ha, Hb. rewrite Ha, Hb. reflexivity.
    - destruct ((rev =? 1) || (rev =? 2)) eqn:E12; [|reflexivity].
      assert (Hr : rev = 1 \/ rev = 2).
      { apply orb_true_iff in E12 as [E|E]; apply Z.eqb_eq in E; auto. }
      destruct (H12 Hr) as (Ha & Hb & Hc & Hd & He & Hf).
      apply Z.eqb_neq in Ha, Hb, Hc, Hd, He, Hf.
      rewrite Ha, Hb, Hc, Hd, He, Hf. reflexivity. }
  rewrite (bind_step _ _ _ _ _ (Hv _)). reflexivity.
Qed.

Lemma readmesh_unknown_format_witness :
  Mesh.readmesh
    (Mesh.Build
       (Mesh.Info (common.FileMeta.Build [] 0 0xABEB2DFB 42 0 0)
          0 0x14 3 0x18 0 0 0 0 0 0 0 0 2 1 2 0 0 (py.f32 0) (py.f32 0) 0 0
          116 116 116 116 [] [] [])
       [] [] [] [] [] None None None None None None)
    (pyio.open [])
  = py.raise py.ValueError.
Proof.
  apply readmesh_unknown_format.
  - simpl. lia.
  - simpl. intros H. discriminate H.
  - simpl. intros [H|H]; discriminate H.
Defined.

Lemma read_verts_inf (self self' : Mesh.t) (known : bool) (r r' : stream) :
  Mesh.read_verts self r = py.ok ((known, self'), r') ->
  Mesh.inf self' = Mesh.inf self.
Proof.
  unfold Mesh.read_verts. cbv zeta.
  repeat match goal with
         | |- context [if ?b then _ else _] => destruct b
         end;
    intros H; io_inv H;
    repeat match goal with
           | E : (_, _) = (_, _) |- _ => injection E as E; subst
           | E : pyio.ret _ _ = py.ok _ |- _ => apply ret_ok in E
           | E : pyio.bind _ _ _ = py.ok _ |- _ => io_inv E
           end;
    reflexivity.
Qed.

Lemma readmesh_inf (self self' : Mesh.t) (r r' : stream) :
  Mesh.readmesh self r = py.ok (self', r') -> Mesh.inf self' = Mesh.inf self.
Proof.
  unfold Mesh.readmesh. intros H.
  apply bind_ok in H as ([] & r1 & _ & H).
  apply bind_ok in H as ([known s1] & r2 & Hv & H).
  apply read_verts_inf in Hv.
  apply bind_ok in H as ([] & r3 & _ & H).
  apply bind_ok in H as (s2 & r4 & H2 & H).
  apply bind_ok in H as (s3 & r5 & H3 & H).
  apply bind_ok in H as (s4 & r6 & H4 & H).
  apply bind_ok in H as (s5 & r7 & H5 & H).
  apply ret_ok in H. injection H as -> _.
  assert (E2 : Mesh.inf s2 = Mesh.inf s1).
  { unfold Mesh._parse_tris_blocks_ in H2. io_inv H2.
    match goal with E : (s2, _) = _ |- _ => injection E as -> _ end. reflexivity. }
  assert (E3 : Mesh.inf s3 = Mesh.inf s2).
  { destruct (negb _) in H3.
    - unfold Mesh._parse_vertmaps_ in H3. io_inv H3.
      match goal with E : (s3, _) = _ |- _ => injection E as -> _ end. reflexivity.
    - apply ret_ok in H3. injection H3 as -> _. reflexivity. }
  assert (E4 : Mesh.inf s4 = Mesh.inf s3).
  { destruct (negb _) in H4.
    - unfold Mesh._parse_trisblock_stat_ in H4. io_inv H4.
      match goal with E : (s4, _) = _ |- _ => injection E as -> _ end. reflexivity.
    - apply ret_ok in H4. injection H4 as -> _. reflexivity. }
  assert (E5 : Mesh.inf s5 = Mesh.inf s4).
  { destruct (negb _) in H5.
    - unfold Mesh._parse_triunknown_ in H5. io_inv H5.
      match goal with E : (s5, _) = _ |- _ => injection E as -> _ end. reflexivity.
    - apply ret_ok in H5. injection H5 as -> _. reflexivity. }
  congruence.
Qed.

(** X17 ([Mesh.__init__]).  Whenever a mesh is built, with or
    without its buffers, its vertex stride is not zero (a zero stride is
    a [ZeroDivisionError]), the vertex count is the vertex block length
    divided by the stride, the block offsets follow one another from the
    end of the header, and the three tail tables have [num_islands *
    num_lods], [num_islands] and [num_islands] records. *)
Theorem Mesh_init_header (do_readmesh : bool) (r r' : stream) (m : Mesh.t) :
  Mesh.init do_readmesh r = py.ok (m, r') ->
  let i := Mesh.inf m in
  Mesh.vert_len i <> 0
  /\ Mesh.num_verts i = Mesh.verts_data_len i / Mesh.vert_len i
  /\ Mesh.trisblock_start i = Mesh.vertblock_start i + Mesh.verts_data_len i
  /\ Mesh.extra_data_start i = Mesh.trisblock_start i + Mesh.tris_data_len i
  /\ Mesh.tail_start i
     = Mesh.extra_data_start i + Mesh.vertmaps_data_len i + Mesh.un2 i
       + Mesh.trisblock_stat_data_len i + Mesh.triunknown_data_len i
  /\ length (Mesh.island_metas i)
     = Z.to_nat (Mesh.num_islands i * Mesh.num_lods i)
  /\ length (Mesh.island_bboxes i) = Z.to_nat (Mesh.num_islands i)
  /\ length (Mesh.island_skin_mapping i) = Z.to_nat (Mesh.num_islands i).
Proof.
  intros H. unfold Mesh.init in H. io_inv H.
  match goal with
  | E : (if ?b then fail _ else ret tt) _ = py.ok _ |- _ =>
      destruct b eqn:Ez; [discriminate E|]
  end.
  apply Z.eqb_neq in Ez.
  repeat match goal with
         | E : times _ _ _ = py.ok _ |- _ =>
             unfold times in E; apply repeat_n_length in E
         end.
  match goal with
  | E : tell _ = py.ok _ |- _ => unfold tell, py.ok in E; injection E as <- <-
  end.
  cbv zeta.
  match type of Hrest with
  | (if _ then Mesh.readmesh ?s else _) _ = _ =>
      assert (Hi : Mesh.inf m = Mesh.inf s)
  end.
  { destruct do_readmesh.
    - apply readmesh_inf in Hrest. exact Hrest.
    - apply ret_ok in Hrest. injection Hrest as -> _. reflexivity. }
  rewrite Hi. cbn. repeat split; try assumption; lia.
Qed.

Lemma Mesh_init_header_witness :
  let i := Mesh.inf (samples.mesh_5C 2) in
  Mesh.vert_len i <> 0
  /\ Mesh.num_verts i = Mesh.verts_data_len i / Mesh.vert_len i
  /\ Mesh.trisblock_start i = Mesh.vertblock_start i + Mesh.verts_data_len i
  /\ Mesh.extra_data_start i = Mesh.trisblock_start i + Mesh.tris_data_len i
  /\ Mesh.tail_start i
     = Mesh.extra_data_start i + Mesh.vertmaps_data_len i + Mesh.un2 i
       + Mesh.trisblock_stat_data_len i + Mesh.triunknown_data_len i
  /\ length (Mesh.island_metas i)
     = Z.to_nat (Mesh.num_islands i * Mesh.num_lods i)
  /\ length (Mesh.island_bboxes i) = Z.to_nat (Mesh.num_islands i)
  /\ length (Mesh.island_skin_mapping i) = Z.to_nat (Mesh.num_islands i).
Proof.
  eapply (Mesh_init_header false (BytesIO (samples.mesh_5C_bytes 2))).
  vm_compute. reflexivity.
Defined.

(** ** forge: queries and merging of a dependency graph *)

(** X18 ([DepGraph.are_linked], [children_uids], [parents_uids]).
    The three queries agree: [src] and [dst] are linked exactly when [dst]
    is among the children of [src], exactly when [src] is among the
    parents of [dst], exactly when some link of the graph goes from [src]
    to [dst]. *)
Theorem are_linked_children_parents (g : DepGraph.t) (src dst : Z) :
  (DepGraph.are_linked g src dst = true
   <-> exists link, link ∈ DepGraph.links g
                    /\ Link.src link = src /\ Link.dst link = dst)
  /\ (DepGraph.are_linked g src dst = true <-> dst ∈ DepGraph.children_uids g src)
  /\ (DepGraph.are_linked g src dst = true <-> src ∈ DepGraph.parents_uids g dst).
Proof.
  assert (H1 : DepGraph.are_linked g src dst = true
               <-> exists link, link ∈ DepGraph.links g
                                /\ Link.src link = src /\ Link.dst link = dst).
  { unfold DepGraph.are_linked. rewrite existsb_exists. split.
    - intros (l & Hin & Hl). apply andb_true_iff in Hl as [Hs Hd].
      apply Z.eqb_eq in Hs, Hd. exists l. rewrite list_elem_of_In. auto.
    - intros (l & Hin & Hs & Hd). exists l. rewrite <- list_elem_of_In.
      split; [exact Hin|]. apply andb_true_iff. split; apply Z.eqb_eq; assumption. }
  split; [exact H1|]. split; rewrite H1.
  - unfold DepGraph.children_uids. rewrite list_elem_of_fmap. split.
    + intros (l & Hin & Hs & Hd). exists l. split; [auto|].
      apply list_elem_of_filter. auto.
    + intros (l & Hd & Hin). apply list_elem_of_filter in Hin as [Hs Hin].
      exists l. auto.
  - unfold DepGraph.parents_uids. rewrite list_elem_of_fmap. split.
    + intros (l & Hin & Hs & Hd). exists l. split; [auto|].
      apply list_elem_of_filter. auto.
    + intros (l & Hs & Hin). apply list_elem_of_filter in Hin as [Hd Hin].
      exists l. auto.
Qed.

Section merge_facts.
Context {zstd : ZstdDecompressor}.

(** X19 ([DepGraph.parse]).  Called on the class, [parse] keeps the
    links of the file as they were read, repeated records included;
    called on an instance it returns a graph without repeated links whose
    links are those of the instance and those of the file. *)
Theorem parse_class_and_instance (g : DepGraph.t) (input : py.bytes)
    (new_links : list Link.t) :
  DepGraph.read_links input = py.ok new_links ->
  DepGraph.parse_class input = py.ok (DepGraph.Build new_links)
  /\ exists g',
       DepGraph.parse g input = py.ok g'
       /\ NoDup (DepGraph.links g')
       /\ (forall l, l ∈ DepGraph.links g'
                     <-> l ∈ DepGraph.links g \/ l ∈ new_links).
Proof.
  intros H. unfold DepGraph.parse_class, DepGraph.parse. rewrite H. cbn.
  split; [reflexivity|]. eexists. split; [reflexivity|]. cbn. split.
  - unfold list_set. apply NoDup_elements.
  - intros l. unfold list_set. rewrite elem_of_elements, elem_of_list_to_set.
    apply elem_of_app.
Qed.

End merge_facts.

Lemma parse_class_and_instance_witness :
  DepGraph.parse_class (zstd := samples.toy_zstd) samples.depgraph_12
  = py.ok (DepGraph.Build [samples.L1; samples.L2])
  /\ exists g',
       DepGraph.parse (zstd := samples.toy_zstd)
         (DepGraph.Build [samples.L2; samples.L2]) samples.depgraph_12 = py.ok g'
       /\ NoDup (DepGraph.links g')
       /\ (forall l, l ∈ DepGraph.links g'
                     <-> l ∈ [samples.L2; samples.L2] \/ l ∈ [samples.L1; samples.L2]).
Proof.
  apply (parse_class_and_instance (zstd := samples.toy_zstd)
           (DepGraph.Build [samples.L2; samples.L2]) samples.depgraph_12).
  vm_compute. reflexivity.
Defined.

(** ** common, tex: headers *)

Lemma ruint_outcome (w : Z) (r : stream) :
  (exists v r', (let* b := read w in lift (upk_uint w b)) r = py.ok (v, r'))
  \/ (let* b := read w in lift (upk_uint w b)) r = py.raise py.StructError.
Proof.
  unfold pyio.bind, read, lift, upk_uint. cbn.
  destruct (Z.of_nat (length _) =? w); [left; eauto|right; reflexivity].
Qed.

(** X20 ([FileMeta.parse]).  Although the second magic is checked
    with [assert], no [AssertionError] ever leaves [FileMeta.parse]: the
    only exceptions are the [struct] error of a short read and the
    [ValueError] raised while the assertion message is formatted. *)
Theorem FileMeta_parse_errors (r : stream) (e : py.exn) :
  common.FileMeta.parse r = py.raise e ->
  e = py.StructError \/ e = py.ValueError.
Proof.
  unfold common.FileMeta.parse. intros H.
  repeat match type of H with
         | pyio.bind ruint32 _ ?s = _ =>
             let Hv := fresh "Hv" in
             destruct (ruint_outcome 4 s) as [(? & ? & Hv)|Hv];
             [rewrite (bind_step _ _ _ _ _ Hv) in H
             |rewrite (bind_raise _ _ _ _ Hv) in H;
              injection H as <-; left; reflexivity]
         | pyio.bind ruint64 _ ?s = _ =>
             let Hv := fresh "Hv" in
             destruct (ruint_outcome 8 s) as [(? & ? & Hv)|Hv];
             [rewrite (bind_step _ _ _ _ _ Hv) in H
             |rewrite (bind_raise _ _ _ _ Hv) in H;
              injection H as <-; left; reflexivity]
         | pyio.bind (read ?w) _ ?s = _ =>
             rewrite (bind_step (read w) _ s _ _ eq_refl) in H
         | pyio.bind (if ?b then _ else _) _ ?s = _ =>
             destruct b;
             [rewrite (bind_step (ret tt) _ s _ _ eq_refl) in H
             |rewrite (bind_raise (fail py.ValueError) _ s _ eq_refl) in H;
              injection H as <-; right; reflexivity]
         end.
  discriminate H.
Qed.

Lemma FileMeta_parse_errors_witness :
  py.ValueError = py.StructError \/ py.ValueError = py.ValueError.
Proof.
  apply (FileMeta_parse_errors
           (BytesIO (samples.u32 0 ++ samples.u32 0 ++ samples.u32 1
                     ++ samples.u64 42 ++ samples.u32 2))).
  vm_compute. reflexivity.
Defined.

Lemma FileMeta_parse_stream (r r' : stream) (h : common.FileMeta.t) :
  0 <= pos r -> common.FileMeta.parse r = py.ok (h, r') ->
  buf r' = buf r /\ in_memory r' = in_memory r
  /\ pos r' = pos r + 32 + Z.of_nat (length (common.FileMeta.encoded_meta h))
  /\ pos r' <= size r.
Proof.
  intros Hp H. unfold common.FileMeta.parse in H.
  apply bind_ok in H as (ml & r1 & Hml & H).
  pose proof (ruint32_nonneg _ _ _ Hml) as Hml0.
  apply (ruint_inv 4) in Hml as (-> & _ & _); [|lia|assumption].
  apply bind_ok in H as (em & r2 & Hem & H).
  rewrite read_field in Hem by (simpl; lia).
  unfold py.ok in Hem. injection Hem as <- <-.
  cbn [buf pos in_memory] in H.
  set (em := take (Z.to_nat ml) (drop (Z.to_nat (pos r + 4)) (buf r))) in *.
  assert (Hlen : Z.of_nat (length em)
                 = Z.min ml (Z.max 0 (size (Stream (buf r) (pos r + 4) (in_memory r))
                                      - (pos r + 4)))).
  { unfold em, size. cbn [buf]. rewrite length_take, length_drop. lia. }
  rewrite <- Hlen in H. clearbody em.
  apply bind_ok in H as (v1 & r3 & H1 & H).
  apply (ruint_inv 4) in H1 as (-> & _ & _); [|lia|simpl; lia].
  apply bind_ok in H as (mg & r4 & H2 & H).
  apply (ruint_inv 4) in H2 as (-> & _ & _); [|lia|simpl; lia].
  apply bind_ok in H as (uid & r5 & H3 & H).
  apply (ruint_inv 8) in H3 as (-> & _ & _); [|lia|simpl; lia].
  apply bind_ok in H as (mg2 & r6 & H4 & H).
  apply (ruint_inv 4) in H4 as (-> & _ & _); [|lia|simpl; lia].
  apply bind_ok in H as ([] & r7 & H5 & H).
  destruct (mg =? mg2); [|discriminate H5].
  apply ret_ok in H5. injection H5 as ->.
  apply bind_ok in H as (v2 & r8 & H6 & H).
  apply (ruint_inv 4) in H6 as (-> & _ & _); [|lia|simpl; lia].
  apply bind_ok in H as (v3 & r9 & H7 & H).
  apply (ruint_inv 4) in H7 as (-> & Hfit & _); [|lia|simpl; lia].
  apply ret_ok in H. injection H as -> ->.
  cbn [buf pos in_memory common.FileMeta.encoded_meta] in *.
  unfold size in *. cbn [buf] in *. repeat split; lia.
Qed.

(** X21 ([Tex.__init__]).  Whenever a texture is built, the payload
    starts 0x34 bytes after the payload header, [end] is 0x29 bytes before
    the end of the stream whatever the header says, [texsize] is their
    difference (nothing keeps it from being negative), and the cursor is
    left at the start of the payload with the content untouched. *)
Theorem Tex_init_layout (r r' : stream) (t : Tex.t) :
  0 <= pos r ->
  Tex.init r = py.ok (t, r') ->
  Tex.data_start t
  = pos r + 36 + Z.of_nat (length (common.FileMeta.encoded_meta (Tex.header t)))
  /\ Tex.start t = Tex.data_start t + 0x34
  /\ Tex.end_ t = size r - 0x29
  /\ Tex.texsize t = Tex.end_ t - Tex.start t
  /\ Tex.start t <= size r
  /\ r' = Stream (buf r) (Tex.start t) (in_memory r).
Proof.
  intros Hp H. unfold Tex.init in H.
  apply bind_ok in H as (hd & r0 & Hhd & H).
  apply FileMeta_parse_stream in Hhd as (Hb0 & Hm0 & Hp0 & _); [|assumption].
  destruct r0 as [b0 p0 m0]. cbn [buf pos in_memory] in Hb0, Hm0, Hp0. subst b0 m0.
  assert (Hp0' : 0 <= p0) by lia.
  apply bind_ok in H as (mg & r1 & Hmg & H).
  apply (ruint_inv 4) in Hmg as (-> & _ & _); [|lia|simpl; lia].
  apply bind_ok in H as ([] & r2 & Ha & H).
  apply assert_ok in Ha as [_ [= ->]].
  apply bind_ok in H as (ds & r3 & Hds & H).
  unfold tell, py.ok in Hds. injection Hds as <- <-.
  cbn [buf pos in_memory] in H.
  do 11 (apply bind_ok in H as (? & ? & Hf & H);
         apply (ruint_inv 4) in Hf as (-> & _ & _); [|lia|simpl; lia];
         cbn [buf pos in_memory] in H).
  apply bind_ok in H as (? & ? & Hf & H).
  apply (ruint_inv 1) in Hf as (-> & _ & _); [|lia|simpl; lia].
  cbn [buf pos in_memory] in H.
  apply bind_ok in H as (? & ? & Hf & H).
  apply (ruint_inv 2) in Hf as (-> & _ & _); [|lia|simpl; lia].
  cbn [buf pos in_memory] in H.
  apply bind_ok in H as (? & ? & Hf & H).
  apply (ruint_inv 1) in Hf as (-> & _ & _); [|lia|simpl; lia].
  cbn [buf pos in_memory] in H.
  apply bind_ok in H as (? & ? & Hf & H).
  apply (ruint_inv 4) in Hf as (-> & Hfit & _); [|lia|simpl; lia].
  cbn [buf pos in_memory] in H, Hfit. unfold size in Hfit. cbn [buf] in Hfit.
  apply bind_ok in H as (st & r4 & Hst & H).
  unfold tell, py.ok in Hst. injection Hst as <- <-.
  cbn [buf pos in_memory] in H.
  apply bind_ok in H as ([] & r5 & Hse & H).
  unfold seek_end, seek_rel, size in Hse. cbn [buf pos in_memory] in Hse.
  match type of Hse with
  | (if ?c then _ else _) = _ => destruct c eqn:Esz
  end.
  - (* fewer than 0x29 bytes cannot hold the 0x34-byte payload header *)
    apply Z.ltb_lt in Esz. lia.
  - apply Z.ltb_ge in Esz. unfold py.ok in Hse. injection Hse as <-.
    apply bind_ok in H as (en & r6 & Hen & H).
    unfold tell, py.ok in Hen. injection Hen as <- <-.
    cbn [buf pos in_memory] in H.
    do 10 (apply bind_ok in H as (? & ? & Hf & H);
           apply (ruint_inv 4) in Hf as (-> & _ & _); [|lia|simpl; lia];
           cbn [buf pos in_memory] in H).
    apply bind_ok in H as (? & ? & Hf & H).
    apply (ruint_inv 1) in Hf as (-> & _ & _); [|lia|simpl; lia].
    cbn [buf pos in_memory] in H.
    apply bind_ok in H as ([] & r7 & Hsk & H).
    unfold seek in Hsk. cbn [buf pos in_memory] in Hsk.
    match type of Hsk with
    | (if ?c then _ else _) = _ => destruct c eqn:Ec; [discriminate Hsk|]
    end.
    unfold py.ok in Hsk. injection Hsk as <-.
    apply ret_ok in H. injection H as -> ->.
    cbn [Tex.data_start Tex.start Tex.end_ Tex.texsize Tex.header].
    unfold size. repeat split; lia.
Qed.

Lemma Tex_init_layout_witness :
  exists t r',
    Tex.init samples.texture = py.ok (t, r')
    /\ Tex.data_start t
       = pos samples.texture + 36
         + Z.of_nat (length (common.FileMeta.encoded_meta (Tex.header t)))
    /\ Tex.start t = Tex.data_start t + 0x34
    /\ Tex.end_ t = size samples.texture - 0x29
    /\ Tex.texsize t = Tex.end_ t - Tex.start t
    /\ Tex.start t <= size samples.texture
    /\ r' = Stream (buf samples.texture) (Tex.start t) (in_memory samples.texture).
Proof.
  eexists _, _.
  refine ((fun H => conj H (Tex_init_layout _ _ _ _ H)) _).
  - simpl. lia.
  - vm_compute. reflexivity.
Defined.

Example Tex_init_overlapping_trailer :
  exists t r',
    Tex.init samples.texture_header_only = py.ok (t, r')
    /\ Tex.texsize t = -41.
Proof. eexists _, _. split; [vm_compute; reflexivity|reflexivity]. Qed.

(** ** collector: what the resolver gathers and loads *)

Section resolver_facts.
Import SiegeLinksData.
Context {zstd : ZstdDecompressor}.

Lemma scan_entries_covers (fname : string) (i : Z)
    (ens : list (Entry.t * NameEntry.t)) (acc : list Z * gmap Z index_entry) :
  (forall u, u ∈ acc.1 -> is_Some (acc.2 !! u)) ->
  forall u, u ∈ (scan_entries fname i ens acc).1 ->
            is_Some ((scan_entries fname i ens acc).2 !! u).
Proof.
  revert i acc. induction ens as [|[e n] ens IH]; intros i [uids idx] Hacc;
    [exact Hacc|].
  cbn [scan_entries]. apply IH. cbn [fst snd] in *. intros u Hu.
  destruct (decide (u = Entry.uid e)) as [->|Hne].
  - rewrite lookup_insert_eq. eauto.
  - rewrite lookup_insert_ne by congruence. apply Hacc.
    destruct (NameEntry.file_type n =? ASSET_MAGIC); [|exact Hu].
    apply elem_of_app in Hu as [Hu|Hu]; [exact Hu|].
    apply list_elem_of_singleton in Hu. contradiction.
Qed.

Lemma scan_forges_covers (files : list (string * py.bytes))
    (acc res : list Z * gmap Z index_entry) :
  (forall u, u ∈ acc.1 -> is_Some (acc.2 !! u)) ->
  scan_forges files acc = py.ok res ->
  forall u, u ∈ res.1 -> is_Some (res.2 !! u).
Proof.
  revert acc. induction files as [|[fname content] files IH]; intros acc Hacc H.
  - simpl in H. injection H as <-. exact Hacc.
  - cbn [scan_forges] in H. unfold py.bind in H at 1.
    destruct (forge.parse content) as [e|f]; [discriminate H|].
    eapply IH; [|exact H]. apply scan_entries_covers, Hacc.
Qed.

(** X22 ([SiegeLinksData.generate]).  After [generate], every asset
    uid is a key of the uid index, and the graph kept in [asset_children]
    holds exactly the links of [all_links] whose source is an asset uid,
    in their order. *)
Theorem generate_assets_indexed (self self' : t) (fs fs' : filesystem) :
  generate self fs = py.ok (self', fs') ->
  exists uids index all children,
    asset_uids self' = Some (obj_uids uids)
    /\ uids_index self' = Some (obj_index index)
    /\ all_links self' = Some (obj_depgraph all)
    /\ asset_children self' = Some (obj_depgraph children)
    /\ (forall u, u ∈ uids -> is_Some (index !! u))
    /\ (forall l, l ∈ DepGraph.links children
                  <-> l ∈ DepGraph.links all /\ Link.src l ∈ uids)
    /\ sublist (DepGraph.links children) (DepGraph.links all).
Proof.
  intros H. apply generate_ok in H
    as (uids & index & all & cache & Hscan & _ & -> & _).
  exists uids, index, all, (DepGraph.Build (filter_links uids (DepGraph.links all))).
  cbn [asset_uids uids_index all_links asset_children DepGraph.links].
  repeat split; try reflexivity.
  - refine (scan_forges_covers _ ([], ∅) (uids, index) _ Hscan).
    intros u Hu. apply elem_of_nil in Hu. contradiction.
  - apply list_elem_of_filter in H. tauto.
  - apply list_elem_of_filter in H. tauto.
  - intros [? ?]. apply list_elem_of_filter. tauto.
  - apply sublist_filter.
Qed.


(** The four cache files. *)
Lemma load_files_ok (self : t) (fs : filesystem) (c : gmap string pyobj)
    (a b d e : pyobj) :
  cdir fs = Some c ->
  c !! _ASSET_UIDS_CACHE = Some a -> c !! _ALL_LINKS_CACHE = Some b ->
  c !! _ASSET_CHILDREN = Some d -> c !! _UIDS_INDEX = Some e ->
  load self fs = py.ok (Build (Some b) (Some d) (Some a) (Some e)).
Proof.
  intros Hc Ha Hb Hd He. unfold load, load_file. rewrite Hc, Ha, Hb, Hd, He.
  reflexivity.
Qed.

(** X23 ([SiegeLinksData.load], [reload], [__init__]).  [load]
    succeeds exactly when the cache directory exists and holds all four
    cache files, and then returns what they hold; otherwise it raises
    [FileNotFoundError].  The constructor never builds a cache: without a
    cache directory it returns the object with its four attributes unset,
    with one it does what [load] does. *)
Theorem load_needs_whole_cache (self : t) (fs : filesystem) :
  let names := [_ASSET_UIDS_CACHE; _ALL_LINKS_CACHE; _ASSET_CHILDREN; _UIDS_INDEX] in
  match cdir fs with
  | None =>
      load self fs = py.raise py.FileNotFoundError
      /\ new true fs = py.ok init
  | Some c =>
      new true fs = load init fs
      /\ if bool_decide (Forall (fun n => is_Some (c !! n)) names) then
           load self fs
           = py.ok (Build (c !! _ALL_LINKS_CACHE) (c !! _ASSET_CHILDREN)
                      (c !! _ASSET_UIDS_CACHE) (c !! _UIDS_INDEX))
         else load self fs = py.raise py.FileNotFoundError
  end.
Proof.
  cbv zeta. destruct (cdir fs) as [c|] eqn:Hc.
  - split; [unfold new, reload; rewrite Hc; reflexivity|].
    destruct (bool_decide _) eqn:E.
    + apply bool_decide_eq_true in E.
      apply Forall_cons in E as [[a Ha] E]. apply Forall_cons in E as [[b Hb] E].
      apply Forall_cons in E as [[d Hd] E]. apply Forall_cons in E as [[e He] _].
      rewrite Ha, Hb, Hd, He. eapply load_files_ok; eassumption.
    + apply bool_decide_eq_false in E.
      unfold load, load_file. rewrite Hc.
      destruct (c !! _ASSET_UIDS_CACHE) as [a|] eqn:Ha; [|reflexivity].
      destruct (c !! _ALL_LINKS_CACHE) as [b|] eqn:Hb; [|reflexivity].
      destruct (c !! _ASSET_CHILDREN) as [d|] eqn:Hd; [|reflexivity].
      destruct (c !! _UIDS_INDEX) as [e|] eqn:He; [|reflexivity].
      exfalso. apply E.
      repeat (constructor; [eauto|]). constructor.
  - split; [|unfold new, reload; rewrite Hc; reflexivity].
    unfold load, load_file. rewrite Hc. reflexivity.
Qed.

End resolver_facts.

Lemma generate_assets_indexed_witness :
  exists self' fs',
    SiegeLinksData.generate (zstd := samples.toy_zstd) SiegeLinksData.init samples.game_fs = py.ok (self', fs')
    /\ exists uids index all children,
         SiegeLinksData.asset_uids self' = Some (obj_uids uids)
         /\ SiegeLinksData.uids_index self' = Some (obj_index index)
         /\ SiegeLinksData.all_links self' = Some (obj_depgraph all)
         /\ SiegeLinksData.asset_children self' = Some (obj_depgraph children)
         /\ (forall u, u ∈ uids -> is_Some (index !! u))
         /\ (forall l, l ∈ DepGraph.links children
                       <-> l ∈ DepGraph.links all /\ Link.src l ∈ uids)
         /\ sublist (DepGraph.links children) (DepGraph.links all).
Proof.
  destruct game_dir_scan as [index Hscan].
  pose proof game_dir_links as Hlinks.
  destruct (SiegeLinksData.generate (zstd := samples.toy_zstd) SiegeLinksData.init samples.game_fs)
    as [e|[self' fs']] eqn:E.
  { unfold SiegeLinksData.generate in E. rewrite Hscan in E.
    cbn [py.bind] in E. rewrite Hlinks in E. discriminate. }
  exists self', fs'. split; [reflexivity|].
  exact (generate_assets_indexed (zstd := samples.toy_zstd) _ _ _ _ E).
Defined.

(** ** mesh: the buffers of a decoded mesh *)

Lemma times_length {A} (n : Z) (f : io A) (r r' : stream) (xs : list A) :
  times n f r = py.ok (xs, r') -> length xs = Z.to_nat n.
Proof. unfold times. apply repeat_n_length. Qed.

Lemma times_Forall {A} (P : A -> Prop) (n : Z) (f : io A)
    (r r' : stream) (xs : list A) :
  (forall r0 x r1, f r0 = py.ok (x, r1) -> P x) ->
  times n f r = py.ok (xs, r') -> Forall P xs.
Proof. unfold times. apply repeat_n_Forall. Qed.

Lemma read_verts_buffers (self self' : Mesh.t) (r r' : stream) :
  Mesh.verts self = [] -> Mesh.normals self = None -> Mesh.colors self = None ->
  Mesh.read_verts self r = py.ok ((true, self'), r') ->
  let n := Z.to_nat (Mesh.num_verts (Mesh.inf self)) in
  length (Mesh.verts self') = n
  /\ (exists uv, Mesh.uvs self' = Some uv /\ length uv = n)
  /\ (forall l, Mesh.normals self' = Some l -> length l = n)
  /\ (forall cs, Mesh.colors self' = Some cs -> Forall (fun c => length c = n) cs)
  /\ Mesh.islands self' = Mesh.islands self
  /\ Mesh.vertmaps self' = Mesh.vertmaps self
  /\ Mesh.trisblock_stats self' = Mesh.trisblock_stats self.
Proof.
  intros Hv Hn Hc. unfold Mesh.read_verts. cbv zeta.
  repeat match goal with
         | |- context [if ?b then _ else _] => destruct b
         end;
    intros H; io_inv H;
    repeat match goal with
           | E : (_, _) = (_, _) |- _ => injection E as E; subst
           | E : pyio.ret _ _ = py.ok _ |- _ => apply ret_ok in E
           | E : pyio.bind _ _ _ = py.ok _ |- _ => io_inv E
           end;
    try discriminate;
    repeat match goal with
           | E : times _ (times ?n _) _ = py.ok _ |- _ =>
               apply (times_Forall (fun c => length c = Z.to_nat n)) in E;
               [|intros ? ? ?; apply times_length]
           | E : times _ _ _ = py.ok _ |- _ => apply times_length in E
           end;
    cbn [Mesh.verts Mesh.uvs Mesh.normals Mesh.colors Mesh.islands Mesh.vertmaps
         Mesh.trisblock_stats Mesh.set_verts Mesh.set_uvs Mesh.set_normals
         Mesh.set_colors Mesh.set_tangs Mesh.set_binorms Mesh.set_unar1 Mesh.inf].
  all: rewrite ?Hv, ?Hn, ?Hc; cbn [app]; rewrite ?length_map.
  all: repeat split; try assumption; try reflexivity.
  all: try (eexists; split; [reflexivity|rewrite ?length_map; assumption]).
  all: try (intros ? [= <-]; first [assumption|repeat constructor; assumption]).
  all: try (intros ? [=]).
Qed.

Lemma read_islands_length (metas : list IslandDescriptor.t) (r r' : stream)
    (isls : list (list triangle)) :
  Mesh.read_islands metas r = py.ok (isls, r') -> length isls = length metas.
Proof.
  revert r r' isls. induction metas as [|m metas IH]; intros r r' isls H;
    cbn [Mesh.read_islands] in H.
  - apply ret_ok in H. injection H as -> _. reflexivity.
  - apply bind_ok in H as (tri & r1 & _ & H).
    apply bind_ok in H as (more & r2 & Hmore & H).
    apply ret_ok in H. injection H as -> _.
    simpl. f_equal. eapply IH. exact Hmore.
Qed.

(** X24 ([Mesh.__init__], [Mesh.readmesh], [_parse_tris_blocks_],
    [_parse_vertmaps_]).  A mesh that was built with its buffers has one
    position and one uv per vertex, as many normals and as many colours
    in every colour layer when it has them, one island per island
    descriptor, and, when the header announces vertex maps, one map of
    [num_verts] entries per level of detail. *)
Theorem Mesh_init_buffers (r r' : stream) (m : Mesh.t) :
  Mesh.init true r = py.ok (m, r') ->
  let i := Mesh.inf m in
  let n := Z.to_nat (Mesh.num_verts i) in
  length (Mesh.verts m) = n
  /\ (exists uv, Mesh.uvs m = Some uv /\ length uv = n)
  /\ (forall l, Mesh.normals m = Some l -> length l = n)
  /\ (forall cs, Mesh.colors m = Some cs -> Forall (fun c => length c = n) cs)
  /\ length (Mesh.islands m) = length (Mesh.island_metas i)
  /\ (if Mesh.vertmaps_data_len i =? 0 then Mesh.vertmaps m = []
      else length (Mesh.vertmaps m) = Z.to_nat (Mesh.num_lods i)
           /\ Forall (fun vm => length vm = n) (Mesh.vertmaps m)).
Proof.
  intros H. unfold Mesh.init in H. io_inv H.
  match type of Hrest with
  | Mesh.readmesh ?s _ = _ => set (s0 := s) in *
  end.
  pose proof (readmesh_inf _ _ _ _ Hrest) as Hinf.
  unfold Mesh.readmesh in Hrest.
  apply bind_ok in Hrest as ([] & ra & _ & H).
  apply bind_ok in H as ([known s1] & rb & Hv & H).
  apply bind_ok in H as ([] & rc & Hk & H).
  destruct known; [|discriminate Hk]. clear Hk.
  pose proof (read_verts_inf _ _ _ _ _ Hv) as Hinf1.
  apply read_verts_buffers in Hv as (Hlv & Huv & Hln & Hlc & His & Hvm & _);
    [|reflexivity..].
  apply bind_ok in H as (s2 & rd & H2 & H).
  apply bind_ok in H as (s3 & re & H3 & H).
  apply bind_ok in H as (s4 & rf & H4 & H).
  apply bind_ok in H as (s5 & rg & H5 & H).
  apply ret_ok in H. injection H as HH _. subst m.
  assert (E2 : (Mesh.verts s2 = Mesh.verts s1 /\ Mesh.uvs s2 = Mesh.uvs s1
               /\ Mesh.normals s2 = Mesh.normals s1 /\ Mesh.colors s2 = Mesh.colors s1) /\ Mesh.inf s2 = Mesh.inf s1
               /\ length (Mesh.islands s2) = length (Mesh.island_metas (Mesh.inf s1))
               /\ Mesh.vertmaps s2 = []).
  { unfold Mesh._parse_tris_blocks_ in H2. io_inv H2.
    match goal with E : (s2, _) = _ |- _ => injection E as -> _ end.
    match goal with E : Mesh.read_islands _ _ = _ |- _ =>
      apply read_islands_length in E; rename E into Hl end.
    cbn. rewrite His, Hvm. cbn. repeat split. exact Hl. }
  destruct E2 as (B2 & I2 & L2 & V2).
  assert (E3 : (Mesh.verts s3 = Mesh.verts s2 /\ Mesh.uvs s3 = Mesh.uvs s2
               /\ Mesh.normals s3 = Mesh.normals s2 /\ Mesh.colors s3 = Mesh.colors s2) /\ Mesh.inf s3 = Mesh.inf s2
               /\ Mesh.islands s3 = Mesh.islands s2
               /\ (if Mesh.vertmaps_data_len (Mesh.inf s2) =? 0
                   then Mesh.vertmaps s3 = []
                   else length (Mesh.vertmaps s3)
                        = Z.to_nat (Mesh.num_lods (Mesh.inf s2))
                        /\ Forall (fun vm => length vm
                                     = Z.to_nat (Mesh.num_verts (Mesh.inf s2)))
                             (Mesh.vertmaps s3))).
  { destruct (Mesh.vertmaps_data_len (Mesh.inf s2) =? 0); cbn [negb] in H3.
    - apply ret_ok in H3. injection H3 as -> _. repeat split. exact V2.
    - unfold Mesh._parse_vertmaps_ in H3. io_inv H3.
      match goal with E : (s3, _) = _ |- _ => injection E as -> _ end.
      cbn. rewrite V2. cbn. repeat split.
      + match goal with E : times _ (times _ _) _ = _ |- _ =>
          exact (times_length _ _ _ _ _ E) end.
      + match goal with E : times _ (times ?k _) _ = _ |- _ =>
          apply (times_Forall (fun vm => length vm = Z.to_nat k)) in E;
          [exact E|intros ? ? ?; apply times_length] end. }
  destruct E3 as (B3 & I3 & L3 & V3).
  assert (E4 : (Mesh.verts s4 = Mesh.verts s3 /\ Mesh.uvs s4 = Mesh.uvs s3
               /\ Mesh.normals s4 = Mesh.normals s3 /\ Mesh.colors s4 = Mesh.colors s3) /\ Mesh.inf s4 = Mesh.inf s3
               /\ Mesh.islands s4 = Mesh.islands s3
               /\ Mesh.vertmaps s4 = Mesh.vertmaps s3).
  { destruct (negb _) in H4.
    - unfold Mesh._parse_trisblock_stat_ in H4. io_inv H4.
      match goal with E : (s4, _) = _ |- _ => injection E as -> _ end.
      repeat split.
    - apply ret_ok in H4. injection H4 as -> _. repeat split. }
  destruct E4 as (B4 & I4 & L4 & V4).
  assert (E5 : (Mesh.verts s5 = Mesh.verts s4 /\ Mesh.uvs s5 = Mesh.uvs s4
               /\ Mesh.normals s5 = Mesh.normals s4 /\ Mesh.colors s5 = Mesh.colors s4) /\ Mesh.inf s5 = Mesh.inf s4
               /\ Mesh.islands s5 = Mesh.islands s4
               /\ Mesh.vertmaps s5 = Mesh.vertmaps s4).
  { destruct (negb _) in H5.
    - unfold Mesh._parse_triunknown_ in H5. io_inv H5.
      match goal with E : (s5, _) = _ |- _ => injection E as -> _ end.
      repeat split.
    - apply ret_ok in H5. injection H5 as -> _. repeat split. }
  destruct E5 as (B5 & I5 & L5 & V5).
  destruct B2 as (a2 & b2 & c2 & d2), B3 as (a3 & b3 & c3 & d3),
           B4 as (a4 & b4 & c4 & d4), B5 as (a5 & b5 & c5 & d5).
  cbv zeta.
  rewrite a5, a4, a3, a2, b5, b4, b3, b2, c5, c4, c3, c2, d5, d4, d3, d2.
  rewrite L5, L4, L3, V5, V4.
  rewrite I5, I4, I3, I2, Hinf1.
  rewrite I2, Hinf1 in V3. rewrite Hinf1 in L2.
  repeat split; assumption.
Qed.

Lemma Mesh_init_buffers_witness :
  exists m r',
    Mesh.init true (BytesIO samples.mesh_1C_bytes) = py.ok (m, r')
    /\ let i := Mesh.inf m in
       let n := Z.to_nat (Mesh.num_verts i) in
       length (Mesh.verts m) = n
       /\ (exists uv, Mesh.uvs m = Some uv /\ length uv = n)
       /\ (forall l, Mesh.normals m = Some l -> length l = n)
       /\ (forall cs, Mesh.colors m = Some cs -> Forall (fun c => length c = n) cs)
       /\ length (Mesh.islands m) = length (Mesh.island_metas i)
       /\ (if Mesh.vertmaps_data_len i =? 0 then Mesh.vertmaps m = []
           else length (Mesh.vertmaps m) = Z.to_nat (Mesh.num_lods i)
                /\ Forall (fun vm => length vm = n) (Mesh.vertmaps m)).
Proof.
  eexists _, _.
  refine ((fun H => conj H (Mesh_init_buffers _ _ _ H)) _).
  vm_compute. reflexivity.
Defined.

Example mesh_1C_island :
  exists m r',
    Mesh.init true (BytesIO samples.mesh_1C_bytes) = py.ok (m, r')
    /\ Mesh.islands m = [[(0, 1, 0)]] /\ Mesh.vertmaps m = [[0; 1]]
    /\ length (Mesh.verts m) = 2%nat.
Proof. eexists _, _. split; [vm_compute; reflexivity|]. repeat split. Qed.

(** ** forge: containers *)

Lemma read_item_stream (self self' : Descriptor.t) (r r' : stream) :
  0 <= pos r -> Descriptor.read_item self r = py.ok (self', r') ->
  buf r' = buf r /\ in_memory r' = in_memory r /\ pos r + 12 <= pos r'
  /\ self' <> ∅.
Proof.
  intros Hp H. unfold Descriptor.read_item in H.
  apply bind_ok in H as (did & r1 & Hdid & H).
  apply (ruint_inv 4) in Hdid as (-> & _ & _); [|lia|assumption].
  apply bind_ok in H as (dtype & r2 & Hty & H).
  apply (ruint_inv 4) in Hty as (-> & _ & _); [|lia|simpl; lia].
  cbn [buf pos in_memory] in H.
  destruct (dtype =? 0).
  { apply bind_ok in H as (v & r3 & Hv & H).
    apply (ruint_inv 4) in Hv as (-> & _ & _); [|lia|simpl; lia].
    apply ret_ok in H. injection H as -> ->. cbn.
    repeat split; [lia|apply insert_non_empty]. }
  destruct (dtype =? 1).
  { apply bind_ok in H as (n & r3 & Hn & H).
    pose proof (ruint32_nonneg _ _ _ Hn) as Hn0.
    apply (ruint_inv 4) in Hn as (-> & _ & _); [|lia|simpl; lia].
    apply bind_ok in H as (s & r4 & Hs & H).
    rewrite read_field in Hs by (simpl; lia).
    unfold py.ok in Hs. injection Hs as <- <-.
    apply bind_ok in H as (z & r5 & Hz & H).
    rewrite read_field in Hz by (unfold size; simpl; lia).
    unfold py.ok in Hz. injection Hz as <- <-.
    apply ret_ok in H. injection H as -> ->. unfold size. cbn.
    repeat split; [lia|apply insert_non_empty]. }
  destruct (dtype =? 5); [|discriminate H].
  apply bind_ok in H as (v & r3 & Hv & H).
  apply (ruint_inv 8) in Hv as (-> & _ & _); [|lia|simpl; lia].
  apply ret_ok in H. injection H as -> ->. cbn.
  repeat split; [lia|apply insert_non_empty].
Qed.

Lemma turns_left_step (end_ here there : Z) (n : nat) :
  here < end_ -> here + 12 <= there ->
  (Descriptor.turns_left end_ here <= S n)%nat ->
  (Descriptor.turns_left end_ there <= n)%nat.
Proof.
  unfold Descriptor.turns_left. intros Hlt Hstep Hn.
  assert (H1 : (end_ - there + 11) / 12 <= (end_ - (here + 12) + 11) / 12)
    by (apply Z.div_le_mono; lia).
  replace (end_ - here + 11) with (end_ - (here + 12) + 11 + 1 * 12) in Hn by lia.
  rewrite Z.div_add in Hn by lia.
  assert (0 <= (end_ - (here + 12) + 11) / 12) by (apply Z.div_pos; lia).
  lia.
Qed.

Lemma turns_left_done (end_ here : Z) :
  Descriptor.turns_left end_ here = 0%nat -> (here <? end_) = false.
Proof.
  unfold Descriptor.turns_left. intros H. apply Z.ltb_ge.
  destruct (Z.le_gt_cases end_ here) as [|Hlt]; [assumption|].
  assert (1 <= (end_ - here + 11) / 12) by (apply Z.div_le_lower_bound; lia).
  lia.
Qed.

(** More turns than [turns_left] change nothing: the unrolled loop is the
    loop. *)
Lemma read_items_enough (n m : nat) (end_ : Z) (self : Descriptor.t) (r : stream) :
  0 <= pos r ->
  (Descriptor.turns_left end_ (pos r) <= n)%nat -> (n <= m)%nat ->
  Descriptor.read_items m end_ self r = Descriptor.read_items n end_ self r.
Proof.
  revert m self r. induction n as [|n IH]; intros m self r Hp Hn Hm.
  - assert (Hdone : (pos r <? end_) = false) by (apply turns_left_done; lia).
    destruct m as [|m]; [reflexivity|]. simpl.
    rewrite (bind_step tell _ r r (pos r)) by reflexivity.
    rewrite Hdone. reflexivity.
  - destruct m as [|m]; [lia|]. simpl.
    rewrite !(bind_step tell _ r r (pos r)) by reflexivity.
    destruct (pos r <? end_) eqn:Hlt; [|reflexivity].
    destruct (Descriptor.read_item self r) as [e|[self' r1]] eqn:El.
    + rewrite !(bind_raise _ _ _ _ El). reflexivity.
    + rewrite !(bind_step _ _ _ _ _ El).
      apply read_item_stream in El as (_ & _ & Hpos & _); [|assumption].
      apply Z.ltb_lt in Hlt.
      apply IH; [lia| |lia].
      eapply turns_left_step; eassumption.
Qed.

Lemma read_items_to_end (n : nat) (end_ : Z) (self d : Descriptor.t)
    (r r' : stream) :
  0 <= pos r -> (Descriptor.turns_left end_ (pos r) <= n)%nat ->
  Descriptor.read_items n end_ self r = py.ok (d, r') ->
  buf r' = buf r /\ in_memory r' = in_memory r /\ end_ <= pos r'
  /\ pos r <= pos r' /\ (self <> ∅ \/ pos r < end_ -> d <> ∅).
Proof.
  revert self r. induction n as [|n IH]; intros self r Hp Hn H.
  - assert (Hdone : (pos r <? end_) = false) by (apply turns_left_done; lia).
    apply Z.ltb_ge in Hdone.
    simpl in H. apply ret_ok in H. injection H as -> ->.
    repeat split; try lia. intros [Hs|Hl]; [exact Hs|lia].
  - cbn [Descriptor.read_items] in H.
    rewrite (bind_step tell _ r r (pos r)) in H by reflexivity.
    destruct (pos r <? end_) eqn:Hlt.
    + apply Z.ltb_lt in Hlt.
      apply bind_ok in H as (self' & r1 & Hitem & H).
      apply read_item_stream in Hitem as (Hb & Hm & Hpos & Hne); [|assumption].
      apply IH in H as (Hb' & Hm' & Hend & Hle & Hd);
        [|lia|eapply turns_left_step; eassumption].
      repeat split; try congruence; try lia.
      intros _. apply Hd. left. exact Hne.
    + apply Z.ltb_ge in Hlt. apply ret_ok in H. injection H as -> ->.
      repeat split; try lia. intros [Hs|Hl]; [exact Hs|lia].
Qed.

(** X25 ([Container.Descriptor.__init__]).  Whenever a descriptor is
    built, reading went on up to [entry.end] or beyond (an item is never
    cut at [entry.end]), the archive content is untouched, and the
    descriptor is empty only if the cursor already was at [entry.end];
    an item whose type is not 0, 1 or 5 raises [Exception]. *)
Theorem Descriptor_init_reads_to_end (entry : Entry.t) (r : stream) :
  0 <= pos r ->
  (forall d r',
     Descriptor.init entry r = py.ok (d, r') ->
     buf r' = buf r /\ Entry.end_ entry <= pos r' /\ pos r <= pos r'
     /\ (pos r < Entry.end_ entry -> d <> ∅))
  /\ (pos r < Entry.end_ entry -> pos r + 8 <= size r ->
      let dtype := le_uint (take 4 (drop (Z.to_nat (pos r + 4)) (buf r))) in
      dtype <> 0 -> dtype <> 1 -> dtype <> 5 ->
      Descriptor.init entry r = py.raise py.Exception).
Proof.
  intros Hp. split.
  - intros d r' H. unfold Descriptor.init in H. cbv zeta in H.
    rewrite (bind_step tell _ r r (pos r)) in H by reflexivity.
    apply read_items_to_end in H as (Hb & _ & He & Hle & Hd); [|assumption|lia].
    repeat split; try assumption. intros Hlt. apply Hd. right. exact Hlt.
  - intros Hlt Hfit dtype H0 H1 H5. unfold Descriptor.init. cbv zeta.
    rewrite (bind_step tell _ r r (pos r)) by reflexivity.
    destruct (Descriptor.turns_left (Entry.end_ entry) (pos r)) as [|n] eqn:Et.
    { apply turns_left_done in Et. apply Z.ltb_ge in Et. lia. }
    cbn [Descriptor.read_items].
    rewrite (bind_step tell _ r r (pos r)) by reflexivity.
    replace (pos r <? Entry.end_ entry) with true by (symmetry; apply Z.ltb_lt; lia).
    apply bind_raise. unfold Descriptor.read_item.
    erewrite bind_step;
      [|apply (ruint_in_bounds 4); [lia|assumption|lia]].
    erewrite bind_step;
      [|apply (ruint_in_bounds 4); [lia|simpl; lia|unfold size in *; simpl; lia]].
    cbn [buf pos]. change (Z.to_nat 4) with 4%nat. fold dtype.
    apply Z.eqb_neq in H0, H1, H5. rewrite H0, H1, H5. reflexivity.
Qed.

Lemma Descriptor_init_reads_to_end_witness :
  (exists d r',
     Descriptor.init (Entry.Build 0 1 27 27)
       (BytesIO (samples.u32 7 ++ samples.u32 0 ++ samples.u32 5
                 ++ samples.u32 8 ++ samples.u32 1 ++ samples.u32 2
                 ++ [x61; x62; x00]))
     = py.ok (d, r')
     /\ d !! 7 = Some (Descriptor.v_int 5)
     /\ d !! 8 = Some (Descriptor.v_bytes [x61; x62])
     /\ buf r' = samples.u32 7 ++ samples.u32 0 ++ samples.u32 5
                 ++ samples.u32 8 ++ samples.u32 1 ++ samples.u32 2
                 ++ [x61; x62; x00]
     /\ 27 <= pos r' /\ 0 <= pos r'
     /\ (0 < 27 -> d <> ∅))
  /\ Descriptor.init (Entry.Build 0 1 16 16)
       (BytesIO (samples.u32 7 ++ samples.u32 9 ++ samples.u32 0 ++ samples.u32 0))
     = py.raise py.Exception.
Proof.
  split.
  - eexists _, _.
    match goal with |- ?A /\ _ => assert (H : A) by (vm_compute; reflexivity) end.
    split; [exact H|].
    split; [vm_compute; reflexivity|]. split; [vm_compute; reflexivity|].
    apply (proj1 (Descriptor_init_reads_to_end (Entry.Build 0 1 27 27)
                    (BytesIO _) ltac:(simpl; lia)) _ _ H).
  - apply (proj2 (Descriptor_init_reads_to_end (Entry.Build 0 1 16 16)
                    (BytesIO (samples.u32 7 ++ samples.u32 9 ++ samples.u32 0
                              ++ samples.u32 0))
                    ltac:(simpl; lia))).
    + simpl. lia.
    + vm_compute. discriminate.
    + vm_compute. discriminate.
    + vm_compute. discriminate.
    + vm_compute. discriminate.
Defined.

Lemma le_uint_app (a b : py.bytes) :
  le_uint (a ++ b) = le_uint a + 2 ^ (8 * Z.of_nat (length a)) * le_uint b.
Proof.
  induction a as [|x a IH]; [simpl; lia|].
  cbn [app le_uint length]. rewrite IH.
  replace (8 * Z.of_nat (S (length a))) with (8 + 8 * Z.of_nat (length a)) by lia.
  rewrite Z.pow_add_r by lia. change (2 ^ 8) with 256. ring.
Qed.

Lemma le_uint_halves (p : nat) (l : py.bytes) :
  (p + 8 <= length l)%nat ->
  le_uint (take 8 (drop p l))
  = le_uint (take 4 (drop p l)) + 2 ^ 32 * le_uint (take 4 (drop (p + 4) l)).
Proof.
  intros H.
  replace (take 8 (drop p l))
    with (take 4 (drop p l) ++ take 4 (drop (p + 4) l)).
  - rewrite le_uint_app, length_take, length_drop.
    replace (4 `min` (length l - p))%nat with 4%nat by lia. reflexivity.
  - rewrite <- drop_drop. apply (take_take_drop (drop p l) 4 4).
Qed.

(** X26 ([Forge.get_container]).  An index outside the entry table
    raises [IndexError]; an entry whose first u32 is none of the three
    known container magics is not an error: the container is [None] and
    the cursor is left four bytes into the entry. *)
Theorem get_container_unknown_style (F : Forge.t) (i : Z) (r : stream) :
  match py.index (Forge.entries F) i with
  | inl _ => get_container F i r = py.raise py.IndexError
  | inr entry =>
      Entry.offset entry + 4 <= size r ->
      let off := Entry.offset entry in
      let magic := le_uint (take 4 (drop (Z.to_nat off) (buf r))) in
      0 <= off -> magic <> 1 -> magic <> 6 -> magic <> 0x57FBAA34 ->
      get_container F i r = py.ok (None, Stream (buf r) (off + 4) (in_memory r))
  end.
Proof.
  unfold get_container.
  destruct (py.index (Forge.entries F) i) as [e|entry] eqn:Ei.
  - unfold py.index in Ei. cbv zeta in Ei.
    destruct (_ || _) in Ei; [injection Ei as <-; reflexivity|].
    destruct (_ !! _) in Ei; [discriminate Ei|injection Ei as <-; reflexivity].
  - cbv beta iota zeta. intros Hfit Hoff H1 H6 HF.
    rewrite (bind_step (lift (inr entry)) _ r r entry) by reflexivity.
    rewrite (bind_step _ _ _ _ _ (seek_ok r _ Hoff)).
    erewrite bind_step;
      [|apply (ruint_in_bounds 4); [lia|simpl; lia|unfold size in *; simpl; lia]].
    cbn [buf pos in_memory]. change (Z.to_nat 4) with 4%nat. unfold identify.
    apply Z.eqb_neq in H1, H6, HF. rewrite H1, H6, HF. reflexivity.
Qed.

Lemma get_container_unknown_style_witness :
  get_container
    (Forge.Build [Entry.Build 0 7 4 4] [] 0 0 0 0 1 0 0 0 0 0 0 0 0 0 0 0 0 0 0
       0 0 0 0 0 0) (-1)
    (pyio.open (samples.u32 9))
  = py.ok (None, Stream (samples.u32 9) 4 false).
Proof.
  apply (get_container_unknown_style
           (Forge.Build [Entry.Build 0 7 4 4] [] 0 0 0 0 1 0 0 0 0 0 0 0 0 0 0 0 0
              0 0 0 0 0 0 0 0) (-1) (pyio.open (samples.u32 9))).
  - vm_compute. discriminate.
  - vm_compute. discriminate.
  - vm_compute. discriminate.
  - vm_compute. discriminate.
  - vm_compute. discriminate.
Defined.

(** X27 ([Forge.get_container], [File.__init__],
    [DepGraph.get_data_from_io]).  The u64 magic that opens a
    dependency-graph file is the container magic followed by the file
    magic: for an entry at whose offset [ruint64] reads
    0x1014FA9957FBAA34 and a datablock follows that runs up to
    [entry.end], [get_container] builds a [File] without [meta] whose
    [file] is that datablock. *)
Theorem get_container_file_magic (F : Forge.t) (i : Z) (r r1 r2 : stream)
    (entry : Entry.t) (block : Datablock.t) :
  py.index (Forge.entries F) i = py.ok entry ->
  0 <= Entry.offset entry ->
  ruint64 (Stream (buf r) (Entry.offset entry) (in_memory r))
  = py.ok (0x1014FA9957FBAA34, r1) ->
  Datablock.init r1 = py.ok (block, r2) ->
  Entry.end_ entry <= pos r2 ->
  get_container F i r = py.ok (Some (c_file (File.Build None (Some block))), r2).
Proof.
  intros Hi Hoff Hmagic Hblock Hend. unfold get_container.
  rewrite Hi. rewrite (bind_step (lift (py.ok entry)) _ r r entry) by reflexivity.
  rewrite (bind_step _ _ _ _ _ (seek_ok r _ Hoff)).
  apply (ruint_inv 8) in Hmagic as (-> & Hfit & Hm); [|lia|simpl; lia].
  cbn [buf pos in_memory] in *. unfold size in Hfit. cbn [buf] in Hfit.
  change (Z.to_nat 8) with 8%nat in Hm.
  rewrite le_uint_halves in Hm by lia.
  pose proof (le_uint_range (take 4 (drop (Z.to_nat (Entry.offset entry)) (buf r))))
    as Hlo.
  pose proof (le_uint_range
                (take 4 (drop (Z.to_nat (Entry.offset entry) + 4) (buf r))))
    as Hhi.
  rewrite length_take, length_drop in Hlo, Hhi.
  replace (4 `min` (length (buf r) - Z.to_nat (Entry.offset entry)))%nat
    with 4%nat in Hlo by lia.
  replace (4 `min` (length (buf r) - (Z.to_nat (Entry.offset entry) + 4)))%nat
    with 4%nat in Hhi by lia.
  change (2 ^ (8 * Z.of_nat 4)) with 4294967296 in Hlo, Hhi.
  change (2 ^ 32) with 4294967296 in Hm.
  set (lo := le_uint (take 4 (drop (Z.to_nat (Entry.offset entry)) (buf r)))) in *.
  set (hi := le_uint (take 4 (drop (Z.to_nat (Entry.offset entry) + 4) (buf r)))) in *.
  assert (Elo : lo = 0x57FBAA34) by lia.
  assert (Ehi : hi = 0x1014FA99) by lia.
  erewrite bind_step;
    [|apply (ruint_in_bounds 4); [lia|simpl; lia|unfold size; simpl; lia]].
  cbn [buf pos in_memory]. change (Z.to_nat 4) with 4%nat. fold lo. rewrite Elo.
  change (identify 0x57FBAA34)
    with (Some (fun entry => let* f := File.init entry in ret (c_file f))).
  cbv beta iota.
  assert (Hfile : File.init entry
                    (Stream (buf r) (Entry.offset entry + 4) (in_memory r))
                  = py.ok (File.Build None (Some block), r2)).
  { unfold File.init.
    erewrite bind_step;
      [|apply (ruint_in_bounds 4); [lia|simpl; lia|unfold size; simpl; lia]].
    cbn [buf pos in_memory]. change (Z.to_nat 4) with 4%nat.
    replace (Z.to_nat (Entry.offset entry + 4))
      with (Z.to_nat (Entry.offset entry) + 4)%nat by lia.
    fold hi. rewrite Ehi.
    rewrite (bind_step (pyio.assert _) _ _ _ tt) by reflexivity.
    replace (Entry.offset entry + 4 + 4) with (Entry.offset entry + 8) by lia.
    rewrite (bind_step _ _ _ _ _ Hblock).
    rewrite (bind_step tell _ r2 r2 (pos r2)) by reflexivity.
    replace (pos r2 <? Entry.end_ entry) with false
      by (symmetry; apply Z.ltb_ge; lia).
    reflexivity. }
  rewrite (bind_step _ _ _ _ _ (bind_step _ _ _ _ _ Hfile)). reflexivity.
Qed.

Lemma get_container_file_magic_witness :
  get_container
    (Forge.Build [Entry.Build 0 7 19 19] [] 0 0 0 0 1 0 0 0 0 0 0 0 0 0 0 0 0 0 0
       0 0 0 0 0 0) 0
    (pyio.open (samples.u64 0x1014FA9957FBAA34 ++ samples.datablock_preamble 0))
  = py.ok (Some (c_file (File.Build None (Some (Datablock.Build 0 [] 0 0 false)))),
           Stream (samples.u64 0x1014FA9957FBAA34 ++ samples.datablock_preamble 0)
             19 false).
Proof.
  apply (get_container_file_magic _ 0 _
           (Stream (samples.u64 0x1014FA9957FBAA34 ++ samples.datablock_preamble 0)
              8 false) _ (Entry.Build 0 7 19 19)).
  - reflexivity.
  - simpl. lia.
  - vm_compute. reflexivity.
  - vm_compute. reflexivity.
  - simpl. lia.
Defined.

(** ** mesh: building the data of a level of detail *)

Lemma dict_set_keys_NoDup {V} (k : Z) (v : V) (d : dict V) :
  NoDup (dict_keys d) -> NoDup (dict_keys (dict_set k v d)).
Proof.
  assert (Hin : forall x, x ∈ dict_keys (dict_set k v d) -> x = k \/ x ∈ dict_keys d).
  { induction d as [|[k' v'] d IH]; simpl; intros x Hx.
    - apply list_elem_of_singleton in Hx. auto.
    - destruct (bool_decide (k = k')) eqn:E; simpl in Hx.
      + apply bool_decide_eq_true in E. subst k'. right. exact Hx.
      + apply elem_of_cons in Hx as [->|Hx]; [right; left|].
        destruct (IH x Hx) as [->|H]; [left; reflexivity|right; right; exact H]. }
  clear Hin. induction d as [|[k' v'] d IH]; simpl; intros Hnd.
  - apply NoDup_singleton.
  - apply NoDup_cons in Hnd as [Hk' Hnd].
    destruct (bool_decide (k = k')) eqn:E; simpl.
    + apply bool_decide_eq_true in E. subst k'. apply NoDup_cons. auto.
    + apply bool_decide_eq_false in E. apply NoDup_cons. split; [|auto].
      intros Hin. apply Hk'. clear -Hin E.
      induction d as [|[k0 v0] d IH]; simpl in *.
      * apply list_elem_of_singleton in Hin. congruence.
      * destruct (bool_decide (k = k0)) eqn:E0; simpl in Hin.
        -- apply bool_decide_eq_true in E0. subst k0.
           apply elem_of_cons in Hin as [->|Hin]; [congruence|right; exact Hin].
        -- apply elem_of_cons in Hin as [->|Hin]; [left|right; auto].
Qed.

Lemma dict_set_values_Forall {V} (Q : V -> Prop) (k : Z) (v : V) (d : dict V) :
  Forall Q (dict_values d) -> Q v -> Forall Q (dict_values (dict_set k v d)).
Proof.
  intros Hd Hv. induction d as [|[k' v'] d IH]; simpl.
  - repeat constructor. exact Hv.
  - simpl in Hd. apply Forall_cons in Hd as [Hv' Hd].
    destruct (bool_decide (k = k')); simpl; constructor; auto.
Qed.

Lemma island_indices_values (P : Z -> Prop) (d : dict (list triangle)) :
  Forall P (island_indices d)
  <-> Forall (fun tris => Forall P (concat (map tri_verts tris))) (dict_values d).
Proof.
  unfold island_indices. rewrite Forall_concat, Forall_fmap. reflexivity.
Qed.

Lemma index_lookup {A} (l : list A) (i : Z) (x : A) :
  py.index l i = py.ok x ->
  let j := if i <? 0 then i + Z.of_nat (length l) else i in
  0 <= j < Z.of_nat (length l) /\ l !! Z.to_nat j = Some x.
Proof.
  unfold py.index. cbv zeta.
  set (j := if i <? 0 then i + Z.of_nat (length l) else i).
  destruct ((j <? 0) || (Z.of_nat (length l) <=? j)) eqn:E; [discriminate|].
  apply orb_false_iff in E as [E1 E2].
  apply Z.ltb_ge in E1. apply Z.leb_gt in E2.
  destruct (l !! Z.to_nat j) as [y|]; [|discriminate].
  intros [= ->]. split; [lia|reflexivity].
Qed.

Section remapped.
Variable used : list Z.
Let R (kv kv' : Z * list triangle) : Prop :=
  kv.1 = kv'.1 /\ Forall2 (tri_remapped used) kv.2 kv'.2.

Lemma remapped_keys (d d' : dict (list triangle)) :
  Forall2 R d d' -> dict_keys d' = dict_keys d.
Proof.
  unfold dict_keys. induction 1 as [|kv kv' d d' [Hk _] _ IH]; [reflexivity|].
  simpl. rewrite IH, Hk. reflexivity.
Qed.

Lemma remapped_range (d d' : dict (list triangle)) :
  Forall2 R d d' ->
  Forall (fun v => 0 <= v < Z.of_nat (length used)) (island_indices d').
Proof.
  intros H. apply island_indices_values. unfold dict_values.
  induction H as [|kv kv' d d' [_ Ht] _ IH]; simpl; constructor; [|exact IH].
  clear -Ht. induction Ht as [|t t' ts ts' Hr _ IH]; simpl; [constructor|].
  apply Forall_app. split; [|exact IH].
  destruct t as [[a b] c], t' as [[a' b'] c'].
  destruct Hr as ((Ha & _) & (Hb & _) & (Hc & _)). simpl in *.
  repeat constructor; lia.
Qed.

Lemma remapped_member (d d' : dict (list triangle)) (u j : Z) :
  Forall2 R d d' ->
  (forall new, index_remapped used u new -> new = j) ->
  u ∈ island_indices d -> j ∈ island_indices d'.
Proof.
  intros H Hj. unfold island_indices, dict_values.
  induction H as [|kv kv' d d' [_ Ht] _ IH]; simpl; intros Hin;
    [apply elem_of_nil in Hin; contradiction|].
  apply elem_of_app in Hin as [Hin|Hin]; apply elem_of_app;
    [left|right; apply IH, Hin].
  clear -Ht Hin Hj.
  induction Ht as [|t t' ts ts' Hr _ IH]; simpl in *;
    [apply elem_of_nil in Hin; contradiction|].
  apply elem_of_app in Hin as [Hin|Hin]; apply elem_of_app;
    [left|right; apply IH, Hin].
  destruct t as [[a b] c], t' as [[a' b'] c'].
  destruct Hr as (Ha & Hb & Hc). simpl in *.
  apply elem_of_cons in Hin as [->|Hin];
    [rewrite <- (Hj _ Ha); left|].
  apply elem_of_cons in Hin as [->|Hin];
    [rewrite <- (Hj _ Hb); right; left|].
  apply list_elem_of_singleton in Hin. subst u.
  rewrite <- (Hj _ Hc). right. right. left.
Qed.

End remapped.

Lemma remove_isolated_verts_valid (md : meshdata) :
  NoDup (dict_keys (md_islands md)) ->
  Forall (fun v => 0 <= v < Z.of_nat (length (md_verts md)))
         (island_indices (md_islands md)) ->
  exists md',
    remove_isolated_verts md = py.ok md'
    /\ dict_keys (md_islands md') = dict_keys (md_islands md)
    /\ Forall (fun v => 0 <= v < Z.of_nat (length (md_verts md')))
              (island_indices (md_islands md'))
    /\ (forall j, (j < length (md_verts md'))%nat ->
                  Z.of_nat j ∈ island_indices (md_islands md')).
Proof.
  intros Hkeys Hrange.
  set (used := sorted_set (island_indices (md_islands md))).
  assert (Hsorted : StronglySorted Z.lt used) by apply sorted_set_increasing.
  assert (Hnd : NoDup used) by apply sorted_set_NoDup.
  assert (Hmem : forall v, v ∈ used <-> v ∈ island_indices (md_islands md))
    by (intros v; apply sorted_set_elem_of).
  assert (Hused : Forall (fun u => 0 <= u < Z.of_nat (length (md_verts md))) used).
  { apply Forall_forall. intros u Hu. apply Hmem in Hu.
    rewrite Forall_forall in Hrange. apply Hrange, Hu. }
  assert (Hpos : Forall (fun u => 0 <= u) used).
  { eapply Forall_impl; [exact Hused|]. intros u Hu. simpl in Hu. lia. }
  destruct (remap_islands_rest used (md_islands md) [] Hnd Hkeys)
    as (isl' & Hrun & Hrel).
  { apply island_indices_Forall, Forall_forall. intros x Hx. apply Hmem, Hx. }
  simpl in Hrun.
  destruct (kept_lookup (md_verts md) used Hused) as [Hlen Hlook].
  eexists. split.
  { unfold remove_isolated_verts. fold used. rewrite Hrun. reflexivity. }
  cbn [md_verts md_islands].
  rewrite (filter_by_indices_kept (md_verts md) used Hsorted Hpos), Hlen.
  split; [|split].
  - exact (remapped_keys used _ _ Hrel).
  - exact (remapped_range used _ _ Hrel).
  - intros j Hj.
    destruct (lookup_lt_is_Some_2 used j Hj) as [u Hu].
    apply (remapped_member used _ _ u _ Hrel).
    + intros new [Hn Hl].
      assert (Z.to_nat new = j)
        by (eapply NoDup_lookup; [exact Hnd|exact Hl|exact Hu]).
      lia.
    + apply Hmem. eapply list_elem_of_lookup_2. exact Hu.
Qed.

Lemma shift_tri_verts (off : Z) (tris : list triangle) :
  concat (map tri_verts (map (shift_tri off) tris))
  = map (fun v => v + off) (concat (map tri_verts tris)).
Proof.
  induction tris as [|[[a b] c] tris IH]; [reflexivity|].
  simpl. rewrite IH. reflexivity.
Qed.

Section build_facts.
Variable self : Mesh.t.
Hypothesis Hlen :
  length (Mesh.islands self) = length (Mesh.island_metas (Mesh.inf self)).
Hypothesis Hrange :
  forall (n : nat) tris meta,
    Mesh.islands self !! n = Some tris ->
    Mesh.island_metas (Mesh.inf self) !! n = Some meta ->
    Forall (fun v => 0 <= v + IslandDescriptor.offset_verts meta
                     < Z.of_nat (length (Mesh.verts self)))
           (concat (map tri_verts tris)).

Let good (md : meshdata) : Prop :=
  NoDup (dict_keys (md_islands md))
  /\ Forall (fun v => 0 <= v < Z.of_nat (length (md_verts md)))
            (island_indices (md_islands md))
  /\ md_verts md = Mesh.verts self.

Lemma build_island_good (md md' : meshdata) (index : Z) :
  good md -> build_island self md index = py.ok md' -> good md'.
Proof.
  intros (Hnd & Hin & Hv) H. unfold build_island in H.
  destruct (py.assert _) in H; [discriminate H|]. cbn [py.bind] in H.
  destruct (py.index (Mesh.islands self) index) as [e|tris] eqn:Et;
    [discriminate H|].
  destruct (py.index (Mesh.island_metas (Mesh.inf self)) index) as [e|meta] eqn:Em;
    [discriminate H|].
  cbn [py.bind] in H. cbv zeta in H. injection H as <-.
  apply index_lookup in Et as [_ Et]. apply index_lookup in Em as [_ Em].
  cbv zeta in Et, Em. rewrite Hlen in Et.
  specialize (Hrange _ _ _ Et Em).
  unfold good. cbn [md_islands md_verts]. split; [|split; [|exact Hv]].
  - apply dict_set_keys_NoDup, Hnd.
  - apply island_indices_values. apply dict_set_values_Forall.
    + apply island_indices_values, Hin.
    + rewrite Hv.
      destruct (negb (IslandDescriptor.offset_verts meta =? 0)) eqn:E.
      * rewrite shift_tri_verts, Forall_fmap. exact Hrange.
      * apply negb_false_iff, Z.eqb_eq in E. rewrite E in Hrange.
        eapply Forall_impl; [exact Hrange|]. intros v Hv'. simpl in Hv'. lia.
Qed.

Lemma build_islands_good (lod : Z) (islands : list Z) (md md' : meshdata) :
  good md -> build_islands self lod islands md = py.ok md' -> good md'.
Proof.
  revert md. induction islands as [|i islands IH]; intros md Hg H;
    cbn [build_islands] in H.
  - injection H as <-. exact Hg.
  - destruct (negb (lod =? -1)).
    + destruct (py.assert _) in H; [discriminate H|]. cbn [py.bind py.ok] in H.
      destruct (build_island self md _) as [e|md1] eqn:E1; [discriminate H|].
      cbn [py.bind] in H. eapply IH; [|exact H].
      eapply build_island_good; eassumption.
    + cbn [py.bind py.ok] in H.
      destruct (build_island self md _) as [e|md1] eqn:E1; [discriminate H|].
      cbn [py.bind] in H. eapply IH; [|exact H].
      eapply build_island_good; eassumption.
Qed.

(** X28 ([Mesh.build_meshdata], [init_meshdata], [build_island],
    [remove_isolated_verts]).  For a mesh with one island per island
    descriptor whose triangle indices, once shifted by the island's
    [offset_verts], are positions of [verts]: whatever level of detail
    and islands are asked for, the data [build_meshdata] returns with
    [clear] set has valid triangles (every index is a position of the
    returned [verts]) and no isolated vertex (every position of the
    returned [verts] is used by a triangle). *)
Theorem build_meshdata_valid_indices (lod : Z) (copy : bool)
    (islands : islands_arg) (md : meshdata) :
  build_meshdata self lod copy true islands = py.ok md ->
  NoDup (dict_keys (md_islands md))
  /\ Forall (fun v => 0 <= v < Z.of_nat (length (md_verts md)))
            (island_indices (md_islands md))
  /\ (forall j, (j < length (md_verts md))%nat ->
                Z.of_nat j ∈ island_indices (md_islands md)).
Proof.
  intros H. unfold build_meshdata in H. cbv zeta in H.
  destruct (py.assert _) in H; [discriminate H|]. cbn [py.bind] in H.
  unfold init_meshdata in H.
  destruct (py.assert _) in H; [discriminate H|]. cbn [py.bind py.ok] in H.
  match type of H with
  | py.bind (build_islands _ _ ?l ?m0) _ = _ =>
      destruct (build_islands self lod l m0) as [e|md1] eqn:E1; [discriminate H|];
      assert (Hg : good md1)
  end.
  { eapply build_islands_good; [|exact E1].
    unfold good. cbn. repeat split; constructor. }
  cbn [py.bind] in H. destruct Hg as (Hnd & Hin & _).
  destruct (remove_isolated_verts_valid md1 Hnd Hin) as (md' & Hrun & Hk & Hr & Hu).
  rewrite Hrun in H. injection H as <-.
  split; [rewrite Hk; exact Hnd|]. split; assumption.
Qed.

End build_facts.

Lemma build_meshdata_valid_indices_witness :
  exists md,
    build_meshdata samples.mesh_two_islands 0 false true islands_default = py.ok md
    /\ md_islands md = [(7, [(0, 1, 2)]); (9, [(1, 2, 1)])]
    /\ length (md_verts md) = 3%nat
    /\ NoDup (dict_keys (md_islands md))
    /\ Forall (fun v => 0 <= v < Z.of_nat (length (md_verts md)))
              (island_indices (md_islands md))
    /\ (forall j, (j < length (md_verts md))%nat ->
                  Z.of_nat j ∈ island_indices (md_islands md)).
Proof.
  eexists.
  match goal with |- ?A /\ _ => assert (H : A) by (vm_compute; reflexivity) end.
  split; [exact H|]. split; [reflexivity|]. split; [reflexivity|].
  apply (build_meshdata_valid_indices samples.mesh_two_islands) in H;
    [exact H|reflexivity|].
  intros [|[|n]] tris meta; simpl; intros [= <-]; intros [= <-];
    repeat constructor; simpl; lia.
Defined.

(** X29 ([IslandSkinMapping.parse]).  Whatever number of bone
    indices a skin-mapping record announces, a record that is read takes
    exactly [SIZE] (0x10C) bytes: the cursor is left [SIZE] bytes after
    where it was, over unchanged content, and the record holds as many
    indices as announced, each a byte value. *)
Theorem IslandSkinMapping_parse_size (r r' : stream) (m : IslandSkinMapping.t) :
  0 <= pos r ->
  IslandSkinMapping.parse r = py.ok (m, r') ->
  r' = Stream (buf r) (pos r + IslandSkinMapping.SIZE) (in_memory r)
  /\ pos r + IslandSkinMapping.SIZE <= size r
  /\ Z.of_nat (length (IslandSkinMapping.indices m))
     = le_uint (take 1 (drop (Z.to_nat (pos r + 8)) (buf r)))
  /\ Forall (fun x => 0 <= x < 256) (IslandSkinMapping.indices m).
Proof.
  intros Hp H. unfold IslandSkinMapping.parse in H.
  apply bind_ok in H as (x00 & r1 & H0 & H).
  apply (ruint_inv 2) in H0 as (-> & _ & _); [|lia|assumption].
  apply bind_ok in H as (bu & r2 & H1 & H).
  apply (ruint_inv 1) in H1 as (-> & _ & _); [|lia|simpl; lia].
  apply bind_ok in H as (mat & r3 & H2 & H).
  apply (ruint_inv 1) in H2 as (-> & _ & _); [|lia|simpl; lia].
  apply bind_ok in H as (x04 & r4 & H3 & H).
  apply (ruint_inv 2) in H3 as (-> & _ & _); [|lia|simpl; lia].
  apply bind_ok in H as (vbl & r5 & H4 & H).
  apply (ruint_inv 2) in H4 as (-> & _ & _); [|lia|simpl; lia].
  apply bind_ok in H as (len & r6 & H5 & H).
  apply (ruint_inv 1) in H5 as (-> & _ & Hlen); [|lia|simpl; lia].
  cbn [buf pos in_memory] in *.
  replace (pos r + 2 + 1 + 1 + 2 + 2) with (pos r + 8) in * by lia.
  change (Z.to_nat 1) with 1%nat in Hlen.
  assert (Hl : 0 <= len < 256).
  { rewrite Hlen.
    pose proof (le_uint_range (take 1 (drop (Z.to_nat (pos r + 8)) (buf r)))) as Hr.
    assert (Hle : (length (take 1 (drop (Z.to_nat (pos r + 8)) (buf r))) <= 1)%nat)
      by (rewrite length_take; lia).
    assert (2 ^ (8 * Z.of_nat (length (take 1 (drop (Z.to_nat (pos r + 8)) (buf r)))))
            <= 2 ^ 8) by (apply Z.pow_le_mono_r; lia).
    change (2 ^ 8) with 256 in *. lia. }
  apply bind_ok in H as (raw & r7 & Hraw & H).
  rewrite read_field in Hraw by (simpl; lia).
  unfold py.ok in Hraw. injection Hraw as <- <-.
  apply bind_ok in H as ([] & r8 & Hsk & H).
  unfold seek_cur, seek_rel, IslandSkinMapping.SIZE, size in Hsk.
  cbn [buf pos in_memory] in Hsk.
  match type of Hsk with
  | (if ?c then _ else _) = _ => destruct c eqn:Ec; [apply Z.ltb_lt in Ec; lia|]
  end.
  unfold py.ok in Hsk. injection Hsk as <-.
  apply bind_ok in H as (x108 & r9 & H6 & H).
  apply (ruint_inv 4) in H6 as (-> & Hfit & _); [|lia|simpl; lia].
  cbn [buf pos in_memory] in Hfit. unfold size in Hfit. cbn [buf] in Hfit.
  apply ret_ok in H. injection H as -> ->.
  cbn [IslandSkinMapping.indices buf pos in_memory].
  unfold IslandSkinMapping.SIZE, size.
  assert (Hfull : len <= Z.of_nat (length (buf r)) - (pos r + 8 + 1)) by lia.
  rewrite Z.min_l in * by lia.
  split; [f_equal; lia|]. split; [lia|]. split.
  - rewrite length_map, length_take, length_drop. rewrite <- Hlen. lia.
  - apply Forall_fmap, Forall_forall. intros b _. apply byte_val_range.
Qed.

Lemma IslandSkinMapping_parse_size_witness :
  let input :=
    BytesIO (samples.u16 0 ++ samples.u8 2 ++ samples.u8 3 ++ samples.u16 0
             ++ samples.u16 0 ++ samples.u8 2 ++ [x05; x06]
             ++ samples.zeros 253 ++ samples.u32 0) in
  exists m r',
    IslandSkinMapping.parse input = py.ok (m, r')
    /\ IslandSkinMapping.indices m = [5; 6]
    /\ r' = Stream (buf input) (pos input + IslandSkinMapping.SIZE) (in_memory input)
    /\ pos input + IslandSkinMapping.SIZE <= size input
    /\ Z.of_nat (length (IslandSkinMapping.indices m))
       = le_uint (take 1 (drop (Z.to_nat (pos input + 8)) (buf input)))
    /\ Forall (fun x => 0 <= x < 256) (IslandSkinMapping.indices m).
Proof.
  intros input. eexists _, _.
  match goal with |- ?A /\ _ => assert (H : A) by (vm_compute; reflexivity) end.
  split; [exact H|]. split; [reflexivity|].
  apply (IslandSkinMapping_parse_size input _ _ ltac:(simpl; lia) H).
Defined.

(** ** asset: splitting an asset into its pieces *)

Lemma drop_prefix {A} (n : nat) (l a b : list A) :
  drop n l = a ++ b ->
  take (length a) (drop n l) = a /\ drop (n + length a) l = b
  /\ (n + length a + length b = length l \/ (a = [] /\ b = []))%nat.
Proof.
  intros H. split; [|split].
  - rewrite H. apply take_app_length.
  - rewrite <- drop_drop, H. apply drop_app_length.
  - apply (f_equal length) in H. rewrite length_drop, length_app in H.
    destruct a, b; simpl in *; try lia. right. split; reflexivity.
Qed.

Lemma read_file_piece_at (r : stream) (magic : Z) (meta data rest : py.bytes) :
  0 <= pos r ->
  drop (Z.to_nat (pos r)) (buf r) = asset.piece_bytes magic meta data ++ rest ->
  0 <= magic < 2 ^ 32 ->
  Z.of_nat (length meta) < 2 ^ 32 -> Z.of_nat (length data) < 2 ^ 32 ->
  common.read_file_piece r
  = py.ok ((magic, BytesIO meta, BytesIO data),
           Stream (buf r)
             (pos r + Z.of_nat (length (asset.piece_bytes magic meta data)))
             (in_memory r)).
Proof.
  intros Hp Hd Hmg Hme Hda. unfold asset.piece_bytes in *.
  rewrite <- !app_assoc in Hd.
  set (p := Z.to_nat (pos r)) in *.
  destruct (drop_prefix _ _ _ _ Hd) as (T1 & D1 & [L1|[E1 _]]);
    [|apply (f_equal length) in E1; rewrite le_encode_length in E1; discriminate].
  destruct (drop_prefix _ _ _ _ D1) as (T2 & D2 & [L2|[_ E2]]);
    [|apply (f_equal length) in E2; rewrite length_app, le_encode_length in E2;
      discriminate].
  destruct (drop_prefix _ _ _ _ D2) as (T3 & D3 & [L3|[E3 _]]);
    [|apply (f_equal length) in E3; rewrite le_encode_length in E3; discriminate].
  destruct (drop_prefix _ _ _ _ D3) as (T4 & D4 & [L4|[E4 _]]);
    [|apply (f_equal length) in E4; rewrite le_encode_length in E4; discriminate].
  destruct (drop_prefix _ _ _ _ D4) as (T5 & _ & _).
  rewrite !le_encode_length in *.
  rewrite !length_app, !le_encode_length in *.
  assert (V1 : le_uint (le_encode 4 (Z.of_nat (length meta))) = Z.of_nat (length meta))
    by (rewrite le_uint_le_encode; apply Z.mod_small;
        change (2 ^ (8 * Z.of_nat 4)) with (2 ^ 32); lia).
  assert (V2 : le_uint (le_encode 4 (Z.of_nat (length data))) = Z.of_nat (length data))
    by (rewrite le_uint_le_encode; apply Z.mod_small;
        change (2 ^ (8 * Z.of_nat 4)) with (2 ^ 32); lia).
  assert (V3 : le_uint (le_encode 4 magic) = magic)
    by (rewrite le_uint_le_encode; apply Z.mod_small;
        change (2 ^ (8 * Z.of_nat 4)) with (2 ^ 32); lia).
  unfold common.read_file_piece.
  erewrite bind_step;
    [|apply (ruint_in_bounds 4); [lia|assumption|unfold size; lia]].
  change (Z.to_nat 4) with 4%nat. fold p. rewrite T1, V1.
  erewrite bind_step; [|apply read_field; [lia|simpl; lia]].
  cbn [buf pos in_memory]. unfold size. cbn [buf pos].
  replace (Z.to_nat (pos r + 4)) with (p + 4)%nat by lia.
  rewrite Nat2Z.id, T2.
  rewrite Z.min_l by lia.
  erewrite bind_step;
    [|apply (ruint_in_bounds 4); [lia|simpl; lia|unfold size; simpl; lia]].
  cbn [buf pos in_memory]. change (Z.to_nat 4) with 4%nat.
  replace (Z.to_nat (pos r + 4 + Z.of_nat (length meta)))
    with (p + 4 + length meta)%nat by lia.
  rewrite T3, V2.
  erewrite bind_step;
    [|apply (ruint_in_bounds 4); [lia|simpl; lia|unfold size; simpl; lia]].
  cbn [buf pos in_memory]. change (Z.to_nat 4) with 4%nat.
  replace (Z.to_nat (pos r + 4 + Z.of_nat (length meta) + 4))
    with (p + 4 + length meta + 4)%nat by lia.
  rewrite T4, V3.
  erewrite bind_step; [|apply read_field; [lia|simpl; lia]].
  cbn [buf pos in_memory]. unfold size. cbn [buf pos].
  replace (Z.to_nat (pos r + 4 + Z.of_nat (length meta) + 4 + 4))
    with (p + 4 + length meta + 4 + 4)%nat by lia.
  rewrite Nat2Z.id, T5.
  rewrite Z.min_l by lia.
  unfold ret, py.ok. do 3 f_equal. lia.
Qed.

Lemma read_file_piece_stream (r r' : stream) (a : asset.piece) :
  0 <= pos r -> common.read_file_piece r = py.ok (a, r') ->
  buf r' = buf r /\ in_memory r' = in_memory r /\ pos r + 12 <= pos r'.
Proof.
  intros Hp H. unfold common.read_file_piece in H.
  apply bind_ok in H as (ms & r1 & H1 & H).
  pose proof (ruint32_nonneg _ _ _ H1) as Hms.
  apply (ruint_inv 4) in H1 as (-> & _ & _); [|lia|assumption].
  apply bind_ok in H as (me & r2 & H2 & H).
  rewrite read_field in H2 by (simpl; lia).
  unfold py.ok in H2. injection H2 as <- <-.
  apply bind_ok in H as (ds & r3 & H3 & H).
  pose proof (ruint32_nonneg _ _ _ H3) as Hds.
  apply (ruint_inv 4) in H3 as (-> & _ & _);
    [|lia|unfold size; simpl; lia].
  apply bind_ok in H as (mg & r4 & H4 & H).
  apply (ruint_inv 4) in H4 as (-> & _ & _);
    [|lia|unfold size; simpl; lia].
  apply bind_ok in H as (da & r5 & H5 & H).
  rewrite read_field in H5 by (unfold size; simpl; lia).
  unfold py.ok in H5. injection H5 as <- <-.
  apply ret_ok in H. injection H as _ ->.
  unfold size. cbn. repeat split. lia.
Qed.

(** More turns than [turns_left] change nothing: the unrolled loop is the
    loop. *)
Lemma split_loop_enough (n m : nat) (r : stream) :
  0 <= pos r -> (asset.turns_left r <= n)%nat -> (n <= m)%nat ->
  asset.split_loop m r = asset.split_loop n r.
Proof.
  revert m r. induction n as [|n IH]; intros m r Hp Hn Hm;
    [unfold asset.turns_left in Hn; lia|].
  destruct m as [|m]; [lia|]. cbn [asset.split_loop].
  rewrite !(bind_step _ _ _ _ _ (read_field 1 r ltac:(lia) Hp)).
  destruct (length (take (Z.to_nat 1) (drop (Z.to_nat (pos r)) (buf r))) =? 0)%nat
    eqn:E; [reflexivity|].
  apply Nat.eqb_neq in E. rewrite length_take, length_drop in E.
  assert (Hlt : pos r < size r) by (unfold size; lia).
  assert (Hback : seek_cur (-1)
                    (Stream (buf r) (pos r + Z.min 1 (Z.max 0 (size r - pos r)))
                       (in_memory r))
                  = py.ok (tt, r)).
  { unfold seek_cur, seek_rel. cbn [buf pos in_memory].
    rewrite Z.min_l by lia.
    replace (pos r + 1 + -1) with (pos r) by lia.
    destruct (pos r <? 0) eqn:E0; [apply Z.ltb_lt in E0; lia|].
    destruct r; reflexivity. }
  rewrite !(bind_step _ _ _ _ _ Hback).
  destruct (common.read_file_piece r) as [e|[a r1]] eqn:Ea.
  - rewrite !(bind_raise _ _ _ _ Ea). reflexivity.
  - rewrite !(bind_step _ _ _ _ _ Ea).
    apply read_file_piece_stream in Ea as (Hb & _ & Hpos); [|assumption].
    unfold pyio.bind. rewrite (IH m r1); [reflexivity|lia| |lia].
    unfold asset.turns_left, size in *. rewrite Hb.
    assert (H1 : (Z.of_nat (length (buf r)) - pos r1 + 11) / 12
                 <= (Z.of_nat (length (buf r)) - (pos r + 12) + 11) / 12)
      by (apply Z.div_le_mono; lia).
    replace (Z.of_nat (length (buf r)) - pos r + 11)
      with (Z.of_nat (length (buf r)) - (pos r + 12) + 11 + 1 * 12) in Hn by lia.
    rewrite Z.div_add in Hn by lia.
    destruct (Z.le_gt_cases 0 (Z.of_nat (length (buf r)) - (pos r + 12) + 11))
      as [Hge|Hneg].
    + assert (0 <= (Z.of_nat (length (buf r)) - (pos r + 12) + 11) / 12)
        by (apply Z.div_pos; lia). lia.
    + assert ((Z.of_nat (length (buf r)) - (pos r + 12) + 11) / 12 < 0)
        by (apply Z.div_lt_upper_bound; lia). lia.
Qed.

Lemma split_loop_pieces (ps : list (Z * py.bytes * py.bytes)) (n : nat) (r : stream) :
  0 <= pos r <= size r ->
  drop (Z.to_nat (pos r)) (buf r) = asset.pieces_bytes ps ->
  Forall asset.piece_ok ps -> (length ps < n)%nat ->
  asset.split_loop n r
  = py.ok (map asset.as_piece ps, Stream (buf r) (size r) (in_memory r)).
Proof.
  revert n r. induction ps as [|[[mg me] da] ps IH]; intros n r Hp Hd Hok Hn;
    (destruct n as [|n]; [simpl in Hn; lia|]); cbn [asset.split_loop];
    rewrite (bind_step _ _ _ _ _ (read_field 1 r ltac:(lia) (proj1 Hp)));
    rewrite Hd.
  - unfold asset.pieces_bytes in *. cbn [map concat] in *. rewrite take_nil.
    cbn [length Nat.eqb].
    apply (f_equal length) in Hd. rewrite length_drop in Hd. simpl in Hd.
    unfold ret, py.ok, size in *. do 3 f_equal. lia.
  - apply Forall_cons in Hok as [(Hmg & Hme & Hda) Hok]. cbn [fst snd] in *.
    unfold asset.pieces_bytes in Hd |- *. cbn [map concat fst snd] in Hd |- *.
    assert (Hlen : (16 <= length (asset.piece_bytes mg me da))%nat
                   \/ (12 <= length (asset.piece_bytes mg me da))%nat).
    { right. unfold asset.piece_bytes. rewrite !length_app, !le_encode_length. lia. }
    assert (Hsz : pos r + Z.of_nat (length (asset.piece_bytes mg me da))
                  + Z.of_nat (length (asset.pieces_bytes ps)) = size r).
    { apply (f_equal length) in Hd. rewrite length_drop, length_app in Hd.
      unfold size, asset.pieces_bytes. lia. }
    replace (length (take (Z.to_nat 1) (asset.piece_bytes mg me da
                                         ++ concat (map _ ps))) =? 0)%nat
      with false
      by (symmetry; apply Nat.eqb_neq; rewrite length_take, length_app; lia).
    assert (Hback : seek_cur (-1)
                      (Stream (buf r) (pos r + Z.min 1 (Z.max 0 (size r - pos r)))
                         (in_memory r))
                    = py.ok (tt, r)).
    { unfold seek_cur, seek_rel. cbn [buf pos in_memory].
      rewrite Z.min_l by lia.
      replace (pos r + 1 + -1) with (pos r) by lia.
      destruct (pos r <? 0) eqn:E0; [apply Z.ltb_lt in E0; lia|].
      destruct r; reflexivity. }
    rewrite (bind_step _ _ _ _ _ Hback).
    rewrite (bind_step _ _ _ _ _
               (read_file_piece_at r mg me da _ (proj1 Hp) Hd Hmg Hme Hda)).
    erewrite bind_step; [reflexivity|].
    rewrite (IH n); cbn [buf pos in_memory].
    + reflexivity.
    + unfold size in *. cbn [buf]. lia.
    + replace (Z.to_nat (pos r + Z.of_nat (length (asset.piece_bytes mg me da))))
        with (Z.to_nat (pos r) + length (asset.piece_bytes mg me da))%nat by lia.
      rewrite <- drop_drop, Hd. apply drop_app_length.
    + exact Hok.
    + simpl in Hn. lia.
Qed.

Lemma pieces_bytes_length (ps : list (Z * py.bytes * py.bytes)) :
  (12 * length ps <= length (asset.pieces_bytes ps))%nat.
Proof.
  unfold asset.pieces_bytes.
  induction ps as [|[[mg me] da] ps IH]; cbn [map concat length fst snd]; [lia|].
  rewrite length_app. unfold asset.piece_bytes at 1.
  rewrite !length_app, !le_encode_length. lia.
Qed.

(** X30 ([split_asset], [read_file_piece]).  A stream that holds,
    from the cursor to its end, a sequence of pieces (meta length, meta,
    data length, magic, data; lengths and magic as 32-bit fields) is
    split into exactly those pieces, in order, each with its magic and
    fresh streams over its meta and its data; the cursor is left at the
    end. *)
Theorem split_asset_pieces (ps : list (Z * py.bytes * py.bytes)) (r : stream) :
  0 <= pos r <= size r ->
  drop (Z.to_nat (pos r)) (buf r) = asset.pieces_bytes ps ->
  Forall asset.piece_ok ps ->
  asset.split_asset r
  = py.ok (map asset.as_piece ps, Stream (buf r) (size r) (in_memory r)).
Proof.
  intros Hp Hd Hok. unfold asset.split_asset.
  apply split_loop_pieces; try assumption.
  unfold asset.turns_left.
  pose proof (pieces_bytes_length ps) as Hl.
  assert (Hsz : size r - pos r = Z.of_nat (length (asset.pieces_bytes ps))).
  { apply (f_equal length) in Hd. rewrite length_drop in Hd. unfold size in *. lia. }
  assert (Z.of_nat (length ps) <= (size r - pos r + 11) / 12)
    by (apply Z.div_le_lower_bound; lia).
  lia.
Qed.

Lemma split_asset_pieces_witness :
  asset.split_asset
    (BytesIO (asset.pieces_bytes [(16, [x01], [x02; x03]); (17, [], [x04])]))
  = py.ok ([(16, BytesIO [x01], BytesIO [x02; x03]); (17, BytesIO [], BytesIO [x04])],
           Stream (asset.pieces_bytes [(16, [x01], [x02; x03]); (17, [], [x04])])
             28 true).
Proof.
  apply (split_asset_pieces [(16, [x01], [x02; x03]); (17, [], [x04])]
           (BytesIO (asset.pieces_bytes [(16, [x01], [x02; x03]); (17, [], [x04])]))).
  - vm_compute. split; discriminate.
  - reflexivity.
  - repeat constructor; vm_compute; try discriminate; reflexivity.
Defined.
